(** * SolanaSwapAgent: the off-chain arbitrage engine, embedded in Rocq

    The development follows the Python sources under [offchain/src]:
    - [utils.py]          : [calculate_profit], [calculate_slippage_amount];
    - [price_monitor.py]  : the per-venue polling loop, the price store and
                            [get_arbitrage_opportunities];
    - [swap_agent.py]     : [find_arbitrage_opportunities] and
                            [execute_opportunities];
    - [swap_executor.py]  : [_build_swap_data], [execute_arbitrage_swap] and
                            the execution statistics.

    Numbers are modelled as Python has them.  A [float] is an IEEE 754
    binary64 value, taken from the standard library's [SpecFloat] with
    [prec = 53] and [emax = 1024]; a [Decimal] is a coefficient and a decimal
    exponent, every arithmetic operation being rounded to the 28 significant
    digits of the default context (ROUND_HALF_EVEN); an [int] is a [Z].
    Exceptions are values of an outcome type, and code that mutates [self]
    runs in a small state-and-exception monad. *)

From Stdlib Require Import ZArith QArith Qpower Qminmax List String Ascii Bool.
From Stdlib Require Import Lia SpecFloat.
From Stdlib Require Import Sorting.Sorted Sorting.Permutation.
From stdpp Require Import gmap strings.
Import ListNotations.

Open Scope Z_scope.

(** ** Python exceptions and results *)

Inductive exn : Type :=
| ZeroDivisionError
| OverflowError
| ValueError
| InvalidOperation
| BackendError.          (* any [Exception] raised by an external collaborator *)

Inductive outcome (A : Type) : Type :=
| Return (a : A)
| Raise (e : exn).
Arguments Return {A} a.
Arguments Raise {A} e.

Definition obind {A B} (x : outcome A) (k : A -> outcome B) : outcome B :=
  match x with
  | Return a => k a
  | Raise e => Raise e
  end.

Declare Scope py_scope.
Delimit Scope py_scope with py.
Notation "'let!' x ':=' c 'in' k" := (obind c (fun x => k))
  (at level 10, x name, c at level 100, k at level 200) : py_scope.

(** [try: ... except Exception: return None] *)
Definition or_None {A} (x : outcome (option A)) : option A :=
  match x with
  | Return r => r
  | Raise _ => None
  end.

(** ** Python [float]: IEEE 754 binary64 *)

Module PyFloat.

Definition prec : Z := 53.
Definition emax : Z := 1024.

Definition float : Type := spec_float.

Definition fadd : float -> float -> float := SFadd prec emax.
Definition fsub : float -> float -> float := SFsub prec emax.
Definition fmul : float -> float -> float := SFmul prec emax.

Definition is_zero (x : float) : bool :=
  match x with S754_zero _ => true | _ => false end.

Definition is_nan (x : float) : bool :=
  match x with S754_nan => true | _ => false end.

(** [x / y] on floats raises on a zero divisor. *)
Definition fdiv (x y : float) : outcome float :=
  if is_zero y then Raise ZeroDivisionError else Return (SFdiv prec emax x y).

(** Comparisons; every comparison with a NaN is [False]. *)
Definition flt (x y : float) : bool := SFltb x y.
Definition fgt (x y : float) : bool := SFltb y x.
Definition fle (x y : float) : bool := SFleb x y.
Definition fge (x y : float) : bool := SFleb y x.

(** [float(n)] for an [int]: correctly rounded, [OverflowError] beyond the
    largest finite double. *)
Definition of_int (n : Z) : outcome float :=
  match binary_normalize prec emax n 0 false with
  | S754_infinity _ => Raise OverflowError
  | f => Return f
  end.

(** The correctly rounded quotient of two integers ([SFdiv] rounds the
    exact quotient of the two mantissas once, whatever their size). *)
Definition ratio (s : bool) (p q : positive) : float :=
  SFdiv prec emax (S754_finite s p 0) (S754_finite false q 0).

(** [a / b] on two [int]s (true division). *)
Definition int_truediv (a b : Z) : outcome float :=
  match b with
  | Z0 => Raise ZeroDivisionError
  | _ =>
    match a with
    | Z0 => Return (S754_zero (b <? 0))
    | _ =>
      match ratio (xorb (a <? 0) (b <? 0)) (Z.to_pos (Z.abs a)) (Z.to_pos (Z.abs b)) with
      | S754_infinity _ => Raise OverflowError
      | f => Return f
      end
    end
  end.

(** [n * x], [x * n] and [x / n] with [n] an [int] convert [n] first. *)
Definition int_mul_float (n : Z) (x : float) : outcome float :=
  (let! fn := of_int n in Return (fmul fn x))%py.

Definition float_mul_int (x : float) (n : Z) : outcome float :=
  (let! fn := of_int n in Return (fmul x fn))%py.

Definition float_div_int (x : float) (n : Z) : outcome float :=
  (let! fn := of_int n in fdiv x fn)%py.

(** [int(x)]: truncation toward zero. *)
Definition to_int (x : float) : outcome Z :=
  match x with
  | S754_zero _ => Return 0
  | S754_infinity _ => Raise OverflowError
  | S754_nan => Raise ValueError
  | S754_finite s m e =>
    let a := match e with
             | Zneg k => Z.shiftr (Zpos m) (Zpos k)
             | _ => Z.shiftl (Zpos m) e
             end in
    Return (if s then - a else a)
  end.

(** The exact rational value of a finite float. *)
Definition to_Q (x : float) : Q :=
  match x with
  | S754_finite s m e =>
    let v := (inject_Z (Zpos m) * 2 ^ e)%Q in
    if s then Qopp v else v
  | _ => 0%Q
  end.

(** [0.0] *)
Definition f0 : float := S754_zero false.

End PyFloat.

Abbreviation float := PyFloat.float.

(** ** Python [Decimal]: finite values under the default context

    A finite [Decimal] is [coefficient * 10 ^ exponent].  The sign is carried
    by the coefficient, so the two zeros of the arithmetic are one value
    here.  The exponent is unbounded: the limits [Emin], [Emax] of the
    context (a million digits away) are outside the model, as are the
    special values (NaN, Infinity), which no price of the sources takes. *)

Module PyDecimal.

Record t : Type := mk { coefficient : Z; exponent : Z }.

Definition context_prec : Z := 28.

Fixpoint digits_fuel (fuel : nat) (n : Z) : Z :=
  match fuel with
  | O => 1
  | S k => if n <? 10 then 1 else 1 + digits_fuel k (n / 10)
  end.

(** [len(str(abs(n)))] *)
Definition num_digits (n : Z) : Z :=
  digits_fuel (Z.to_nat (Z.log2 (Z.abs n))) (Z.abs n).

(** [n / d] rounded to the nearest integer, ties to even ([0 <= n], [0 < d]). *)
Definition div_half_even (n d : Z) : Z :=
  let q := n / d in
  match 2 * (n mod d) ?= d with
  | Lt => q
  | Gt => q + 1
  | Eq => if Z.even q then q else q + 1
  end.

(** [Decimal._fix]: round to the precision of the context. *)
Definition fix_ (x : t) : t :=
  let c := coefficient x in
  let nd := num_digits c in
  if nd <=? context_prec then x
  else
    let k := nd - context_prec in
    let m := div_half_even (Z.abs c) (10 ^ k) in
    if m =? 10 ^ context_prec
    then mk (Z.sgn c * 10 ^ (context_prec - 1)) (exponent x + k + 1)
    else mk (Z.sgn c * m) (exponent x + k).

(** Both coefficients at the smaller of the two exponents. *)
Definition align (x y : t) : Z * Z * Z :=
  let e := Z.min (exponent x) (exponent y) in
  (coefficient x * 10 ^ (exponent x - e),
   coefficient y * 10 ^ (exponent y - e), e).

Definition compare (x y : t) : comparison :=
  let '(a, b, _) := align x y in (a ?= b).

Definition lt (x y : t) : bool :=
  match compare x y with Lt => true | _ => false end.
Definition gt (x y : t) : bool := lt y x.
Definition le (x y : t) : bool :=
  match compare x y with Gt => false | _ => true end.

(** [bool(x)] *)
Definition truthy (x : t) : bool := negb (coefficient x =? 0).

Definition of_int (n : Z) : t := mk n 0.
Definition zero : t := of_int 0.                 (* Decimal("0") *)

Definition sub (x y : t) : t :=
  let '(a, b, e) := align x y in fix_ (mk (a - b) e).

Definition mul (x y : t) : t :=
  fix_ (mk (coefficient x * coefficient y) (exponent x + exponent y)).

(** [Decimal.__truediv__]: the quotient is computed to one digit more than
    the precision, a non-zero remainder is recorded in the last digit, and
    the result is rounded by [_fix].  (The removal of trailing zeros from
    an exact quotient changes the representation, not the value, and is
    left out.) *)
Definition div (x y : t) : outcome t :=
  if coefficient y =? 0 then
    Raise (if coefficient x =? 0 then InvalidOperation else ZeroDivisionError)
  else if coefficient x =? 0 then Return (mk 0 (exponent x - exponent y))
  else
    let shift := num_digits (coefficient y) - num_digits (coefficient x)
                 + context_prec + 1 in
    let e := exponent x - exponent y - shift in
    let n := if 0 <=? shift then Z.abs (coefficient x) * 10 ^ shift
             else Z.abs (coefficient x) in
    let d := if 0 <=? shift then Z.abs (coefficient y)
             else Z.abs (coefficient y) * 10 ^ (- shift) in
    let q := n / d in
    let q' := if n mod d =? 0 then q
              else if q mod 5 =? 0 then q + 1 else q in
    Return (fix_ (mk (Z.sgn (coefficient x) * Z.sgn (coefficient y) * q') e)).

(** The builtin [max(a, b)]: [b] only when [b > a]. *)
Definition max (a b : t) : t := if gt b a then b else a.

(** [float(x)]: the double nearest to the decimal value. *)
Definition to_float (x : t) : float :=
  match coefficient x with
  | Z0 => S754_zero false
  | Zpos m =>
    match exponent x with
    | Zneg k => PyFloat.ratio false m (10 ^ k)%positive
    | e => binary_normalize PyFloat.prec PyFloat.emax (Zpos m * 10 ^ e) 0 false
    end
  | Zneg m =>
    match exponent x with
    | Zneg k => PyFloat.ratio true m (10 ^ k)%positive
    | e => binary_normalize PyFloat.prec PyFloat.emax (Zneg m * 10 ^ e) 0 false
    end
  end.

(** The exact rational value. *)
Definition to_Q (x : t) : Q :=
  (inject_Z (coefficient x) * 10 ^ exponent x)%Q.

End PyDecimal.

Abbreviation Decimal := PyDecimal.t.

(** ** [utils.py] *)

(** [calculate_profit].  The three arguments are the values that
    [Decimal(str(.))] makes of the parameters: the conversion is the identity
    on a finite [Decimal], and on a [float] it yields the decimal that [repr]
    prints. *)
Definition calculate_profit (buy_price sell_price position_size : Decimal)
  : Decimal :=
  let profit := PyDecimal.mul (PyDecimal.sub sell_price buy_price) position_size in
  PyDecimal.max profit PyDecimal.zero.

(** [calculate_slippage_amount] *)
Definition calculate_slippage_amount (amount slippage_bps : Z) : outcome Z :=
  (let! slippage_factor := PyFloat.int_truediv (10000 - slippage_bps) 10000 in
   let! product := PyFloat.int_mul_float amount slippage_factor in
   PyFloat.to_int product)%py.

(** ** State and exceptions

    A method that mutates [self] is a function from the state before the
    call to its result and the state after it; a raised exception keeps the
    mutations made so far. *)

Definition M (S A : Type) : Type := S -> outcome A * S.

Definition ret {S A} (a : A) : M S A := fun s => (Return a, s).

Definition bind {S A B} (m : M S A) (k : A -> M S B) : M S B :=
  fun s =>
    match m s with
    | (Return a, s') => k a s'
    | (Raise e, s') => (Raise e, s')
    end.

Definition lift {S A} (o : outcome A) : M S A := fun s => (o, s).
Definition gets {S A} (f : S -> A) : M S A := fun s => (Return (f s), s).
Definition modify {S} (f : S -> S) : M S unit := fun s => (Return tt, f s).

(** [try: body except Exception: handler] *)
Definition try_except {S A} (body : M S A) (handler : exn -> M S A) : M S A :=
  fun s =>
    match body s with
    | (Return a, s') => (Return a, s')
    | (Raise e, s') => handler e s'
    end.

Notation "'do!' x ':=' c 'in' k" := (bind c (fun x => k))
  (at level 10, x name, c at level 100, k at level 200) : py_scope.
Notation "c ';;' k" := (bind c (fun _ => k))
  (at level 100, k at level 200, right associativity) : py_scope.

(** [for x in l: acc = body(acc, x)] *)
Fixpoint for_each {S A B} (l : list A) (body : B -> A -> M S B) (acc : B)
  : M S B :=
  match l with
  | [] => ret acc
  | x :: rest => (do! acc' := body acc x in for_each rest body acc')%py
  end.

(** ** Builtins on lists *)

Section Builtins.
Context {A : Type}.
Variable key : A -> float.

(** [min(l, key=key)]: the first element whose key no other undercuts. *)
Definition py_min (l : list A) : outcome A :=
  match l with
  | [] => Raise ValueError
  | x :: rest =>
    Return (fold_left
              (fun best y => if PyFloat.flt (key y) (key best) then y else best)
              rest x)
  end.

(** [max(l, key=key)]: the first element whose key no other exceeds. *)
Definition py_max (l : list A) : outcome A :=
  match l with
  | [] => Raise ValueError
  | x :: rest =>
    Return (fold_left
              (fun best y => if PyFloat.fgt (key y) (key best) then y else best)
              rest x)
  end.

(** [l.sort(key=key, reverse=True)]: descending and stable, elements with
    equal keys stay in their original order.  (The order of the result of
    Python's sort is that of any stable sort as long as the keys are
    comparable, that is, none is a NaN.) *)
Fixpoint insert_desc (x : A) (l : list A) : list A :=
  match l with
  | [] => [x]
  | y :: rest =>
    if PyFloat.flt (key x) (key y) then y :: insert_desc x rest
    else x :: y :: rest
  end.

Definition sort_desc (l : list A) : list A := fold_right insert_desc [] l.

End Builtins.

(** [l[:n]] *)
Definition slice_to {A} (n : Z) (l : list A) : list A :=
  if 0 <=? n then firstn (Z.to_nat n) l
  else firstn (length l - Z.to_nat (- n))%nat l.

(** ** [config.py]: the settings the engine reads *)

Record Settings : Type := {
  monitored_tokens : list string;
  min_profit_threshold : float;
  max_slippage_bps : Z;
  (** [Decimal(str(settings.max_position_size))], see [calculate_profit] *)
  max_position_size : Decimal;
  max_concurrent_swaps : Z;
  (** the value of the float [price_update_interval], in seconds *)
  price_update_interval : Q
}.

(** ** The price store *)

Inductive number : Type :=
| Int (n : Z)
| Float (x : float).

(** The dictionary a venue client builds for one pair. *)
Module PriceData.
Record t : Type := mk {
  price : Decimal;
  liquidity : option number;
  price_impact : float;
  timestamp : float
}.
End PriceData.

(** [latest_prices]: venue name to pair key to quote.  A [dict] iterates in
    insertion order, which decides ties between venues, so the outer level is
    an association list; the inner level is only looked up by key. *)
Abbreviation Prices := (gmap string PriceData.t).
Abbreviation PriceStore := (list (string * Prices)).

(** [d.get(k)] on the outer dictionary *)
Fixpoint store_get (k : string) (d : PriceStore) : option Prices :=
  match d with
  | [] => None
  | (k', v) :: rest => if String.eqb k k' then Some v else store_get k rest
  end.

(** [d[k] = v]: an existing key keeps its position, a new one goes last. *)
Fixpoint store_set (k : string) (v : Prices) (d : PriceStore) : PriceStore :=
  match d with
  | [] => [(k, v)]
  | (k', v') :: rest =>
    if String.eqb k k' then (k, v) :: rest else (k', v') :: store_set k v rest
  end.

(** [f"{token_a}-{token_b}"] *)
Definition pair_key_of (token_a token_b : string) : string :=
  token_a +:+ "-" +:+ token_b.

(** [f"{token_a[:8]}.../{token_b[:8]}..."] *)
Definition token_pair_of (token_a token_b : string) : string :=
  substring 0 8 token_a +:+ ".../" +:+ substring 0 8 token_b +:+ "...".

(** The wall clock: [time.time()] returns the next reading. *)
Record Clock : Type := { readings : nat -> float; calls : nat }.

Definition tick (c : Clock) : float * Clock :=
  (readings c (calls c), {| readings := readings c; calls := S (calls c) |}).

(** ** [price_monitor.py] *)

Module PriceMonitor.

(** The state a method of [PriceMonitor] runs in: the object's price store
    and the wall clock. *)
Record State : Type := {
  latest_prices : PriceStore;
  clock : Clock
}.

Definition time_time : M State float :=
  fun s =>
    let '(now, c) := tick (clock s) in
    (Return now, {| latest_prices := latest_prices s; clock := c |}).

(** *** [get_price_for_pair] *)

(** [price_data = d.copy(); price_data["price"] = 1 / price_data["price"]] *)
Definition inverted (price_data : PriceData.t) : outcome PriceData.t :=
  (let! p := PyDecimal.div (PyDecimal.of_int 1) (PriceData.price price_data) in
   Return (PriceData.mk p (PriceData.liquidity price_data)
             (PriceData.price_impact price_data)
             (PriceData.timestamp price_data)))%py.

(** The loop of the branch without a venue name: the highest price over
    the venues, a venue quoting only the reverse pair counting with its
    inverted price. *)
Definition best_step (pair_key reverse_pair_key : string)
    (best : option PriceData.t) (dex_prices : Prices)
  : outcome (option PriceData.t) :=
  match dex_prices !! pair_key with
  | Some price_data =>
    match best with
    | None => Return (Some price_data)
    | Some b =>
      Return (if PyDecimal.gt (PriceData.price price_data) (PriceData.price b)
              then Some price_data else best)
    end
  | None =>
    match dex_prices !! reverse_pair_key with
    | Some rev =>
      (let! price_data := inverted rev in
       match best with
       | None => Return (Some price_data)
       | Some b =>
         Return (if PyDecimal.gt (PriceData.price price_data) (PriceData.price b)
                 then Some price_data else best)
       end)%py
    | None => Return best
    end
  end.

Fixpoint best_over (pair_key reverse_pair_key : string)
    (l : list Prices) (best : option PriceData.t)
  : outcome (option PriceData.t) :=
  match l with
  | [] => Return best
  | d :: rest =>
    (let! best' := best_step pair_key reverse_pair_key best d in
     best_over pair_key reverse_pair_key rest best')%py
  end.

Definition get_price_for_pair (token_a token_b : string)
    (dex_name : option string) : M State (option PriceData.t) :=
  let pair_key := pair_key_of token_a token_b in
  let reverse_pair_key := pair_key_of token_b token_a in
  (do! store := gets latest_prices in
   match dex_name with
   | Some (String c n as name) =>
     let dex_prices := default ∅ (store_get name store) in
     match dex_prices !! pair_key with
     | Some price_data => ret (Some price_data)
     | None =>
       match dex_prices !! reverse_pair_key with
       | Some rev => do! r := lift (inverted rev) in ret (Some r)
       | None => ret None
       end
     end
   | _ => lift (best_over pair_key reverse_pair_key (map snd store) None)
   end)%py.

(** *** [get_arbitrage_opportunities] *)

(** An element of the list [dex_prices]. *)
Record DexPrice : Type := {
  dex : string;
  dp_price : float;
  dp_liquidity : number;
  dp_timestamp : float
}.

Record Opportunity : Type := {
  token_pair : string;
  buy_dex : string;
  sell_dex : string;
  buy_price : float;
  sell_price : float;
  profit_percentage : float;
  buy_liquidity : number;
  sell_liquidity : number;
  timestamp : float
}.

(** The loop over the venues: a venue contributes when, and only when, it
    has the pair key itself. *)
Definition collect_step (pair_key : string) (dex_prices : list DexPrice)
    (item : string * Prices) : list DexPrice :=
  let '(dex_name, prices) := item in
  match prices !! pair_key with
  | Some price_data =>
    dex_prices ++
      [{| dex := dex_name;
          dp_price := PyDecimal.to_float (PriceData.price price_data);
          dp_liquidity := default (Int 0) (PriceData.liquidity price_data);
          dp_timestamp := PriceData.timestamp price_data |}]
  | None => dex_prices
  end.

Definition collect (pair_key : string) (store : PriceStore) : list DexPrice :=
  fold_left (collect_step pair_key) store [].

(** [(max_price - min_price) / min_price * 100] *)
Definition profit_of (min_price max_price : float) : outcome float :=
  (let! ratio := PyFloat.fdiv (PyFloat.fsub max_price min_price) min_price in
   PyFloat.float_mul_int ratio 100)%py.

(** The body of the two loops over the monitored tokens, for one ordered
    pair of distinct tokens. *)
Definition scan_pair (min_profit_percentage : float)
    (token_a token_b : string) (opportunities : list Opportunity)
  : M State (list Opportunity) :=
  let pair_key := pair_key_of token_a token_b in
  (do! store := gets latest_prices in
   let dex_prices := collect pair_key store in
   if (2 <=? length dex_prices)%nat then
     do! min_price_entry := lift (py_min dp_price dex_prices) in
     do! max_price_entry := lift (py_max dp_price dex_prices) in
     if negb (String.eqb (dex min_price_entry) (dex max_price_entry)) then
       do! pct := lift (profit_of (dp_price min_price_entry)
                                  (dp_price max_price_entry)) in
       if PyFloat.fge pct min_profit_percentage then
         do! now := time_time in
         ret (opportunities ++
                [{| token_pair := token_pair_of token_a token_b;
                    buy_dex := dex min_price_entry;
                    sell_dex := dex max_price_entry;
                    buy_price := dp_price min_price_entry;
                    sell_price := dp_price max_price_entry;
                    profit_percentage := pct;
                    buy_liquidity := dp_liquidity min_price_entry;
                    sell_liquidity := dp_liquidity max_price_entry;
                    timestamp := now |}])
       else ret opportunities
     else ret opportunities
   else ret opportunities)%py.

Definition get_arbitrage_opportunities (settings : Settings)
    (min_profit_percentage : float) : M State (list Opportunity) :=
  (do! opportunities :=
     for_each (monitored_tokens settings)
       (fun acc token_a =>
          for_each (monitored_tokens settings)
            (fun acc token_b =>
               if String.eqb token_a token_b then ret acc
               else scan_pair min_profit_percentage token_a token_b acc)
            acc)
       [] in
   ret (sort_desc profit_percentage opportunities))%py.

(** *** [_monitor_dex_prices]: one venue's polling loop *)

Definition max_failures : nat := 5.

(** What [await dex_client.get_all_prices()] does in one iteration.  (Of
    what the loop does with the prices it receives, the write to
    [latest_prices] is kept; the history ring, the cache and the latency
    log, which the scans never read, are left out.) *)
Inductive poll : Type :=
| Polled (prices : Prices)      (* it returned this dictionary *)
| PollRaised.                   (* it raised an [Exception] *)

(** The local variable of the loop and the store it writes. *)
Record Loop : Type := {
  consecutive_failures : nat;
  store : PriceStore
}.

(** [min(30.0, 2 ** consecutive_failures)], in seconds *)
Definition backoff (failures : nat) : Q :=
  let p := inject_Z (2 ^ Z.of_nat failures) in
  match (p ?= 30)%Q with
  | Lt => p
  | _ => 30%Q
  end.

(** One iteration of the [while] loop: the new loop state and the delays
    handed to [asyncio.sleep], in order, before the next poll. *)
Definition iteration (settings : Settings) (dex_name : string)
    (l : Loop) (p : poll) : Loop * list Q :=
  match p with
  | Polled prices =>
    let l1 :=
      if bool_decide (prices = ∅)
      then {| consecutive_failures := S (consecutive_failures l);
              store := store l |}
      else {| consecutive_failures := 0;
              store := store_set dex_name prices (store l) |} in
    if (max_failures <=? consecutive_failures l1)%nat
    then ({| consecutive_failures := 0; store := store l1 |},
          [30%Q; price_update_interval settings])
    else (l1, [price_update_interval settings])
  | PollRaised =>
    let failures := S (consecutive_failures l) in
    ({| consecutive_failures := failures; store := store l |},
     [backoff failures])
  end.

(** The loop over the first polls of a run: the delays of each iteration. *)
Fixpoint run (settings : Settings) (dex_name : string)
    (l : Loop) (polls : list poll) : Loop * list (list Q) :=
  match polls with
  | [] => (l, [])
  | p :: rest =>
    let '(l1, sleeps) := iteration settings dex_name l p in
    let '(l2, trace) := run settings dex_name l1 rest in
    (l2, sleeps :: trace)
  end.

End PriceMonitor.

(** ** [swap_agent.py] *)

Module SwapAgent.

Record ArbitrageOpportunity : Type := {
  token_a : string;
  token_b : string;
  buy_dex : string;
  sell_dex : string;
  buy_price : Decimal;
  sell_price : Decimal;
  profit_percentage : float;
  estimated_profit : Decimal;
  swap_path : list string;
  timestamp : float
}.

(** The four [best_*] variables; [None] until a venue has quoted.  A price
    and its venue are always assigned together. *)
Record Best : Type := {
  best_buy_price : option Decimal;
  best_sell_price : option Decimal;
  best_buy_dex : option string;
  best_sell_dex : option string
}.

Definition no_best : Best :=
  {| best_buy_price := None; best_sell_price := None;
     best_buy_dex := None; best_sell_dex := None |}.

(** [best is None or price < best] *)
Definition improves (cmp : Decimal -> Decimal -> bool) (price : Decimal)
    (best : option Decimal) : bool :=
  match best with
  | None => true
  | Some b => cmp price b
  end.

(** The body of the loop over [price_data.items()].  The reverse key is
    built and never looked up. *)
Definition best_step (token_a token_b : string) (b : Best)
    (item : string * Prices) : Best :=
  let '(dex_name, dex_prices) := item in
  let pair_key := pair_key_of token_a token_b in
  let reverse_pair_key := pair_key_of token_b token_a in
  match dex_prices !! pair_key with
  | Some price_data =>
    let price := PriceData.price price_data in
    let b1 :=
      if improves PyDecimal.lt price (best_buy_price b)
      then {| best_buy_price := Some price;
              best_sell_price := best_sell_price b;
              best_buy_dex := Some dex_name;
              best_sell_dex := best_sell_dex b |}
      else b in
    if improves PyDecimal.gt price (best_sell_price b1)
    then {| best_buy_price := best_buy_price b1;
            best_sell_price := Some price;
            best_buy_dex := best_buy_dex b1;
            best_sell_dex := Some dex_name |}
    else b1
  | None => b
  end.

(** [float((sell - buy) / buy * 100)] *)
Definition profit_of (buy sell : Decimal) : outcome float :=
  (let! ratio := PyDecimal.div (PyDecimal.sub sell buy) buy in
   Return (PyDecimal.to_float (PyDecimal.mul ratio (PyDecimal.of_int 100))))%py.

(** The body of the two loops over the monitored tokens, for one ordered
    pair of distinct tokens. *)
Definition scan_pair (settings : Settings) (current_time : float)
    (price_data : PriceStore) (token_a token_b : string)
    (opportunities : list ArbitrageOpportunity)
  : outcome (list ArbitrageOpportunity) :=
  let b := fold_left (best_step token_a token_b) price_data no_best in
  match best_buy_price b, best_sell_price b, best_buy_dex b, best_sell_dex b with
  | Some buy, Some sell, Some bdex, Some sdex =>
    if PyDecimal.truthy buy && PyDecimal.truthy sell
       && negb (String.eqb bdex sdex) && PyDecimal.gt sell buy
    then
      (let! pct := profit_of buy sell in
       if PyFloat.fge pct (min_profit_threshold settings) then
         let estimated := calculate_profit buy sell (max_position_size settings) in
         Return (opportunities ++
                   [{| token_a := token_a;
                       token_b := token_b;
                       buy_dex := bdex;
                       sell_dex := sdex;
                       buy_price := buy;
                       sell_price := sell;
                       profit_percentage := pct;
                       estimated_profit := estimated;
                       swap_path := [bdex; sdex];
                       timestamp := current_time |}])
       else Return opportunities)%py
    else Return opportunities
  | _, _, _, _ => Return opportunities
  end.

Fixpoint scan_tokens_b (settings : Settings) (current_time : float)
    (price_data : PriceStore) (token_a : string) (tokens : list string)
    (opportunities : list ArbitrageOpportunity)
  : outcome (list ArbitrageOpportunity) :=
  match tokens with
  | [] => Return opportunities
  | token_b :: rest =>
    (let! acc :=
       if String.eqb token_a token_b then Return opportunities
       else scan_pair settings current_time price_data token_a token_b
              opportunities in
     scan_tokens_b settings current_time price_data token_a rest acc)%py
  end.

Fixpoint scan_tokens_a (settings : Settings) (current_time : float)
    (price_data : PriceStore) (tokens : list string)
    (opportunities : list ArbitrageOpportunity)
  : outcome (list ArbitrageOpportunity) :=
  match tokens with
  | [] => Return opportunities
  | token_a :: rest =>
    (let! acc := scan_tokens_b settings current_time price_data token_a
                   (monitored_tokens settings) opportunities in
     scan_tokens_a settings current_time price_data rest acc)%py
  end.

(** [find_arbitrage_opportunities]: the wall clock is read once, the store
    is read through [get_latest_prices] (a copy of the outer dictionary). *)
Definition find_arbitrage_opportunities (settings : Settings)
  : M PriceMonitor.State (list ArbitrageOpportunity) :=
  (do! current_time := PriceMonitor.time_time in
   do! price_data := gets PriceMonitor.latest_prices in
   match price_data with
   | [] => ret []
   | _ =>
     do! opportunities :=
       lift (scan_tokens_a settings current_time price_data
               (monitored_tokens settings) []) in
     ret (slice_to (max_concurrent_swaps settings)
            (sort_desc profit_percentage opportunities))
   end)%py.

(** [execute_opportunities]: the opportunities a task is created for. *)
Fixpoint launch (settings : Settings)
    (opportunities tasks : list ArbitrageOpportunity)
  : list ArbitrageOpportunity :=
  match opportunities with
  | [] => tasks
  | opportunity :: rest =>
    if Z.of_nat (length tasks) >=? max_concurrent_swaps settings then tasks
    else launch settings rest (tasks ++ [opportunity])
  end.

Definition execute_opportunities (settings : Settings)
    (opportunities : list ArbitrageOpportunity)
  : list ArbitrageOpportunity :=
  launch settings opportunities [].

End SwapAgent.

(** ** [swap_executor.py] *)

(** The arithmetic of the running average.  The executor computes in
    binary64; the same formula read over the rationals is the exact
    arithmetic the incremental-mean identity belongs to. *)
Class Arith (F : Type) : Type := {
  arith_add : F -> F -> F;
  arith_mul_int : F -> Z -> outcome F;
  arith_div_int : F -> Z -> outcome F
}.

#[export] Instance float_arith : Arith float := {|
  arith_add := PyFloat.fadd;
  arith_mul_int := PyFloat.float_mul_int;
  arith_div_int := PyFloat.float_div_int
|}.

#[export] Instance exact_arith : Arith Q := {|
  arith_add := Qplus;
  arith_mul_int := fun x n => Return (x * inject_Z n)%Q;
  arith_div_int := fun x n =>
    if n =? 0 then Raise ZeroDivisionError else Return (x / inject_Z n)%Q
|}.

(** [((current_avg * (total_successful - 1)) + execution_time) / total_successful] *)
Definition new_average {F} `{Arith F} (current_avg : F) (total_successful : Z)
    (execution_time : F) : outcome F :=
  (let! scaled := arith_mul_int current_avg (total_successful - 1) in
   arith_div_int (arith_add scaled execution_time) total_successful)%py.

Module SwapExecutor.

Record ExecutionStats : Type := {
  total_attempts : Z;
  successful_swaps : Z;
  failed_swaps : Z;
  total_gas_used : Z;
  average_execution_time : float
}.

(** The dictionary [__init__] creates. *)
Definition initial_stats : ExecutionStats :=
  {| total_attempts := 0; successful_swaps := 0; failed_swaps := 0;
     total_gas_used := 0; average_execution_time := PyFloat.f0 |}.

Record State : Type := {
  execution_stats : ExecutionStats;
  clock : Clock
}.

Definition time_time : M State float :=
  fun s =>
    let '(now, c) := tick (clock s) in
    (Return now, {| execution_stats := execution_stats s; clock := c |}).

Definition update_stats (f : ExecutionStats -> ExecutionStats) : M State unit :=
  modify (fun s => {| execution_stats := f (execution_stats s);
                      clock := clock s |}).

Definition count_attempt (st : ExecutionStats) : ExecutionStats :=
  {| total_attempts := total_attempts st + 1;
     successful_swaps := successful_swaps st;
     failed_swaps := failed_swaps st;
     total_gas_used := total_gas_used st;
     average_execution_time := average_execution_time st |}.

Definition count_success (st : ExecutionStats) : ExecutionStats :=
  {| total_attempts := total_attempts st;
     successful_swaps := successful_swaps st + 1;
     failed_swaps := failed_swaps st;
     total_gas_used := total_gas_used st;
     average_execution_time := average_execution_time st |}.

Definition count_failure (st : ExecutionStats) : ExecutionStats :=
  {| total_attempts := total_attempts st;
     successful_swaps := successful_swaps st;
     failed_swaps := failed_swaps st + 1;
     total_gas_used := total_gas_used st;
     average_execution_time := average_execution_time st |}.

Definition add_gas (gas : Z) (st : ExecutionStats) : ExecutionStats :=
  {| total_attempts := total_attempts st;
     successful_swaps := successful_swaps st;
     failed_swaps := failed_swaps st;
     total_gas_used := total_gas_used st + gas;
     average_execution_time := average_execution_time st |}.

Definition set_average (avg : float) (st : ExecutionStats) : ExecutionStats :=
  {| total_attempts := total_attempts st;
     successful_swaps := successful_swaps st;
     failed_swaps := failed_swaps st;
     total_gas_used := total_gas_used st;
     average_execution_time := avg |}.

(** *** [_update_average_execution_time] *)
Definition _update_average_execution_time (execution_time : float)
  : M State unit :=
  (do! total_successful := gets (fun s => successful_swaps (execution_stats s)) in
   do! current_avg := gets (fun s => average_execution_time (execution_stats s)) in
   do! new_avg := lift (new_average current_avg total_successful execution_time) in
   update_stats (set_average new_avg))%py.

(** *** [_build_swap_data] *)

Record SwapInstruction : Type := {
  dex_type : Z;
  amount_in : Z;
  minimum_amount_out : Z;
  token_mint_in : string;
  token_mint_out : string
}.

Record SwapData : Type := {
  expected_profit : Z;
  slippage_bps : Z;
  swap_instructions : list SwapInstruction
}.

Definition dex_type_map (name : string) : option Z :=
  if String.eqb name "jupiter" then Some 0
  else if String.eqb name "raydium" then Some 1
  else if String.eqb name "phoenix" then Some 2
  else if String.eqb name "meteora" then Some 3
  else None.

(** [str.lower] on ASCII names *)
Definition lower_ascii (c : ascii) : ascii :=
  let n := nat_of_ascii c in
  if ((65 <=? n) && (n <=? 90))%nat then ascii_of_nat (n + 32) else c.

Fixpoint lower (s : string) : string :=
  match s with
  | EmptyString => EmptyString
  | String c rest => String (lower_ascii c) (lower rest)
  end.

(** The loop over [enumerate(dex_path)]; [None] is the early
    [return None] on an unknown venue. *)
Fixpoint build_steps (settings : Settings) (token_a token_b : string)
    (len_path i : nat) (dex_path : list string) (current_amount : Z)
    (swap_instructions : list SwapInstruction)
  : outcome (option (list SwapInstruction)) :=
  match dex_path with
  | [] => Return (Some swap_instructions)
  | dex_name :: rest =>
    match dex_type_map (lower dex_name) with
    | None => Return None
    | Some ty =>
      let '(input_token, output_token) :=
        if (i =? 0)%nat then (token_a, token_b)
        else if (i =? len_path - 1)%nat then (token_b, token_a)
        else (token_b, token_a) in
      (let! slippage_factor :=
         PyFloat.int_truediv (10000 - max_slippage_bps settings) 10000 in
       let! product := PyFloat.int_mul_float current_amount slippage_factor in
       let! min_amount_out := PyFloat.to_int product in
       build_steps settings token_a token_b len_path (S i) rest min_amount_out
         (swap_instructions ++
            [{| dex_type := ty;
                amount_in := current_amount;
                minimum_amount_out := min_amount_out;
                token_mint_in := input_token;
                token_mint_out := output_token |}]))%py
    end
  end.

Definition _build_swap_data (settings : Settings) (token_a token_b : string)
    (swap_amount : Z) (dex_path : list string) (min_profit : Z)
  : option SwapData :=
  or_None
    (let! r := build_steps settings token_a token_b (length dex_path) 0
                 dex_path swap_amount [] in
     Return (option_map
               (fun l => {| expected_profit := min_profit;
                            slippage_bps := max_slippage_bps settings;
                            swap_instructions := l |}) r))%py.

(** *** [execute_arbitrage_swap] *)

(** What [_send_transaction] returns on success. *)
Record TxResult : Type := {
  signature : string;
  slot : Z;
  gas_used : Z;
  actual_profit : option Z
}.

(** The dictionary [execute_arbitrage_swap] returns on success. *)
Record SwapResult : Type := {
  r_signature : string;
  r_slot : Z;
  r_actual_profit : Z;
  r_gas_used : Z;
  r_execution_time : float;
  r_dex_path : list string
}.

(** What the collaborators of one call do: [_get_swap_accounts] and
    [_send_transaction] catch their own exceptions and return [None];
    [_build_arbitrage_instruction] may raise. *)
Record Backend : Type := {
  get_swap_accounts : option unit;
  build_arbitrage_instruction : outcome unit;
  send_transaction : option TxResult
}.

Definition execute_arbitrage_swap (settings : Settings) (backend : Backend)
    (token_a token_b : string) (swap_amount : Z) (dex_path : list string)
    (min_profit : Z) : M State (option SwapResult) :=
  (do! start_time := time_time in
   update_stats count_attempt ;;
   try_except
     (match _build_swap_data settings token_a token_b swap_amount dex_path
              min_profit with
      | None => update_stats count_failure ;; ret None
      | Some swap_data =>
        match get_swap_accounts backend with
        | None => update_stats count_failure ;; ret None
        | Some accounts =>
          do! swap_instruction := lift (build_arbitrage_instruction backend) in
          match send_transaction backend with
          | Some tx_result =>
            do! now := time_time in
            let execution_time := PyFloat.fsub now start_time in
            update_stats count_success ;;
            update_stats (add_gas (gas_used tx_result)) ;;
            _update_average_execution_time execution_time ;;
            ret (Some {| r_signature := signature tx_result;
                         r_slot := slot tx_result;
                         r_actual_profit := default 0 (actual_profit tx_result);
                         r_gas_used := gas_used tx_result;
                         r_execution_time := execution_time;
                         r_dex_path := dex_path |})
          | None => update_stats count_failure ;; ret None
          end
        end
      end)
     (fun e => update_stats count_failure ;; ret None))%py.

(** A sequence of calls, each with its collaborators and arguments. *)
Record Call : Type := {
  backend : Backend;
  c_token_a : string;
  c_token_b : string;
  c_swap_amount : Z;
  c_dex_path : list string;
  c_min_profit : Z
}.

Definition call (settings : Settings) (c : Call) : M State (option SwapResult) :=
  execute_arbitrage_swap settings (backend c) (c_token_a c) (c_token_b c)
    (c_swap_amount c) (c_dex_path c) (c_min_profit c).

Fixpoint calls (settings : Settings) (l : list Call) (s : State) : State :=
  match l with
  | [] => s
  | c :: rest => calls settings rest (snd (call settings c s))
  end.

End SwapExecutor.

(** ** Definitions the statements below refer to *)

(** The order [SFcompare] puts on the values that are not NaN is the
    lexicographic order of these triples. *)
Definition rank (x : float) : option (Z * Z * Z) :=
  match x with
  | S754_nan => None
  | S754_infinity true => Some (-2, 0, 0)
  | S754_finite true m e => Some (-1, - e, Zneg m)
  | S754_zero _ => Some (0, 0, 0)
  | S754_finite false m e => Some (1, e, Zpos m)
  | S754_infinity false => Some (2, 0, 0)
  end.

Definition lex3 (a b : Z * Z * Z) : comparison :=
  let '(a1, a2, a3) := a in
  let '(b1, b2, b3) := b in
  match a1 ?= b1 with
  | Eq => match a2 ?= b2 with
          | Eq => a3 ?= b3
          | c => c
          end
  | c => c
  end.

(** Descending order of the keys: every element is at least every later one. *)
Definition descending {A} (key : A -> float) : list A -> Prop :=
  StronglySorted (fun a b => PyFloat.fge (key a) (key b) = true).

(** What the scans promise of an opportunity they return: the sell price is
    above the buy price, the profit percentage is the one the formula gives
    for these two prices and reaches the threshold, and the two venues
    differ. *)
Definition monitor_profitable (threshold : float)
    (o : PriceMonitor.Opportunity) : Prop :=
  PyFloat.fgt (PriceMonitor.sell_price o) (PriceMonitor.buy_price o) = true /\
  PriceMonitor.profit_of (PriceMonitor.buy_price o) (PriceMonitor.sell_price o)
    = Return (PriceMonitor.profit_percentage o) /\
  PyFloat.fge (PriceMonitor.profit_percentage o) threshold = true /\
  PriceMonitor.buy_dex o <> PriceMonitor.sell_dex o.

Definition agent_profitable (threshold : float)
    (o : SwapAgent.ArbitrageOpportunity) : Prop :=
  PyDecimal.gt (SwapAgent.sell_price o) (SwapAgent.buy_price o) = true /\
  SwapAgent.profit_of (SwapAgent.buy_price o) (SwapAgent.sell_price o)
    = Return (SwapAgent.profit_percentage o) /\
  PyFloat.fge (SwapAgent.profit_percentage o) threshold = true /\
  SwapAgent.buy_dex o <> SwapAgent.sell_dex o.




(** An opportunity with its timestamp replaced, and a result with the
    timestamps of its opportunities blanked. *)
Definition with_timestamp (now : float) (o : PriceMonitor.Opportunity)
  : PriceMonitor.Opportunity :=
  {| PriceMonitor.token_pair := PriceMonitor.token_pair o;
     PriceMonitor.buy_dex := PriceMonitor.buy_dex o;
     PriceMonitor.sell_dex := PriceMonitor.sell_dex o;
     PriceMonitor.buy_price := PriceMonitor.buy_price o;
     PriceMonitor.sell_price := PriceMonitor.sell_price o;
     PriceMonitor.profit_percentage := PriceMonitor.profit_percentage o;
     PriceMonitor.buy_liquidity := PriceMonitor.buy_liquidity o;
     PriceMonitor.sell_liquidity := PriceMonitor.sell_liquidity o;
     PriceMonitor.timestamp := now |}.


(** The store with the timestamp of every entry replaced by [g] of it. *)
Definition retime_entry (g : PriceData.t -> float) (pd : PriceData.t)
  : PriceData.t :=
  PriceData.mk (PriceData.price pd) (PriceData.liquidity pd)
    (PriceData.price_impact pd) (g pd).

Definition retime (g : PriceData.t -> float) (store : PriceStore) : PriceStore :=
  map (fun item => (fst item, retime_entry g <$> snd item)) store.

(** What one ordered pair adds to the result of
    [get_arbitrage_opportunities], the clock set aside: the opportunity, its
    timestamp blank, if there is one. *)
Definition candidate (min_profit_percentage : float) (token_a token_b : string)
    (store : PriceStore) : outcome (option PriceMonitor.Opportunity) :=
  let dex_prices := PriceMonitor.collect (pair_key_of token_a token_b) store in
  if (2 <=? length dex_prices)%nat then
    (let! mn := py_min PriceMonitor.dp_price dex_prices in
     let! mx := py_max PriceMonitor.dp_price dex_prices in
     if negb (String.eqb (PriceMonitor.dex mn) (PriceMonitor.dex mx)) then
       let! pct := PriceMonitor.profit_of (PriceMonitor.dp_price mn)
                     (PriceMonitor.dp_price mx) in
       if PyFloat.fge pct min_profit_percentage then
         Return (Some {| PriceMonitor.token_pair := token_pair_of token_a token_b;
                         PriceMonitor.buy_dex := PriceMonitor.dex mn;
                         PriceMonitor.sell_dex := PriceMonitor.dex mx;
                         PriceMonitor.buy_price := PriceMonitor.dp_price mn;
                         PriceMonitor.sell_price := PriceMonitor.dp_price mx;
                         PriceMonitor.profit_percentage := pct;
                         PriceMonitor.buy_liquidity := PriceMonitor.dp_liquidity mn;
                         PriceMonitor.sell_liquidity := PriceMonitor.dp_liquidity mx;
                         PriceMonitor.timestamp := PyFloat.f0 |})
       else Return None
     else Return None)%py
  else Return None.

(** Two runs related: the states after them by [RS], their results by [RA]
    when both return, and the same exception when both raise. *)
Definition related {S A} (RS : S -> S -> Prop) (RA : A -> A -> Prop)
    (r1 r2 : outcome A * S) : Prop :=
  RS (snd r1) (snd r2) /\
  match fst r1, fst r2 with
  | Return a, Return b => RA a b
  | Raise e1, Raise e2 => e1 = e2
  | _, _ => False
  end.

(** Two entries of [dex_prices] that differ in their timestamp at most. *)
Definition same_quote (x y : PriceMonitor.DexPrice) : Prop :=
  PriceMonitor.dex x = PriceMonitor.dex y /\
  PriceMonitor.dp_price x = PriceMonitor.dp_price y /\
  PriceMonitor.dp_liquidity x = PriceMonitor.dp_liquidity y.

(** Whether a venue of the store holds the pair key. *)
Definition quotes_pair (pair_key : string) (item : string * Prices) : bool :=
  match snd item !! pair_key with
  | Some _ => true
  | None => false
  end.

(** The failure counter of the polling loop once the poll of an iteration is
    counted, before any pause. *)
Definition failures_after (l : PriceMonitor.Loop) (p : PriceMonitor.poll) : nat :=
  match p with
  | PriceMonitor.Polled prices =>
    if bool_decide (prices = ∅) then S (PriceMonitor.consecutive_failures l)
    else 0%nat
  | PriceMonitor.PollRaised => S (PriceMonitor.consecutive_failures l)
  end.

(** The invariant of the execution statistics. *)
Definition accounted (st : SwapExecutor.ExecutionStats) : Prop :=
  SwapExecutor.total_attempts st
  = SwapExecutor.successful_swaps st + SwapExecutor.failed_swaps st.

(** The execution times of the successful calls of a sequence, in order. *)
Fixpoint latencies (settings : Settings) (l : list SwapExecutor.Call)
    (s : SwapExecutor.State) : list float :=
  match l with
  | [] => []
  | c :: rest =>
    let r := SwapExecutor.call settings c s in
    match fst r with
    | Return (Some res) =>
      SwapExecutor.r_execution_time res :: latencies settings rest (snd r)
    | _ => latencies settings rest (snd r)
    end
  end.

(** The update of the average applied to one latency after the other, [n]
    successes being counted before the first. *)
Fixpoint averages {F} `{Arith F} (avg : F) (n : Z) (xs : list F) : outcome F :=
  match xs with
  | [] => Return avg
  | x :: rest =>
    (let! avg' := new_average avg (n + 1) x in averages avg' (n + 1) rest)%py
  end.

Definition Qsum (xs : list Q) : Q := fold_right Qplus 0%Q xs.

(** [(x1 + ... + xn) / n] over the rationals *)
Definition Qmean (xs : list Q) : Q := (Qsum xs / inject_Z (Z.of_nat (length xs)))%Q.

(** [(x1 + ... + xn) / n] evaluated from left to right in binary64 *)
Definition float_mean (xs : list float) : outcome float :=
  PyFloat.float_div_int (fold_left PyFloat.fadd xs PyFloat.f0)
    (Z.of_nat (length xs)).

(** The execution time a call measures: the second reading of the clock
    less the first. *)
Definition measured (s : SwapExecutor.State) : float :=
  let c := SwapExecutor.clock s in
  PyFloat.fsub (readings c (S (calls c))) (readings c (calls c)).

(** A path of swap instructions is chained from [amount]: the first hop
    takes [amount] in, every hop's minimum output is the slippage amount of
    its input, and is the input of the next hop. *)
Fixpoint chained (slippage_bps amount : Z)
    (l : list SwapExecutor.SwapInstruction) : Prop :=
  match l with
  | [] => True
  | hop :: rest =>
    SwapExecutor.amount_in hop = amount /\
    calculate_slippage_amount amount slippage_bps
      = Return (SwapExecutor.minimum_amount_out hop) /\
    chained slippage_bps (SwapExecutor.minimum_amount_out hop) rest
  end.

(** The difference of the two prices and its product with the position size
    fit the precision of the context, so that neither is rounded. *)
Definition fits_context (buy_price sell_price position_size : Decimal) : Prop :=
  let '(a, b, _) := PyDecimal.align sell_price buy_price in
  PyDecimal.num_digits (a - b) <= PyDecimal.context_prec /\
  PyDecimal.num_digits ((a - b) * PyDecimal.coefficient position_size)
    <= PyDecimal.context_prec.

(** [(sell - buy) / buy * 100] over the rationals *)
Definition exact_percentage (buy sell : Q) : Q := ((sell - buy) / buy * 100)%Q.

(** The opportunities the two loops of [get_arbitrage_opportunities]
    collect, in the order they are found, before they are sorted. *)
Definition monitor_candidates (settings : Settings) (min_profit_percentage : float)
  : M PriceMonitor.State (list PriceMonitor.Opportunity) :=
  for_each (monitored_tokens settings)
    (fun acc token_a =>
       for_each (monitored_tokens settings)
         (fun acc token_b =>
            if String.eqb token_a token_b then ret acc
            else PriceMonitor.scan_pair min_profit_percentage token_a token_b acc)
         acc)
    [].

(** ** [execute_arbitrage_swap] under [asyncio.gather]

    [execute_opportunities] runs its tasks on one event loop: a task runs
    until it awaits something that is not ready, and meanwhile another
    runs.  In [execute_arbitrage_swap] the awaits of [_build_swap_data],
    [_get_swap_accounts] and [_build_arbitrage_instruction] never suspend,
    these coroutines awaiting nothing that is not ready; the await of
    [_send_transaction] does, on the calls to the cluster, and
    [_send_transaction] does not touch the statistics.  So a call runs in
    two pieces, [start] up to the await of the transaction and [finish] from
    its answer on, and pieces of other calls may run in between.  A task
    cancelled while it awaits gets [CancelledError], which is no
    [Exception]: neither handler catches it and the call counts nothing
    more. *)

Module Gather.

(** A call that awaits its transaction: what it holds on to, and the answer
    [_send_transaction] will give it. *)
Record Awaiting : Type := {
  start_time : float;
  dex_path : list string;
  answer : option SwapExecutor.TxResult
}.

(** The first piece: to the end of the call, or to the await of
    [_send_transaction]. *)
Definition start (settings : Settings) (c : SwapExecutor.Call)
  : M SwapExecutor.State (option SwapExecutor.SwapResult + Awaiting) :=
  (do! start_time := SwapExecutor.time_time in
   SwapExecutor.update_stats SwapExecutor.count_attempt ;;
   try_except
     (match SwapExecutor._build_swap_data settings (SwapExecutor.c_token_a c)
              (SwapExecutor.c_token_b c) (SwapExecutor.c_swap_amount c)
              (SwapExecutor.c_dex_path c) (SwapExecutor.c_min_profit c) with
      | None => SwapExecutor.update_stats SwapExecutor.count_failure ;; ret (inl None)
      | Some swap_data =>
        match SwapExecutor.get_swap_accounts (SwapExecutor.backend c) with
        | None =>
          SwapExecutor.update_stats SwapExecutor.count_failure ;; ret (inl None)
        | Some accounts =>
          do! swap_instruction :=
            lift (SwapExecutor.build_arbitrage_instruction (SwapExecutor.backend c)) in
          ret (inr {| start_time := start_time;
                      dex_path := SwapExecutor.c_dex_path c;
                      answer := SwapExecutor.send_transaction
                                  (SwapExecutor.backend c) |})
        end
      end)
     (fun e => SwapExecutor.update_stats SwapExecutor.count_failure ;; ret (inl None)))%py.

(** The second piece: from the answer of [_send_transaction] to the end of
    the call. *)
Definition finish (a : Awaiting)
  : M SwapExecutor.State (option SwapExecutor.SwapResult) :=
  (try_except
     (match answer a with
      | Some tx_result =>
        do! now := SwapExecutor.time_time in
        let execution_time := PyFloat.fsub now (start_time a) in
        SwapExecutor.update_stats SwapExecutor.count_success ;;
        SwapExecutor.update_stats
          (SwapExecutor.add_gas (SwapExecutor.gas_used tx_result)) ;;
        SwapExecutor._update_average_execution_time execution_time ;;
        ret (Some {| SwapExecutor.r_signature := SwapExecutor.signature tx_result;
                     SwapExecutor.r_slot := SwapExecutor.slot tx_result;
                     SwapExecutor.r_actual_profit :=
                       default 0 (SwapExecutor.actual_profit tx_result);
                     SwapExecutor.r_gas_used := SwapExecutor.gas_used tx_result;
                     SwapExecutor.r_execution_time := execution_time;
                     SwapExecutor.r_dex_path := dex_path a |})
      | None => SwapExecutor.update_stats SwapExecutor.count_failure ;; ret None
      end)
     (fun e => SwapExecutor.update_stats SwapExecutor.count_failure ;; ret None))%py.

(** The two pieces one after the other, nothing in between: the call as
    [SwapExecutor.call] has it. *)
Definition uninterrupted (settings : Settings) (c : SwapExecutor.Call)
  : M SwapExecutor.State (option SwapExecutor.SwapResult) :=
  (do! r := start settings c in
   match r with
   | inl result => ret result
   | inr a => finish a
   end)%py.

(** What the event loop does next: a new call runs its first piece; the
    [k]-th of the calls that await gets its answer and runs its second
    piece; or it is cancelled. *)
Inductive Event : Type :=
| Start (c : SwapExecutor.Call)
| Finish (k : nat)
| Cancel (k : nat).

(** How a call ended. *)
Inductive Ending : Type :=
| Returned (result : option SwapExecutor.SwapResult)
| Raised (e : exn)
| Cancelled.

(** The executor and the calls that await their transaction, oldest first. *)
Record World : Type := {
  executor : SwapExecutor.State;
  awaiting : list Awaiting
}.

Definition without {A} (k : nat) (l : list A) : list A :=
  firstn k l ++ skipn (S k) l.

(** One event: the world after it and the call that ended, if one did.  An
    event for a call that does not await is no event. *)
Definition step (settings : Settings) (e : Event) (w : World)
  : World * list Ending :=
  match e with
  | Start c =>
    match start settings c (executor w) with
    | (Return (inl result), s) =>
      ({| executor := s; awaiting := awaiting w |}, [Returned result])
    | (Return (inr a), s) =>
      ({| executor := s; awaiting := awaiting w ++ [a] |}, [])
    | (Raise e, s) => ({| executor := s; awaiting := awaiting w |}, [Raised e])
    end
  | Finish k =>
    match nth_error (awaiting w) k with
    | Some a =>
      let '(r, s) := finish a (executor w) in
      ({| executor := s; awaiting := without k (awaiting w) |},
       [match r with Return result => Returned result | Raise e => Raised e end])
    | None => (w, [])
    end
  | Cancel k =>
    match nth_error (awaiting w) k with
    | Some a =>
      ({| executor := executor w; awaiting := without k (awaiting w) |},
       [Cancelled])
    | None => (w, [])
    end
  end.

(** A schedule: the world after its events and the endings, in order. *)
Fixpoint run (settings : Settings) (schedule : list Event) (w : World)
  : World * list Ending :=
  match schedule with
  | [] => (w, [])
  | e :: rest =>
    let '(w1, ended) := step settings e w in
    let '(w2, ended') := run settings rest w1 in
    (w2, ended ++ ended')
  end.

(** A new executor, no call begun. *)
Definition idle (clock : Clock) : World :=
  {| executor := {| SwapExecutor.execution_stats := SwapExecutor.initial_stats;
                    SwapExecutor.clock := clock |};
     awaiting := [] |}.

Definition is_start (e : Event) : bool :=
  match e with Start _ => true | _ => false end.

Definition is_returned (x : Ending) : bool :=
  match x with Returned _ => true | _ => false end.

Definition is_cancelled (x : Ending) : bool :=
  match x with Cancelled => true | _ => false end.

End Gather.

(** How many elements of a list pass a test. *)
Definition how_many {A} (f : A -> bool) (l : list A) : nat :=
  length (List.filter f l).

(** The tally of a world: the attempts counted are the outcomes counted,
    the calls that await and [cancelled] more. *)
Definition tally (w : Gather.World) (cancelled : nat) : Prop :=
  let st := SwapExecutor.execution_stats (Gather.executor w) in
  SwapExecutor.total_attempts st
  = SwapExecutor.successful_swaps st + SwapExecutor.failed_swaps st
    + Z.of_nat (length (Gather.awaiting w)) + Z.of_nat cancelled.

(** ** Further parts of the sources

    The price history and [get_price_history]; the quotes of
    [get_price_for_pair]; [_send_transaction], the statistics of the agent
    and [execute_single_opportunity]; the report of the executor's
    statistics and the wire format of its instructions; the conversions of
    [utils.py]; the venues of [config.py]; the clients of [dex_clients.py]. *)

(** [l[start:]] *)
Definition slice_from {A} (start : Z) (l : list A) : list A :=
  if start <? 0 then skipn (length l - Z.to_nat (- start)) l
  else skipn (Z.to_nat start) l.

(** ** More of [price_monitor.py]: the price history *)

Module PriceHistory.

(** An element of a history ring. *)
Record Entry : Type := {
  price : float;
  timestamp : float;
  liquidity : number
}.

(** [d.append(x)] on a [deque(maxlen=maxlen)]: the new element goes last
    and, when the ring is full, the oldest is dropped. *)
Definition deque_append {A} (maxlen : nat) (d : list A) (x : A) : list A :=
  let d' := d ++ [x] in skipn (length d' - maxlen) d'.

Definition maxlen : nat := 100.

(** [price_history]: history key to ring, oldest entry first.  A key the
    [defaultdict] has not seen reads as an empty ring. *)
Abbreviation t := (gmap string (list Entry)).

(** [f"{dex_name}:{pair_key}"] *)
Definition history_key (dex_name pair_key : string) : string :=
  dex_name +:+ ":" +:+ pair_key.

Definition entry_of (price_data : PriceData.t) : Entry :=
  {| price := PyDecimal.to_float (PriceData.price price_data);
     timestamp := PriceData.timestamp price_data;
     liquidity := default (Int 0) (PriceData.liquidity price_data) |}.

(** The body of the loop over [prices.items()] in [_monitor_dex_prices]. *)
Definition record_one (dex_name : string) (pair_key : string)
    (price_data : PriceData.t) (h : t) : t :=
  let key := history_key dex_name pair_key in
  <[key := deque_append maxlen (default [] (h !! key)) (entry_of price_data)]> h.

(** The loop itself.  Every pair writes the ring of its own key, so the
    order in which the pairs of [prices] are visited does not show in the
    result. *)
Definition record (dex_name : string) (prices : Prices) (h : t) : t :=
  map_fold (record_one dex_name) h prices.

(** [get_price_history] *)
Definition get_price_history (token_a token_b dex_name : string) (limit : Z)
    (h : t) : list Entry :=
  let pair_key := pair_key_of token_a token_b in
  let history := default [] (h !! history_key dex_name pair_key) in
  match history with
  | [] => []
  | _ => slice_from (- limit) history
  end.

End PriceHistory.

(** The history after the polls of a run, each poll the venue and the
    (non-empty) prices it returned. *)
Definition recorded (polls : list (string * Prices)) (h : PriceHistory.t)
  : PriceHistory.t :=
  fold_left (fun h '(dex_name, prices) => PriceHistory.record dex_name prices h)
    polls h.

(** Every ring holds at most [maxlen] entries. *)
Definition rings_bounded (h : PriceHistory.t) : Prop :=
  forall key ring, h !! key = Some ring -> (length ring <= PriceHistory.maxlen)%nat.

(** The quote a venue has for a pair in [get_price_for_pair]: the entry
    under the pair key, else the entry under the reverse key with its price
    inverted. *)
Definition quoted (pair_key reverse_pair_key : string) (dex_prices : Prices)
    (q : PriceData.t) : Prop :=
  dex_prices !! pair_key = Some q \/
  (dex_prices !! pair_key = None /\
   exists rev, dex_prices !! reverse_pair_key = Some rev /\
               PriceMonitor.inverted rev = Return q).

(** The venue has only the reverse key, and a zero price under it. *)
Definition zero_reverse_quote (pair_key reverse_pair_key : string)
    (dex_prices : Prices) : Prop :=
  dex_prices !! pair_key = None /\
  exists rev, dex_prices !! reverse_pair_key = Some rev /\
              PyDecimal.coefficient (PriceData.price rev) = 0.

(** The best quote so far is the quote of a venue seen and no venue seen
    has a better one. *)
Definition best_of (pair rpair : string) (seen : list Prices)
    (best : option PriceData.t) : Prop :=
  match best with
  | None => forall d, In d seen -> d !! pair = None /\ d !! rpair = None
  | Some b =>
    (exists d, In d seen /\ quoted pair rpair d b) /\
    (forall d q, In d seen -> quoted pair rpair d q ->
                 PyDecimal.le (PriceData.price q) (PriceData.price b) = true)
  end.

(** A stored price that converts to the float zero. *)
Definition zero_price (store : PriceStore) : Prop :=
  exists item pair_key pd,
    In item store /\ snd item !! pair_key = Some pd /\
    PyFloat.is_zero (PyDecimal.to_float (PriceData.price pd)) = true.

(** The best prices of the agent after the venues seen: nothing when none
    held the pair, and one venue on both sides when one did. *)
Definition one_sided (b : SwapAgent.Best) : Prop :=
  SwapAgent.best_buy_dex b = SwapAgent.best_sell_dex b.

(** The tokens of a hop: the first hop of a path goes from [token_a] to
    [token_b], every later hop from [token_b] to [token_a]. *)
Definition hop_direction (token_a token_b : string) (first : bool)
    (hop : SwapExecutor.SwapInstruction) : Prop :=
  if first
  then SwapExecutor.token_mint_in hop = token_a /\
       SwapExecutor.token_mint_out hop = token_b
  else SwapExecutor.token_mint_in hop = token_b /\
       SwapExecutor.token_mint_out hop = token_a.

(** The venue of a hop is the venue named in the path, whatever its case. *)
Definition hop_venue (dex_name : string) (hop : SwapExecutor.SwapInstruction) : Prop :=
  SwapExecutor.dex_type_map (SwapExecutor.lower dex_name)
  = Some (SwapExecutor.dex_type hop).

(** ** More of [Decimal] *)

(** [x + y] *)
Definition decimal_add (x y : Decimal) : Decimal :=
  let '(a, b, e) := PyDecimal.align x y in PyDecimal.fix_ (PyDecimal.mk (a + b) e).

(** [int(x)]: truncation toward zero. *)
Definition decimal_to_int (x : Decimal) : Z :=
  if 0 <=? PyDecimal.exponent x
  then PyDecimal.coefficient x * 10 ^ PyDecimal.exponent x
  else Z.quot (PyDecimal.coefficient x) (10 ^ (- PyDecimal.exponent x)).

(** ** More of [swap_executor.py]: [_send_transaction] *)

Module Rpc.

(** [confirmation.value]: whether [value[0].err] is set, and [value[1]],
    which the executor reports as the slot. *)
Record Confirmation : Type := {
  err : bool;
  second : Z
}.

(** [tx_details.value.meta].  (A value without it makes the reads of
    [_send_transaction] raise, as a [get_transaction] that raises does.) *)
Record Meta : Type := {
  fee : Z;
  log_messages : option (list string)
}.

(** What the cluster answers to the calls of one [_send_transaction], in the
    order they are made; each call may raise.  Building and signing the
    transaction is part of [send_transaction]. *)
Record t : Type := {
  get_latest_blockhash : outcome unit;
  send_transaction : nat -> outcome string;  (* from the number of instructions *)
  confirm_transaction : outcome Confirmation;
  get_transaction : outcome (option Meta)
}.

End Rpc.

(** [needle in s] on strings *)
Fixpoint contains (needle s : string) : bool :=
  String.prefix needle s
  || match s with
     | EmptyString => false
     | String _ rest => contains needle rest
     end.

(** [_send_transaction], for [instructions] instructions.  The profit is
    set, to zero, when a log message mentions [ArbitrageExecuted], and is
    absent otherwise. *)
Definition _send_transaction (rpc : Rpc.t) (instructions : nat) (compute_budget : Z)
  : option SwapExecutor.TxResult :=
  or_None
    (let instructions :=
       if 200000 <? compute_budget then S instructions else instructions in
     let! blockhash := Rpc.get_latest_blockhash rpc in
     let! signature := Rpc.send_transaction rpc instructions in
     let! confirmation := Rpc.confirm_transaction rpc in
     if Rpc.err confirmation then Return None
     else
       let! tx_details := Rpc.get_transaction rpc in
       let logs := match tx_details with
                   | Some meta => default [] (Rpc.log_messages meta)
                   | None => []
                   end in
       Return (Some {| SwapExecutor.signature := signature;
                       SwapExecutor.slot := Rpc.second confirmation;
                       SwapExecutor.gas_used :=
                         match tx_details with
                         | Some meta => Rpc.fee meta
                         | None => 0
                         end;
                       SwapExecutor.actual_profit :=
                         if existsb (contains "ArbitrageExecuted") logs
                         then Some 0 else None |}))%py.

(** ** More of [swap_agent.py]: the performance statistics *)

Module SolanaSwapAgent.

Record PerformanceStats : Type := {
  total_trades : Z;
  successful_trades : Z;
  total_profit : Decimal;
  average_profit : Decimal;
  largest_profit : Decimal
}.

(** The dictionary [__init__] creates. *)
Definition initial_stats : PerformanceStats :=
  {| total_trades := 0; successful_trades := 0;
     total_profit := PyDecimal.zero; average_profit := PyDecimal.zero;
     largest_profit := PyDecimal.zero |}.

(** The agent and its executor, which holds the wall clock. *)
Record State : Type := {
  performance_stats : PerformanceStats;
  swap_executor : SwapExecutor.State
}.

Definition update (f : PerformanceStats -> PerformanceStats) : M State unit :=
  modify (fun s => {| performance_stats := f (performance_stats s);
                      swap_executor := swap_executor s |}).

(** A method of the executor called on [self.swap_executor]. *)
Definition on_executor {A} (m : M SwapExecutor.State A) : M State A :=
  fun s =>
    let '(r, e) := m (swap_executor s) in
    (r, {| performance_stats := performance_stats s; swap_executor := e |}).

Definition count_trade (st : PerformanceStats) : PerformanceStats :=
  {| total_trades := total_trades st + 1;
     successful_trades := successful_trades st;
     total_profit := total_profit st;
     average_profit := average_profit st;
     largest_profit := largest_profit st |}.

Definition count_successful (profit : Decimal) (st : PerformanceStats)
  : PerformanceStats :=
  {| total_trades := total_trades st;
     successful_trades := successful_trades st + 1;
     total_profit := decimal_add (total_profit st) profit;
     average_profit := average_profit st;
     largest_profit := largest_profit st |}.

Definition set_largest (profit : Decimal) (st : PerformanceStats) : PerformanceStats :=
  {| total_trades := total_trades st;
     successful_trades := successful_trades st;
     total_profit := total_profit st;
     average_profit := average_profit st;
     largest_profit := profit |}.

Definition set_average (average : Decimal) (st : PerformanceStats)
  : PerformanceStats :=
  {| total_trades := total_trades st;
     successful_trades := successful_trades st;
     total_profit := total_profit st;
     average_profit := average;
     largest_profit := largest_profit st |}.

(** The success branch of [update_performance_stats]. *)
Definition record_success (profit : Decimal) : M State unit :=
  (update (count_successful profit) ;;
   do! st := gets performance_stats in
   (if PyDecimal.gt profit (largest_profit st)
    then update (set_largest profit) else ret tt) ;;
   do! st := gets performance_stats in
   if 0 <? successful_trades st then
     do! average := lift (PyDecimal.div (total_profit st)
                            (PyDecimal.of_int (successful_trades st))) in
     update (set_average average)
   else ret tt)%py.

(** The log line written every tenth trade: the success rate is kept, whose
    division can raise; the formatting of the line raises nothing. *)
Definition log_performance : M State unit :=
  (do! st := gets performance_stats in
   if total_trades st mod 10 =? 0 then
     do! rate := lift (PyFloat.int_truediv (successful_trades st) (total_trades st)) in
     do! success_rate := lift (PyFloat.float_mul_int rate 100) in
     ret tt
   else ret tt)%py.

(** [update_performance_stats] *)
Definition update_performance_stats (profit : Decimal) (success : bool)
  : M State unit :=
  (update count_trade ;;
   (if success then record_success profit else ret tt) ;;
   log_performance)%py.

(** The float constants [1e9] and [0.8]. *)
Definition f1e9 : float := S754_finite false 8388608000000000 (-23).
Definition f0_8 : float := PyFloat.ratio false 4 5.

(** [min(a, b)] on two floats: [b] only when [b < a]. *)
Definition float_min (a b : float) : float := if PyFloat.flt b a then b else a.

(** The dictionary [execute_single_opportunity] returns on success. *)
Record Report : Type := {
  opportunity : SwapAgent.ArbitrageOpportunity;
  result : SwapExecutor.SwapResult;
  actual_profit : Decimal;
  execution_time : float
}.

(** [int(swap_amount * 1e9)], with [swap_amount] the smaller of the maximum
    position and ten times the estimated profit. *)
Definition swap_amount_of (max_position_size : float)
    (o : SwapAgent.ArbitrageOpportunity) : outcome Z :=
  (let! tenfold := PyFloat.float_mul_int
                     (PyDecimal.to_float (SwapAgent.estimated_profit o)) 10 in
   let swap_amount := float_min max_position_size tenfold in
   PyFloat.to_int (PyFloat.fmul swap_amount f1e9))%py.

(** [int(float(opportunity.estimated_profit) * 1e9 * 0.8)] *)
Definition min_profit_of (o : SwapAgent.ArbitrageOpportunity) : outcome Z :=
  PyFloat.to_int
    (PyFloat.fmul
       (PyFloat.fmul (PyDecimal.to_float (SwapAgent.estimated_profit o)) f1e9)
       f0_8).

(** [execute_single_opportunity].  [max_position_size] is the float of the
    settings, which [Settings] holds in the decimal form the scan uses. *)
Definition execute_single_opportunity (settings : Settings)
    (max_position_size : float) (backend : SwapExecutor.Backend)
    (o : SwapAgent.ArbitrageOpportunity) : M State (option Report) :=
  (try_except
    (do! swap_amount := lift (swap_amount_of max_position_size o) in
     do! min_profit := lift (min_profit_of o) in
     do! result :=
       on_executor
         (SwapExecutor.execute_arbitrage_swap settings backend
            (SwapAgent.token_a o) (SwapAgent.token_b o) swap_amount
            (SwapAgent.swap_path o) min_profit) in
     match result with
     | Some result =>
       do! actual_profit :=
         lift (PyDecimal.div
                 (PyDecimal.of_int (SwapExecutor.r_actual_profit result))
                 (PyDecimal.mk 1 9)) in
       update_performance_stats actual_profit true ;;
       do! now := on_executor SwapExecutor.time_time in
       ret (Some {| opportunity := o; result := result;
                    actual_profit := actual_profit; execution_time := now |})
     | None => ret None
     end)
    (fun e => update_performance_stats PyDecimal.zero false ;; ret None))%py.

(** One call of [execute_single_opportunity] with its collaborators. *)
Record Trade : Type := {
  t_backend : SwapExecutor.Backend;
  t_opportunity : SwapAgent.ArbitrageOpportunity
}.

(** The state after a sequence of calls, one after another. *)
Fixpoint trades (settings : Settings) (max_position_size : float)
    (l : list Trade) (s : State) : State :=
  match l with
  | [] => s
  | t :: rest =>
    trades settings max_position_size rest
      (snd (execute_single_opportunity settings max_position_size
              (t_backend t) (t_opportunity t) s))
  end.

End SolanaSwapAgent.

(** ** Bounds on floats *)

(** The value a mantissa stands for is at most this one: the mantissa
    itself when nothing was lost, its successor otherwise. *)
Definition upper (mrs : shr_record) : Z :=
  if shr_r mrs || shr_s mrs then shr_m mrs + 1 else shr_m mrs.

(** A float that is not negative, at most the integer [K], with an exponent
    that is not positive. *)
Definition within (K : Z) (x : float) : Prop :=
  match x with
  | S754_zero _ => True
  | S754_finite false m e => e <= 0 /\ Zpos m <= K * 2 ^ (- e)
  | _ => False
  end.

(** The statistics after [update_performance_stats], when nothing raises. *)
Definition updated (profit : Decimal) (success : bool)
    (st : SolanaSwapAgent.PerformanceStats) : SolanaSwapAgent.PerformanceStats :=
  let st := SolanaSwapAgent.count_trade st in
  if success then
    let st := SolanaSwapAgent.count_successful profit st in
    let st := if PyDecimal.gt profit (SolanaSwapAgent.largest_profit st)
              then SolanaSwapAgent.set_largest profit st else st in
    match PyDecimal.div (SolanaSwapAgent.total_profit st)
            (PyDecimal.of_int (SolanaSwapAgent.successful_trades st)) with
    | Return average => SolanaSwapAgent.set_average average st
    | Raise _ => st
    end
  else st.

(** The counters of the agent are in order. *)
Definition counted (st : SolanaSwapAgent.PerformanceStats) : Prop :=
  0 <= SolanaSwapAgent.successful_trades st <= SolanaSwapAgent.total_trades st.

(** The profits recorded are all zero. *)
Definition no_profit (st : SolanaSwapAgent.PerformanceStats) : Prop :=
  PyDecimal.coefficient (SolanaSwapAgent.total_profit st) = 0 /\
  PyDecimal.coefficient (SolanaSwapAgent.average_profit st) = 0 /\
  PyDecimal.coefficient (SolanaSwapAgent.largest_profit st) = 0.

(** The collaborators of a call whose transaction goes through
    [_send_transaction]. *)
Definition sends_through_rpc (backend : SwapExecutor.Backend) : Prop :=
  exists rpc instructions compute_budget,
    SwapExecutor.send_transaction backend
    = _send_transaction rpc instructions compute_budget.

(** A venue name the executor does not know. *)
Definition unknown_venue (dex_name : string) : Prop :=
  SwapExecutor.dex_type_map (SwapExecutor.lower dex_name) = None.

(** The amounts of a hop: no more comes out than goes in, and nothing is
    negative or above [bound]. *)
Definition hop_amounts (bound : Z) (hop : SwapExecutor.SwapInstruction) : Prop :=
  0 <= SwapExecutor.minimum_amount_out hop <= SwapExecutor.amount_in hop /\
  SwapExecutor.amount_in hop <= bound.

(** ** More of [swap_executor.py]: the statistics report and the wire format *)

Module Executor.

(** The dictionary [get_execution_stats] returns: the statistics, the
    success rate (the integer 0 before the first attempt, a float after it)
    and the number of pending transactions. *)
Record StatsReport : Type := {
  stats : SwapExecutor.ExecutionStats;
  success_rate : number;
  pending_transactions : Z
}.

(** [get_execution_stats], [pending] being [len(self.pending_transactions)]. *)
Definition get_execution_stats (st : SwapExecutor.ExecutionStats) (pending : nat)
  : outcome StatsReport :=
  let total_attempts := SwapExecutor.total_attempts st in
  let successful_swaps := SwapExecutor.successful_swaps st in
  (let! success_rate :=
     if 0 <? total_attempts then
       let! ratio := PyFloat.int_truediv successful_swaps total_attempts in
       let! percent := PyFloat.float_mul_int ratio 100 in
       Return (Float percent)
     else Return (Int 0) in
   Return {| stats := st; success_rate := success_rate;
             pending_transactions := Z.of_nat pending |})%py.

(** The byte [n], for [0 <= n < 256]. *)
Definition byte_of_Z (n : Z) : Byte.byte :=
  match Byte.of_N (Z.to_N n) with
  | Some b => b
  | None => Byte.x00
  end.

Fixpoint little_endian (length : nat) (n : Z) : list Byte.byte :=
  match length with
  | O => []
  | S k => byte_of_Z (n mod 256) :: little_endian k (n / 256)
  end.

(** [n.to_bytes(length, 'little')]: unsigned, [OverflowError] on a negative
    number and on one that does not fit. *)
Definition to_bytes (n : Z) (length : nat) : outcome (list Byte.byte) :=
  if (0 <=? n) && (n <? 256 ^ Z.of_nat length)
  then Return (little_endian length n)
  else Raise OverflowError.

Section Wire.

(** [bytes(Pubkey.from_string(s))]: the 32 bytes of the key a base58 string
    stands for, or the error of a string that is no key. *)
Variable pubkey_bytes : string -> outcome (list Byte.byte).

(** What one swap instruction adds to the data. *)
Definition serialize_instruction (instruction : SwapExecutor.SwapInstruction)
  : outcome (list Byte.byte) :=
  (let! dex_type := to_bytes (SwapExecutor.dex_type instruction) 1 in
   let! amount_in := to_bytes (SwapExecutor.amount_in instruction) 8 in
   let! minimum_amount_out :=
     to_bytes (SwapExecutor.minimum_amount_out instruction) 8 in
   let! token_mint_in := pubkey_bytes (SwapExecutor.token_mint_in instruction) in
   let! token_mint_out := pubkey_bytes (SwapExecutor.token_mint_out instruction) in
   Return (dex_type ++ amount_in ++ minimum_amount_out
             ++ token_mint_in ++ token_mint_out))%py.

Fixpoint serialize_instructions (instructions : list SwapExecutor.SwapInstruction)
    (data : list Byte.byte) : outcome (list Byte.byte) :=
  match instructions with
  | [] => Return data
  | instruction :: rest =>
    (let! bytes := serialize_instruction instruction in
     serialize_instructions rest (data ++ bytes))%py
  end.

(** [_serialize_swap_data] *)
Definition _serialize_swap_data (swap_data : SwapExecutor.SwapData)
  : outcome (list Byte.byte) :=
  let data := [Byte.x01] in
  (let! expected_profit := to_bytes (SwapExecutor.expected_profit swap_data) 8 in
   let data := data ++ expected_profit in
   let! slippage_bps := to_bytes (SwapExecutor.slippage_bps swap_data) 2 in
   let data := data ++ slippage_bps in
   let instructions := SwapExecutor.swap_instructions swap_data in
   let! count := to_bytes (Z.of_nat (length instructions)) 4 in
   let data := data ++ count in
   serialize_instructions instructions data)%py.

End Wire.

(** The instruction data of [_build_initialize_instruction]. *)
Definition initialize_data (min_profit_threshold max_slippage_bps : Z)
  : outcome (list Byte.byte) :=
  (let! threshold := to_bytes min_profit_threshold 8 in
   let! slippage := to_bytes max_slippage_bps 2 in
   Return ([Byte.x00] ++ threshold ++ slippage))%py.

End Executor.

(** The fields of a swap instruction fit the wire format, its mints being
    keys. *)
Definition instruction_fits (pubkey_bytes : string -> outcome (list Byte.byte))
    (i : SwapExecutor.SwapInstruction) : Prop :=
  0 <= SwapExecutor.dex_type i < 2 ^ 8 /\
  0 <= SwapExecutor.amount_in i < 2 ^ 64 /\
  0 <= SwapExecutor.minimum_amount_out i < 2 ^ 64 /\
  (exists k, pubkey_bytes (SwapExecutor.token_mint_in i) = Return k) /\
  (exists k, pubkey_bytes (SwapExecutor.token_mint_out i) = Return k).

Definition swap_data_fits (pubkey_bytes : string -> outcome (list Byte.byte))
    (d : SwapExecutor.SwapData) : Prop :=
  0 <= SwapExecutor.expected_profit d < 2 ^ 64 /\
  0 <= SwapExecutor.slippage_bps d < 2 ^ 16 /\
  Z.of_nat (length (SwapExecutor.swap_instructions d)) < 2 ^ 32 /\
  Forall (instruction_fits pubkey_bytes) (SwapExecutor.swap_instructions d).

(** Two swap instructions the wire format does not tell apart: all fields
    equal, the mints as keys. *)
Definition same_instruction (pubkey_bytes : string -> outcome (list Byte.byte))
    (i j : SwapExecutor.SwapInstruction) : Prop :=
  SwapExecutor.dex_type i = SwapExecutor.dex_type j /\
  SwapExecutor.amount_in i = SwapExecutor.amount_in j /\
  SwapExecutor.minimum_amount_out i = SwapExecutor.minimum_amount_out j /\
  pubkey_bytes (SwapExecutor.token_mint_in i)
  = pubkey_bytes (SwapExecutor.token_mint_in j) /\
  pubkey_bytes (SwapExecutor.token_mint_out i)
  = pubkey_bytes (SwapExecutor.token_mint_out j).

(** The 81 bytes of a swap instruction that fits the wire format. *)
Definition encoded (pubkey_bytes : string -> outcome (list Byte.byte))
    (i : SwapExecutor.SwapInstruction) (chunk : list Byte.byte) : Prop :=
  instruction_fits pubkey_bytes i /\
  exists k_in k_out,
    pubkey_bytes (SwapExecutor.token_mint_in i) = Return k_in /\
    pubkey_bytes (SwapExecutor.token_mint_out i) = Return k_out /\
    chunk = Executor.little_endian 1 (SwapExecutor.dex_type i)
            ++ Executor.little_endian 8 (SwapExecutor.amount_in i)
            ++ Executor.little_endian 8 (SwapExecutor.minimum_amount_out i)
            ++ k_in ++ k_out.

(** ** More of [utils.py] *)

(** [lamports_to_sol] *)
Definition lamports_to_sol (lamports : Z) : outcome Decimal :=
  PyDecimal.div (PyDecimal.of_int lamports) (PyDecimal.of_int 1000000000).

(** [sol_to_lamports], on the decimal [Decimal(str(sol))] *)
Definition sol_to_lamports (sol : Decimal) : Z :=
  decimal_to_int (PyDecimal.mul sol (PyDecimal.of_int 1000000000)).

(** [s[:n]] and [s[n:]] on a string, by its characters *)
Definition str_slice_to (n : Z) (s : string) : string :=
  string_of_list_ascii (slice_to n (list_ascii_of_string s)).

Definition str_slice_from (n : Z) (s : string) : string :=
  string_of_list_ascii (slice_from n (list_ascii_of_string s)).

(** [truncate_address] *)
Definition truncate_address (address : string) (start_chars end_chars : Z) : string :=
  if Z.of_nat (String.length address) <=? start_chars + end_chars then address
  else str_slice_to start_chars address +:+ "..."
       +:+ str_slice_from (- end_chars) address.

(** ** More of [config.py] *)

Module DexConfig.

Record t : Type := {
  name : string;
  api_url : string;
  swap_fee_bps : Z;
  supports_direct_routes : bool
}.

Section Urls.
(** [settings.jupiter_api_url] and [settings.raydium_api_url] *)
Variables jupiter_api_url raydium_api_url : string.

Definition JUPITER : t :=
  {| name := "Jupiter"; api_url := jupiter_api_url; swap_fee_bps := 0;
     supports_direct_routes := true |}.

Definition RAYDIUM : t :=
  {| name := "Raydium"; api_url := raydium_api_url; swap_fee_bps := 25;
     supports_direct_routes := true |}.

Definition PHOENIX : t :=
  {| name := "Phoenix"; api_url := "https://api.phoenix.trade"; swap_fee_bps := 5;
     supports_direct_routes := false |}.

Definition METEORA : t :=
  {| name := "Meteora"; api_url := "https://app.meteora.ag"; swap_fee_bps := 1;
     supports_direct_routes := true |}.

Definition get_all_dexes : list t := [JUPITER; RAYDIUM; PHOENIX; METEORA].

(** [get_dex_by_name]: the first configuration whose name is [name], case
    set aside. *)
Definition get_dex_by_name (name' : string) : option t :=
  List.find (fun dex => String.eqb (SwapExecutor.lower (name dex))
                          (SwapExecutor.lower name'))
    get_all_dexes.

End Urls.

End DexConfig.

(** ** [dex_clients.py]: the address of a request *)

(** [s.lstrip('/')] *)
Fixpoint lstrip_slash (s : string) : string :=
  match s with
  | String c rest => if Ascii.eqb c "/" then lstrip_slash rest else s
  | EmptyString => s
  end.

(** [s.rstrip('/')] *)
Fixpoint rstrip_slash (s : string) : string :=
  match s with
  | EmptyString => EmptyString
  | String c rest =>
    match rstrip_slash rest with
    | EmptyString => if Ascii.eqb c "/" then EmptyString else String c EmptyString
    | rest' => String c rest'
    end
  end.

(** [f"{api_url.rstrip('/')}/{endpoint.lstrip('/')}"] in [_make_request] *)
Definition request_url (api_url endpoint : string) : string :=
  rstrip_slash api_url +:+ "/" +:+ lstrip_slash endpoint.

(** ** More of [dex_clients.py]: what the clients return as prices *)

Module PhoenixClient.
(** [get_all_prices]: the empty dictionary, whatever the market. *)
Definition get_all_prices : Prices := ∅.
End PhoenixClient.

(** The delays of five polls in a row that return no prices: four times the
    update interval, then the pause of 30 seconds and the interval. *)
Definition empty_round (settings : Settings) : list (list Q) :=
  [[price_update_interval settings]; [price_update_interval settings];
   [price_update_interval settings]; [price_update_interval settings];
   [30%Q; price_update_interval settings]].

(** What a client raises while it turns an answer into prices. *)
Inductive client_error : Type :=
| KeyError               (* a field read with [d[key]] is missing *)
| ConversionError        (* [Decimal(str(value))] on a value that is no number *)
| DivisionError.         (* a division by a zero amount *)

Inductive fetched (A : Type) : Type :=
| Fetched (a : A)
| Failed (e : client_error).
Arguments Fetched {A} a.
Arguments Failed {A} e.

(** A reserve of a pool as the answer states it.  A number is a finite
    one, as everywhere in this model of [Decimal]. *)
Inductive reserve : Type :=
| Absent                          (* no such field: [.get(key, 1)] gives 1 *)
| Number (d : Decimal)            (* [Decimal(str(value))] is the finite [d] *)
| NotANumber.                     (* [Decimal(str(value))] raises *)

(** An element of the list of pools: the two mints, when stated, and the
    two reserves.  (Raydium calls them [baseMint], [quoteMint],
    [baseReserve], [quoteReserve]; Meteora [tokenA], [tokenB],
    [liquidityA], [liquidityB].) *)
Record Pool : Type := {
  base_mint : option string;
  quote_mint : option string;
  base_reserve : reserve;
  quote_reserve : reserve
}.

(** [Decimal(str(pool_data.get(key, 1)))] *)
Definition reserve_of (r : reserve) : fetched Decimal :=
  match r with
  | Absent => Fetched (PyDecimal.of_int 1)
  | Number d => Fetched d
  | NotANumber => Failed ConversionError
  end.

(** [x in settings.monitored_tokens] *)
Definition monitored (settings : Settings) (token : string) : bool :=
  existsb (String.eqb token) (monitored_tokens settings).

(** The part the two clients share, from the test of the reserves on: the
    price of a pool with two positive reserves, stamped with the clock. *)
Definition pool_price (base quote : string) (base_reserve quote_reserve : Decimal)
    (acc : Prices * Clock) : fetched (Prices * Clock) :=
  let '(prices, clock) := acc in
  if PyDecimal.gt base_reserve PyDecimal.zero
     && PyDecimal.gt quote_reserve PyDecimal.zero
  then
    match PyDecimal.div quote_reserve base_reserve with
    | Return price =>
      let '(now, clock') := tick clock in
      Fetched (<[pair_key_of base quote :=
                   PriceData.mk price
                     (Some (Float (PyDecimal.to_float
                                     (decimal_add base_reserve quote_reserve))))
                     PyFloat.f0 now]> prices,
               clock')
    | Raise _ => Failed DivisionError
    end
  else Fetched acc.

(** The body of the loop over the pools once the mints are read. *)
Definition pool_step (settings : Settings) (base quote : string) (pool : Pool)
    (acc : Prices * Clock) : fetched (Prices * Clock) :=
  if monitored settings base && monitored settings quote then
    match reserve_of (base_reserve pool) with
    | Failed e => Failed e
    | Fetched base_reserve =>
      match reserve_of (quote_reserve pool) with
      | Failed e => Failed e
      | Fetched quote_reserve =>
        pool_price base quote base_reserve quote_reserve acc
      end
    end
  else Fetched acc.

Module RaydiumClient.

(** The loop of [get_all_prices] over [response["data"]]: the mints are read
    with [pool_data["baseMint"]], which raises on a pool without one. *)
Fixpoint over_pools (settings : Settings) (pools : list Pool)
    (acc : Prices * Clock) : fetched (Prices * Clock) :=
  match pools with
  | [] => Fetched acc
  | pool :: rest =>
    match base_mint pool, quote_mint pool with
    | Some base, Some quote =>
      match pool_step settings base quote pool acc with
      | Fetched acc' => over_pools settings rest acc'
      | Failed e => Failed e
      end
    | _, _ => Failed KeyError
    end
  end.

(** [get_all_prices], on the list of pools of a successful answer (an
    answer that is missing or not successful gives the empty list). *)
Definition get_all_prices (settings : Settings) (pools : list Pool) (clock : Clock)
  : fetched (Prices * Clock) :=
  over_pools settings pools (∅, clock).

End RaydiumClient.

Module MeteoraClient.

(** The loop of [get_all_prices] over the answer: the mints are read with
    [pool_data.get("tokenA")], and a pool without one is no pool of
    monitored tokens. *)
Fixpoint over_pools (settings : Settings) (pools : list Pool)
    (acc : Prices * Clock) : fetched (Prices * Clock) :=
  match pools with
  | [] => Fetched acc
  | pool :: rest =>
    match base_mint pool, quote_mint pool with
    | Some base, Some quote =>
      match pool_step settings base quote pool acc with
      | Fetched acc' => over_pools settings rest acc'
      | Failed e => Failed e
      end
    | _, _ => over_pools settings rest acc
    end
  end.

Definition get_all_prices (settings : Settings) (pools : list Pool) (clock : Clock)
  : fetched (Prices * Clock) :=
  over_pools settings pools (∅, clock).

End MeteoraClient.

(** A price a pool client may return: of a pair of monitored tokens, above
    zero, with a liquidity that is a float and no price impact. *)
Definition pool_quote (settings : Settings) (pair_key : string)
    (price_data : PriceData.t) : Prop :=
  (exists base quote,
     pair_key = pair_key_of base quote /\
     In base (monitored_tokens settings) /\ In quote (monitored_tokens settings)) /\
  0 < PyDecimal.coefficient (PriceData.price price_data) /\
  (exists liquidity, PriceData.liquidity price_data = Some (Float liquidity)) /\
  PriceData.price_impact price_data = PyFloat.f0.

(** A pool that states both of its mints. *)
Definition states_mints (pool : Pool) : bool :=
  match base_mint pool, quote_mint pool with
  | Some _, Some _ => true
  | _, _ => false
  end.

Module JupiterClient.

(** The fields of a [QuoteResponse] that [get_all_prices] reads. *)
Record Quote : Type := {
  input_amount : Z;
  output_amount : Z;
  price_impact : float;
  timestamp : float
}.

(** [get_quote]: what the [n]-th request made, for the two tokens, is
    answered with; [None] when the request fails or the answer does not
    parse. *)
Definition Quotes : Type := nat -> string -> string -> option Quote.

(** The body of the innermost loop of [get_all_prices], the number of
    requests made so far being threaded along: the two amounts are divided
    without a test. *)
Definition quote_step (get_quote : Quotes) (input_token output_token : string)
    (acc : Prices * nat) : fetched (Prices * nat) :=
  let '(prices, requests) := acc in
  match get_quote requests input_token output_token with
  | Some quote =>
    match PyDecimal.div (PyDecimal.of_int (output_amount quote))
            (PyDecimal.of_int (input_amount quote)) with
    | Return price =>
      Fetched (<[pair_key_of input_token output_token :=
                   PriceData.mk price (Some (Int 0)) (price_impact quote)
                     (timestamp quote)]> prices,
               S requests)
    | Raise _ => Failed DivisionError
    end
  | None => Fetched (prices, S requests)
  end.

(** Both directions of a pair. *)
Definition both_directions (get_quote : Quotes) (token_a token_b : string)
    (acc : Prices * nat) : fetched (Prices * nat) :=
  match quote_step get_quote token_a token_b acc with
  | Fetched acc' => quote_step get_quote token_b token_a acc'
  | Failed e => Failed e
  end.

(** The loop over [settings.monitored_tokens[i+1:]]. *)
Fixpoint over_later (get_quote : Quotes) (token_a : string) (later : list string)
    (acc : Prices * nat) : fetched (Prices * nat) :=
  match later with
  | [] => Fetched acc
  | token_b :: rest =>
    match both_directions get_quote token_a token_b acc with
    | Fetched acc' => over_later get_quote token_a rest acc'
    | Failed e => Failed e
    end
  end.

(** The loop over [enumerate(settings.monitored_tokens)]. *)
Fixpoint over_tokens (get_quote : Quotes) (tokens : list string)
    (acc : Prices * nat) : fetched (Prices * nat) :=
  match tokens with
  | [] => Fetched acc
  | token_a :: later =>
    match over_later get_quote token_a later acc with
    | Fetched acc' => over_tokens get_quote later acc'
    | Failed e => Failed e
    end
  end.

(** [get_all_prices]: the prices and the number of requests made. *)
Definition get_all_prices (settings : Settings) (get_quote : Quotes)
  : fetched (Prices * nat) :=
  over_tokens get_quote (monitored_tokens settings) (∅, O).

End JupiterClient.

(** A price the Jupiter client may return: of a pair of monitored tokens,
    with the integer 0 for liquidity. *)
Definition jupiter_quote (tokens : list string) (pair_key : string)
    (price_data : PriceData.t) : Prop :=
  (exists input_token output_token,
     pair_key = pair_key_of input_token output_token /\
     In input_token tokens /\ In output_token tokens) /\
  PriceData.liquidity price_data = Some (Int 0).

(** No quote that is answered has an input amount of zero. *)
Definition inputs_not_zero (get_quote : JupiterClient.Quotes) : Prop :=
  forall n input_token output_token quote,
    get_quote n input_token output_token = Some quote ->
    JupiterClient.input_amount quote <> 0.


(** ** Concrete inputs *)

Section Inputs.
Local Open Scope string_scope.


Definition float_of_Z (n : Z) : float :=
  binary_normalize PyFloat.prec PyFloat.emax n 0 false.

(** A quote with the given price and timestamp (in seconds). *)
Definition quote (coefficient exponent timestamp : Z) : PriceData.t :=
  PriceData.mk (PyDecimal.mk coefficient exponent) (Some (Int 0)) PyFloat.f0
    (float_of_Z timestamp).

(** A clock whose readings are all [seconds]. *)
Definition clock_at (seconds : Z) : Clock :=
  {| readings := fun _ => float_of_Z seconds; calls := 0 |}.

(** The threshold 0.5 and settings with the defaults of [config.py]. *)
Definition half_percent : float := PyFloat.ratio false 1 2.

Definition settings_for (tokens : list string) : Settings :=
  {| monitored_tokens := tokens;
     min_profit_threshold := half_percent;
     max_slippage_bps := 50;
     max_position_size := PyDecimal.mk 10 (-1);
     max_concurrent_swaps := 5;
     price_update_interval := 1 # 10 |}.

(** Three venues quoting SOL-USDC at 100.50, 101.20 and 100.80, all at
    second 1234567890. *)
Definition three_venues : PriceStore :=
  [("jupiter", {[ "SOL-USDC" := quote 10050 (-2) 1234567890 ]});
   ("raydium", {[ "SOL-USDC" := quote 10120 (-2) 1234567890 ]});
   ("meteora", {[ "SOL-USDC" := quote 10080 (-2) 1234567890 ]})].

(** One venue quoting A-B at 100, another quoting only B-A, at 0.005. *)
Definition mixed_keys : PriceStore :=
  [("jupiter", {[ "A-B" := quote 100 0 1234567890 ]});
   ("raydium", {[ "B-A" := quote 5 (-3) 1234567890 ]})].

Definition monitor_state (store : PriceStore) (seconds : Z) : PriceMonitor.State :=
  {| PriceMonitor.latest_prices := store; PriceMonitor.clock := clock_at seconds |}.

(** [mixed_keys] with the second venue's quote stated for A-B, at 1 / 0.005. *)
Definition mixed_keys_direct : PriceStore :=
  [("jupiter", {[ "A-B" := quote 100 0 1234567890 ]});
   ("raydium", {[ "A-B" := quote 200 0 1234567890 ]})].

(** The opportunity of [three_venues]: buy on the first venue at 100.50, sell
    on the second at 101.20, for 0.6965...%. *)
Definition three_venues_opportunity (now : float) : PriceMonitor.Opportunity :=
  {| PriceMonitor.token_pair := "SOL.../USDC...";
     PriceMonitor.buy_dex := "jupiter";
     PriceMonitor.sell_dex := "raydium";
     PriceMonitor.buy_price := S754_finite false 7072058789855232 (-46);
     PriceMonitor.sell_price := S754_finite false 7121316910779597 (-46);
     PriceMonitor.profit_percentage := S754_finite false 6273671122705194 (-53);
     PriceMonitor.buy_liquidity := Int 0;
     PriceMonitor.sell_liquidity := Int 0;
     PriceMonitor.timestamp := now |}.

Definition three_venues_agent_opportunity (now : float)
  : SwapAgent.ArbitrageOpportunity :=
  {| SwapAgent.token_a := "SOL";
     SwapAgent.token_b := "USDC";
     SwapAgent.buy_dex := "jupiter";
     SwapAgent.sell_dex := "raydium";
     SwapAgent.buy_price := PyDecimal.mk 10050 (-2);
     SwapAgent.sell_price := PyDecimal.mk 10120 (-2);
     SwapAgent.profit_percentage := S754_finite false 6273671122705169 (-53);
     SwapAgent.estimated_profit := PyDecimal.mk 700 (-3);
     SwapAgent.swap_path := ["jupiter"; "raydium"];
     SwapAgent.timestamp := now |}.

(** A call whose collaborators all succeed. *)
Definition successful_call : SwapExecutor.Call :=
  {| SwapExecutor.backend :=
       {| SwapExecutor.get_swap_accounts := Some tt;
          SwapExecutor.build_arbitrage_instruction := Return tt;
          SwapExecutor.send_transaction :=
            Some {| SwapExecutor.signature := "5VERv8NMvzbJMEkV8xnrLkEaWRtSz9CosKDY";
                    SwapExecutor.slot := 1;
                    SwapExecutor.gas_used := 5000;
                    SwapExecutor.actual_profit := None |} |};
     SwapExecutor.c_token_a := "A";
     SwapExecutor.c_token_b := "B";
     SwapExecutor.c_swap_amount := 1000000;
     SwapExecutor.c_dex_path := ["jupiter"; "raydium"];
     SwapExecutor.c_min_profit := 0 |}.

(** A clock under which the k-th call of a sequence starts at second 0 and
    measures the k-th of the given latencies. *)
Definition latency_clock (xs : list float) : Clock :=
  {| readings := fun n => if Nat.even n then PyFloat.f0
                          else nth (Nat.div2 n) xs PyFloat.f0;
     calls := 0 |}.

(** The latencies 0.1, 0.3, 0.5 and 0.1 seconds. *)
Definition four_latencies : list float :=
  [PyFloat.ratio false 1 10; PyFloat.ratio false 3 10;
   PyFloat.ratio false 1 2; PyFloat.ratio false 1 10].


(** The settings with a maximum slippage of 600 basis points. *)
Definition settings_600bps : Settings :=
  {| monitored_tokens := ["A"; "B"];
     min_profit_threshold := half_percent;
     max_slippage_bps := 600;
     max_position_size := PyDecimal.mk 10 (-1);
     max_concurrent_swaps := 5;
     price_update_interval := 1 # 10 |}.

(** A poll that returns an empty dictionary, after four failures. *)
Definition no_prices : Prices := ∅.

Definition four_failures : PriceMonitor.Loop :=
  {| PriceMonitor.consecutive_failures := 4; PriceMonitor.store := [] |}.

Definition initial_state (clk : Clock) : SwapExecutor.State :=
  {| SwapExecutor.execution_stats := SwapExecutor.initial_stats;
     SwapExecutor.clock := clk |}.

Definition four_calls : list SwapExecutor.Call :=
  [successful_call; successful_call; successful_call; successful_call].

Definition after_four_successes : SwapExecutor.State :=
  SwapExecutor.calls (settings_for ["A"; "B"]) four_calls
    (initial_state (latency_clock four_latencies)).

(** Settings with a limit of concurrent swaps below zero. *)
Definition unlimited_settings : Settings :=
  {| monitored_tokens := ["A"; "B"; "C"];
     min_profit_threshold := half_percent;
     max_slippage_bps := 50;
     max_position_size := PyDecimal.mk 10 (-1);
     max_concurrent_swaps := -1;
     price_update_interval := 1 # 10 |}.

(** Two venues quoting three pairs, the second 1, 2 and 3 percent above the
    first. *)
Definition three_pairs : PriceStore :=
  [("jupiter", {[ "A-B" := quote 100 0 1234567890;
                  "A-C" := quote 100 0 1234567890;
                  "B-C" := quote 100 0 1234567890 ]});
   ("raydium", {[ "A-B" := quote 101 0 1234567890;
                  "A-C" := quote 102 0 1234567890;
                  "B-C" := quote 103 0 1234567890 ]})].

(** The threshold 0.2, a double a little above a fifth. *)
Definition fifth_percent : float := PyFloat.ratio false 1 5.

(** Two venues quoting A-B at 100 and at 100.49999999999999999999. *)
Definition rounded_up_agent : PriceStore :=
  [("jupiter", {[ "A-B" := quote 100 0 1234567890 ]});
   ("raydium", {[ "A-B" := quote 10049999999999999999999 (-20) 1234567890 ]})].

(** Two venues quoting A-B at 906.25 and at 908.0625, a fifth of a percent
    more. *)
Definition rounded_up_monitor : PriceStore :=
  [("jupiter", {[ "A-B" := quote 90625 (-2) 1234567890 ]});
   ("raydium", {[ "A-B" := quote 9080625 (-4) 1234567890 ]})].

End Inputs.

(** ** More concrete inputs *)

Section FurtherInputs.
Local Open Scope string_scope.

(** Two polls of one venue, quoting SOL-USDC at 100.50 and then 100.60. *)
Definition two_polls : list (string * Prices) :=
  [("jupiter", {[ "SOL-USDC" := quote 10050 (-2) 1234567890 ]});
   ("jupiter", {[ "SOL-USDC" := quote 10060 (-2) 1234567891 ]})].

Definition two_polls_history : PriceHistory.t := recorded two_polls ∅.

Definition two_entries : list PriceHistory.Entry :=
  [{| PriceHistory.price := S754_finite false 7072058789855232 (-46);
      PriceHistory.timestamp := float_of_Z 1234567890;
      PriceHistory.liquidity := Int 0 |};
   {| PriceHistory.price := S754_finite false 7079095664272998 (-46);
      PriceHistory.timestamp := float_of_Z 1234567891;
      PriceHistory.liquidity := Int 0 |}].

(** The quote [mixed_keys] gives for A-B at its best: the inverse of the
    0.005 the second venue has for B-A. *)
Definition inverted_quote : PriceData.t :=
  quote 2000000000000000000000000000 (-25) 1234567890.

(** A venue that has only B-A, at a price of zero. *)
Definition zero_reverse : PriceStore :=
  [("raydium", {[ "B-A" := quote 0 0 1234567890 ]})].

(** Two venues quoting A-B, the cheaper at zero. *)
Definition zero_cheapest : PriceStore :=
  [("jupiter", {[ "A-B" := quote 0 0 1234567890 ]});
   ("raydium", {[ "A-B" := quote 100 0 1234567890 ]})].

Definition zero_cheapest_min : PriceMonitor.DexPrice :=
  {| PriceMonitor.dex := "jupiter";
     PriceMonitor.dp_price := S754_zero false;
     PriceMonitor.dp_liquidity := Int 0;
     PriceMonitor.dp_timestamp := float_of_Z 1234567890 |}.

Definition zero_cheapest_max : PriceMonitor.DexPrice :=
  {| PriceMonitor.dex := "raydium";
     PriceMonitor.dp_price := float_of_Z 100;
     PriceMonitor.dp_liquidity := Int 0;
     PriceMonitor.dp_timestamp := float_of_Z 1234567890 |}.

(** A store of one venue. *)
Definition one_venue : PriceStore :=
  [("jupiter", {[ "A-B" := quote 100 0 1234567890 ]})].

(** The order built for one million lamports over two venues at 50 basis
    points. *)
Definition order_of (token_a token_b : string) : SwapExecutor.SwapData :=
  {| SwapExecutor.expected_profit := 0;
     SwapExecutor.slippage_bps := 50;
     SwapExecutor.swap_instructions :=
       [{| SwapExecutor.dex_type := 0;
           SwapExecutor.amount_in := 1000000;
           SwapExecutor.minimum_amount_out := 995000;
           SwapExecutor.token_mint_in := token_a;
           SwapExecutor.token_mint_out := token_b |};
        {| SwapExecutor.dex_type := 1;
           SwapExecutor.amount_in := 995000;
           SwapExecutor.minimum_amount_out := 990025;
           SwapExecutor.token_mint_in := token_b;
           SwapExecutor.token_mint_out := token_a |}] |}.

(** A stand-in for the decoding of a key: a name of 32 characters is read as
    its 32 bytes, any other name is no key. *)
Definition raw_key (s : string) : outcome (list Byte.byte) :=
  let bytes := list_byte_of_string s in
  if (length bytes =? 32)%nat then Return bytes else Raise ValueError.

Definition mint_x : string := "XXXXXXXXXXXXXXXXXXXXXXXXXXXXXXXX".
Definition mint_y : string := "YYYYYYYYYYYYYYYYYYYYYYYYYYYYYYYY".

Definition wire_data : list Byte.byte :=
  match Executor._serialize_swap_data raw_key (order_of mint_x mint_y) with
  | Return data => data
  | Raise _ => []
  end.

(** A cluster that confirms the transaction and logs the event of the
    program. *)
Definition cluster : Rpc.t :=
  {| Rpc.get_latest_blockhash := Return tt;
     Rpc.send_transaction := fun _ => Return "5VERv8NMvzbJMEkV8xnrLkEaWRtSz9CosKDY";
     Rpc.confirm_transaction := Return {| Rpc.err := false; Rpc.second := 1 |};
     Rpc.get_transaction :=
       Return (Some {| Rpc.fee := 5000;
                       Rpc.log_messages :=
                         Some ["Program log: ArbitrageExecuted"] |}) |}.

Definition rpc_backend : SwapExecutor.Backend :=
  {| SwapExecutor.get_swap_accounts := Some tt;
     SwapExecutor.build_arbitrage_instruction := Return tt;
     SwapExecutor.send_transaction := _send_transaction cluster 1 200000 |}.

Definition new_agent : SolanaSwapAgent.State :=
  {| SolanaSwapAgent.performance_stats := SolanaSwapAgent.initial_stats;
     SolanaSwapAgent.swap_executor := initial_state (clock_at 1234567891) |}.

Definition one_trade : SolanaSwapAgent.Trade :=
  {| SolanaSwapAgent.t_backend := rpc_backend;
     SolanaSwapAgent.t_opportunity :=
       three_venues_agent_opportunity (float_of_Z 1234567891) |}.

(** Three pools: one of two monitored tokens with reserves 2000 and 500, one
    without its quote mint, one with an empty base reserve. *)
Definition three_pools : list Pool :=
  [{| base_mint := Some "A"; quote_mint := Some "B";
      base_reserve := Number (PyDecimal.mk 2000 0);
      quote_reserve := Number (PyDecimal.mk 500 0) |};
   {| base_mint := Some "A"; quote_mint := None;
      base_reserve := Absent; quote_reserve := Absent |};
   {| base_mint := Some "B"; quote_mint := Some "A";
      base_reserve := Number (PyDecimal.mk 0 0);
      quote_reserve := Number (PyDecimal.mk 500 0) |}].

(** Every request is answered with a quote of 0.25 for 1. *)
Definition quarter_quotes : JupiterClient.Quotes :=
  fun _ _ _ =>
    Some {| JupiterClient.input_amount := 1000000000;
            JupiterClient.output_amount := 250000000;
            JupiterClient.price_impact := PyFloat.f0;
            JupiterClient.timestamp := float_of_Z 1234567890 |}.

End FurtherInputs.


(** * Properties *)

(** ** The order of binary64 values *)

Lemma SFcompare_rank (x y : float) :
  SFcompare x y =
  match rank x, rank y with
  | Some a, Some b => Some (lex3 a b)
  | _, _ => None
  end.
Proof.
  destruct x as [[]|[]| |[] mx ex], y as [[]|[]| |[] my ey];
    cbn [SFcompare rank lex3]; try reflexivity;
    change (PosDef.Pos.compare_cont Eq mx my) with (Pos.compare mx my);
    f_equal.
  rewrite Z.compare_opp, (Z.compare_antisym ex ey).
  destruct (ex ?= ey); reflexivity.
Qed.

Lemma lex3_refl a : lex3 a a = Eq.
Proof. destruct a as [[a1 a2] a3]; cbn. now rewrite !Z.compare_refl. Qed.

Lemma lex3_antisym a b : lex3 b a = CompOpp (lex3 a b).
Proof.
  destruct a as [[a1 a2] a3], b as [[b1 b2] b3]; cbn.
  rewrite (Z.compare_antisym a1 b1), (Z.compare_antisym a2 b2),
    (Z.compare_antisym a3 b3).
  destruct (a1 ?= b1), (a2 ?= b2), (a3 ?= b3); reflexivity.
Qed.

Lemma lex3_spec a b :
  let '(a1, a2, a3) := a in
  let '(b1, b2, b3) := b in
  match lex3 a b with
  | Lt => a1 < b1 \/ (a1 = b1 /\ (a2 < b2 \/ (a2 = b2 /\ a3 < b3)))
  | Eq => a1 = b1 /\ a2 = b2 /\ a3 = b3
  | Gt => b1 < a1 \/ (a1 = b1 /\ (b2 < a2 \/ (a2 = b2 /\ b3 < a3)))
  end.
Proof.
  destruct a as [[a1 a2] a3], b as [[b1 b2] b3]; cbn.
  destruct (Z.compare_spec a1 b1), (Z.compare_spec a2 b2),
    (Z.compare_spec a3 b3); lia.
Qed.

(** [le3 a b]: [a] is not above [b]. *)
Lemma lex3_trans_lt a b c : lex3 a b = Lt -> lex3 b c <> Gt -> lex3 a c = Lt.
Proof.
  intros H1 H2.
  pose proof (lex3_spec a b) as S1. pose proof (lex3_spec b c) as S2.
  pose proof (lex3_spec a c) as S3.
  destruct a as [[a1 a2] a3], b as [[b1 b2] b3], c as [[c1 c2] c3].
  rewrite H1 in S1.
  destruct (lex3 (b1, b2, b3) (c1, c2, c3)); try congruence;
    destruct (lex3 (a1, a2, a3) (c1, c2, c3)); try reflexivity; lia.
Qed.

Lemma lex3_trans_le a b c : lex3 a b <> Gt -> lex3 b c <> Gt -> lex3 a c <> Gt.
Proof.
  intros H1 H2.
  pose proof (lex3_spec a b) as S1. pose proof (lex3_spec b c) as S2.
  pose proof (lex3_spec a c) as S3.
  destruct a as [[a1 a2] a3], b as [[b1 b2] b3], c as [[c1 c2] c3].
  destruct (lex3 (a1, a2, a3) (b1, b2, b3)); try congruence;
  destruct (lex3 (b1, b2, b3) (c1, c2, c3)); try congruence;
    destruct (lex3 (a1, a2, a3) (c1, c2, c3)); try congruence; lia.
Qed.


Lemma rank_nan x : rank x = None <-> PyFloat.is_nan x = true.
Proof. destruct x as [[]|[]| |[] m e]; cbn; split; congruence. Qed.

Lemma rank_some x : PyFloat.is_nan x = false -> exists a, rank x = Some a.
Proof. destruct x as [[]|[]| |[] m e]; cbn; intros; try discriminate; eauto. Qed.

Lemma flt_rank x y :
  PyFloat.flt x y = true <->
  exists a b, rank x = Some a /\ rank y = Some b /\ lex3 a b = Lt.
Proof.
  unfold PyFloat.flt, SFltb. rewrite SFcompare_rank.
  destruct (rank x) as [a|], (rank y) as [b|]; split;
    try discriminate; try (intros (? & ? & ? & ? & ?); discriminate).
  - destruct (lex3 a b) eqn:E; try discriminate. eauto.
  - intros (a' & b' & [= <-] & [= <-] & ->). reflexivity.
Qed.

Lemma fle_rank x y :
  PyFloat.fle x y = true <->
  exists a b, rank x = Some a /\ rank y = Some b /\ lex3 a b <> Gt.
Proof.
  unfold PyFloat.fle, SFleb. rewrite SFcompare_rank.
  destruct (rank x) as [a|], (rank y) as [b|]; split;
    try discriminate; try (intros (? & ? & ? & ? & ?); discriminate).
  - destruct (lex3 a b) eqn:E; try discriminate;
      intros _; exists a, b; rewrite E; repeat split; discriminate.
  - intros (a' & b' & [= <-] & [= <-] & H).
    destruct (lex3 a b); congruence.
Qed.

(** Two ranks of one value are one rank. *)
Ltac same_rank :=
  repeat match goal with
         | H1 : rank ?x = Some ?a, H2 : rank ?x = Some ?b |- _ =>
           rewrite H1 in H2; injection H2 as <-
         end.

Lemma flt_trans x y z :
  PyFloat.flt x y = true -> PyFloat.flt y z = true -> PyFloat.flt x z = true.
Proof.
  rewrite !flt_rank. intros (a & b & Ha & Hb & H1) (b' & c & Hb' & Hc & H2).
  same_rank.
  exists a, c. repeat split; trivial.
  apply (lex3_trans_lt a b c); congruence.
Qed.

Lemma flt_asym x y : PyFloat.flt x y = true -> PyFloat.flt y x = false.
Proof.
  intros H. destruct (PyFloat.flt y x) eqn:E; trivial.
  apply flt_rank in H as (a & b & Ha & Hb & H1).
  apply flt_rank in E as (b' & a' & Hb' & Ha' & H2).
  same_rank.
  rewrite lex3_antisym, H1 in H2. discriminate.
Qed.

Lemma flt_fle x y : PyFloat.flt x y = true -> PyFloat.fle x y = true.
Proof.
  rewrite flt_rank, fle_rank. intros (a & b & Ha & Hb & H).
  exists a, b. repeat split; congruence.
Qed.

Lemma fle_trans x y z :
  PyFloat.fle x y = true -> PyFloat.fle y z = true -> PyFloat.fle x z = true.
Proof.
  rewrite !fle_rank. intros (a & b & Ha & Hb & H1) (b' & c & Hb' & Hc & H2).
  same_rank.
  exists a, c. repeat split; trivial.
  now apply (lex3_trans_le a b c).
Qed.



Lemma fle_not_nan x y :
  PyFloat.fle x y = true -> PyFloat.is_nan x = false /\ PyFloat.is_nan y = false.
Proof.
  rewrite fle_rank. intros (a & b & Ha & Hb & _).
  split; [destruct (PyFloat.is_nan x) eqn:E | destruct (PyFloat.is_nan y) eqn:E];
    trivial; apply rank_nan in E; congruence.
Qed.

(** Two values that are not NaN are comparable. *)
Lemma flt_total x y :
  PyFloat.is_nan x = false -> PyFloat.is_nan y = false ->
  PyFloat.flt x y = false -> PyFloat.fle y x = true.
Proof.
  intros Hx Hy H.
  destruct (rank_some x Hx) as [a Ha], (rank_some y Hy) as [b Hb].
  apply fle_rank. exists b, a. repeat split; trivial.
  intros G. rewrite lex3_antisym in G.
  destruct (lex3 a b) eqn:E; try discriminate.
  assert (PyFloat.flt x y = true) by (apply flt_rank; eauto).
  congruence.
Qed.

Lemma fle_refl x : PyFloat.is_nan x = false -> PyFloat.fle x x = true.
Proof.
  intros Hx. destruct (rank_some x Hx) as [a Ha].
  apply fle_rank. exists a, a. rewrite lex3_refl. repeat split; congruence.
Qed.
(** ** Loops *)

Lemma for_each_invariant {S A B} (I : B -> Prop) (body : B -> A -> M S B) :
  (forall acc x s acc' s', I acc -> body acc x s = (Return acc', s') -> I acc') ->
  forall l acc s r s',
    I acc -> for_each l body acc s = (Return r, s') -> I r.
Proof.
  intros Hbody. induction l as [|x l IH]; intros acc s r s' Hacc Hrun.
  - injection Hrun as <- _. exact Hacc.
  - cbn in Hrun. unfold bind in Hrun.
    destruct (body acc x s) as [[acc1|e] s1] eqn:E; [|discriminate].
    eapply IH; [|exact Hrun]. eapply Hbody; eauto.
Qed.

(** What a loop leaves unchanged when its body does. *)
Lemma for_each_preserves {S A B T} (f : S -> T) (body : B -> A -> M S B) :
  (forall acc x s, f (snd (body acc x s)) = f s) ->
  forall l acc s, f (snd (for_each l body acc s)) = f s.
Proof.
  intros Hbody. induction l as [|x l IH]; intros acc s; [reflexivity|].
  cbn. unfold bind. specialize (Hbody acc x s).
  destruct (body acc x s) as [[acc1|e] s1]; cbn in *.
  - now rewrite IH.
  - exact Hbody.
Qed.

(** ** [min], [max] and [sort] *)

Lemma In_firstn {A} (x : A) (n : nat) (l : list A) :
  In x (firstn n l) -> In x l.
Proof.
  revert n. induction l as [|y l IH]; intros [|n]; cbn; try tauto.
  intros [->|H]; eauto.
Qed.

Section BuiltinFacts.
Context {A : Type}.
Variable key : A -> float.

Lemma min_below_max_fold (l : list A) (m mx : A) :
  let fmin best y := if PyFloat.flt (key y) (key best) then y else best in
  let fmax best y := if PyFloat.fgt (key y) (key best) then y else best in
  m = mx \/ PyFloat.flt (key m) (key mx) = true ->
  fold_left fmin l m = fold_left fmax l mx \/
  PyFloat.flt (key (fold_left fmin l m)) (key (fold_left fmax l mx)) = true.
Proof.
  intros fmin fmax.
  revert m mx. induction l as [|y l IH]; intros m mx H; [exact H|].
  cbn. apply IH. unfold fmin, fmax, PyFloat.fgt.
  change (SFltb (key mx) (key y)) with (PyFloat.flt (key mx) (key y)).
  destruct (PyFloat.flt (key y) (key m)) eqn:E1.
  - assert (PyFloat.flt (key y) (key mx) = true) as E2.
    { destruct H as [<-|H]; [exact E1|]. eapply flt_trans; eauto. }
    rewrite (flt_asym _ _ E2). now right.
  - destruct (PyFloat.flt (key mx) (key y)) eqn:E2; [|exact H].
    right. destruct H as [->|H]; [exact E2|]. eapply flt_trans; eauto.
Qed.

(** The cheapest and the dearest entry are one entry, or the first is
    strictly cheaper. *)
Lemma min_below_max (l : list A) (m mx : A) :
  py_min key l = Return m -> py_max key l = Return mx ->
  m = mx \/ PyFloat.flt (key m) (key mx) = true.
Proof.
  destruct l as [|x l]; [discriminate|]. cbn.
  intros [= <-] [= <-]. apply (min_below_max_fold l x x). now left.
Qed.

Lemma insert_desc_perm (x : A) (l : list A) :
  Permutation (insert_desc key x l) (x :: l).
Proof.
  induction l as [|y l IH]; cbn; [reflexivity|].
  destruct (PyFloat.flt (key x) (key y)); [|reflexivity].
  rewrite IH. apply perm_swap.
Qed.

Lemma sort_desc_perm (l : list A) : Permutation (sort_desc key l) l.
Proof.
  induction l as [|x l IH]; cbn; [reflexivity|].
  rewrite insert_desc_perm. now constructor.
Qed.

Lemma sort_desc_In (x : A) (l : list A) : In x (sort_desc key l) <-> In x l.
Proof.
  split; apply Permutation_in; [|symmetry]; apply sort_desc_perm.
Qed.

Lemma insert_desc_sorted (x : A) (l : list A) :
  PyFloat.is_nan (key x) = false ->
  Forall (fun y => PyFloat.is_nan (key y) = false) l ->
  descending key l -> descending key (insert_desc key x l).
Proof.
  intros Hx Hl Hs. induction Hs as [|y l Hs IH Hy]; cbn.
  - repeat constructor.
  - apply List.Forall_cons_iff in Hl as [Hny Hl].
    destruct (PyFloat.flt (key x) (key y)) eqn:E.
    + constructor; [now apply IH|].
      eapply Permutation_Forall; [symmetry; apply insert_desc_perm|].
      constructor; [|exact Hy].
      unfold PyFloat.fge. now apply flt_fle.
    + assert (PyFloat.fge (key x) (key y) = true) as Hxy
        by (unfold PyFloat.fge; now apply flt_total).
      constructor; [now constructor|].
      constructor; [exact Hxy|].
      eapply List.Forall_impl; [|exact Hy]. cbn. intros z Hz.
      unfold PyFloat.fge in *. eapply fle_trans; eauto.
Qed.

Lemma sort_desc_sorted (l : list A) :
  Forall (fun y => PyFloat.is_nan (key y) = false) l ->
  descending key (sort_desc key l).
Proof.
  induction l as [|x l IH]; intros H; cbn; [constructor|].
  apply List.Forall_cons_iff in H as [Hx Hl].
  apply insert_desc_sorted; auto.
  eapply Permutation_Forall; [symmetry; apply sort_desc_perm|exact Hl].
Qed.

Lemma descending_firstn (n : nat) (l : list A) :
  descending key l -> descending key (firstn n l).
Proof.
  intros H. revert n. induction H as [|x l H IH Hx]; intros [|n]; cbn;
    try (constructor; fail).
  constructor; [apply IH|].
  apply List.Forall_forall. intros y Hy. apply In_firstn in Hy.
  rewrite List.Forall_forall in Hx; auto.
Qed.

End BuiltinFacts.
(** ** The scans return profitable opportunities only *)

Lemma monitor_scan_pair_profitable thr token_a token_b opps s opps' s' :
  Forall (monitor_profitable thr) opps ->
  PriceMonitor.scan_pair thr token_a token_b opps s = (Return opps', s') ->
  Forall (monitor_profitable thr) opps'.
Proof.
  intros Hopps. unfold PriceMonitor.scan_pair, bind, gets, lift, ret.
  set (dps := PriceMonitor.collect _ _).
  destruct (2 <=? length dps)%nat; [|now intros [= <- _]].
  destruct (py_min PriceMonitor.dp_price dps) as [mn|] eqn:Emin; [|discriminate].
  destruct (py_max PriceMonitor.dp_price dps) as [mx|] eqn:Emax; [|discriminate].
  destruct (String.eqb (PriceMonitor.dex mn) (PriceMonitor.dex mx)) eqn:Edex;
    cbn [negb]; [now intros [= <- _]|].
  destruct (PriceMonitor.profit_of _ _) as [pct|] eqn:Epct; [|discriminate].
  destruct (PyFloat.fge pct thr) eqn:Ethr; [|now intros [= <- _]].
  unfold PriceMonitor.time_time.
  destruct (tick (PriceMonitor.clock s)) as [now c]. intros [= <- _].
  apply Forall_app. split; [exact Hopps|]. constructor; [|constructor].
  apply String.eqb_neq in Edex.
  repeat split; cbn; trivial.
  destruct (min_below_max _ _ _ _ Emin Emax) as [->|H]; [congruence|exact H].
Qed.

Lemma monitor_scan_profitable settings thr s opps s' :
  PriceMonitor.get_arbitrage_opportunities settings thr s = (Return opps, s') ->
  Forall (monitor_profitable thr) opps.
Proof.
  unfold PriceMonitor.get_arbitrage_opportunities, bind, ret.
  destruct (for_each _ _ _ s) as [[acc|e] s1] eqn:E; [|discriminate].
  intros [= <- _].
  eapply Permutation_Forall; [symmetry; apply sort_desc_perm|].
  revert E. apply for_each_invariant; [|constructor].
  intros acc0 token_a s0 acc1 s2 H0.
  apply for_each_invariant; [|exact H0].
  intros acc2 token_b s3 acc3 s4 H2.
  destruct (String.eqb token_a token_b); [now intros [= <- _]|].
  now apply monitor_scan_pair_profitable.
Qed.

Lemma agent_scan_pair_profitable settings now store token_a token_b opps opps' :
  Forall (agent_profitable (min_profit_threshold settings)) opps ->
  SwapAgent.scan_pair settings now store token_a token_b opps = Return opps' ->
  Forall (agent_profitable (min_profit_threshold settings)) opps'.
Proof.
  intros Hopps. unfold SwapAgent.scan_pair.
  destruct (fold_left _ store SwapAgent.no_best) as [[buy|] [sell|] [bdex|] [sdex|]];
    cbn; try (now intros [= <-]).
  destruct (PyDecimal.truthy buy); cbn; [|now intros [= <-]].
  destruct (PyDecimal.truthy sell); cbn; [|now intros [= <-]].
  destruct (String.eqb bdex sdex) eqn:Edex; cbn; [now intros [= <-]|].
  destruct (PyDecimal.gt sell buy) eqn:Egt; cbn; [|now intros [= <-]].
  destruct (SwapAgent.profit_of buy sell) as [pct|] eqn:Epct; cbn; [|discriminate].
  destruct (PyFloat.fge pct _) eqn:Ethr; intros [= <-]; [|exact Hopps].
  apply Forall_app. split; [exact Hopps|]. constructor; [|constructor].
  apply String.eqb_neq in Edex. repeat split; cbn; trivial.
Qed.

Lemma agent_scan_b_profitable settings now store token_a tokens opps opps' :
  Forall (agent_profitable (min_profit_threshold settings)) opps ->
  SwapAgent.scan_tokens_b settings now store token_a tokens opps = Return opps' ->
  Forall (agent_profitable (min_profit_threshold settings)) opps'.
Proof.
  revert opps. induction tokens as [|token_b rest IH]; intros opps Hopps; cbn.
  - now intros [= <-].
  - destruct (String.eqb token_a token_b); cbn; [now apply IH|].
    destruct (SwapAgent.scan_pair _ _ _ _ _ _) as [acc|] eqn:E; cbn; [|discriminate].
    apply IH. eapply agent_scan_pair_profitable; eauto.
Qed.

Lemma agent_scan_a_profitable settings now store tokens opps opps' :
  Forall (agent_profitable (min_profit_threshold settings)) opps ->
  SwapAgent.scan_tokens_a settings now store tokens opps = Return opps' ->
  Forall (agent_profitable (min_profit_threshold settings)) opps'.
Proof.
  revert opps. induction tokens as [|token_a rest IH]; intros opps Hopps; cbn.
  - now intros [= <-].
  - destruct (SwapAgent.scan_tokens_b _ _ _ _ _ _) as [acc|] eqn:E; cbn; [|discriminate].
    apply IH. eapply agent_scan_b_profitable; eauto.
Qed.

Lemma agent_scan_b_empty_store settings now token_a tokens opps :
  SwapAgent.scan_tokens_b settings now [] token_a tokens opps = Return opps.
Proof.
  induction tokens as [|token_b rest IH]; cbn; [reflexivity|].
  destruct (String.eqb token_a token_b); cbn; exact IH.
Qed.

Lemma agent_scan_a_empty_store settings now tokens opps :
  SwapAgent.scan_tokens_a settings now [] tokens opps = Return opps.
Proof.
  induction tokens as [|token_a rest IH]; cbn; [reflexivity|].
  rewrite agent_scan_b_empty_store. cbn. exact IH.
Qed.

(** The candidates before sorting and truncation, when the scan returns. *)
Lemma agent_scan_inv settings s opps s' :
  SwapAgent.find_arbitrage_opportunities settings s = (Return opps, s') ->
  exists now cands,
    SwapAgent.scan_tokens_a settings now (PriceMonitor.latest_prices s)
      (monitored_tokens settings) [] = Return cands /\
    opps = slice_to (max_concurrent_swaps settings)
             (sort_desc SwapAgent.profit_percentage cands).
Proof.
  unfold SwapAgent.find_arbitrage_opportunities, bind, gets, lift, ret,
    PriceMonitor.time_time.
  destruct (tick (PriceMonitor.clock s)) as [now c]. cbn.
  destruct (PriceMonitor.latest_prices s) as [|item store] eqn:Es.
  - intros [= <- _]. exists now, [].
    rewrite agent_scan_a_empty_store. split; [reflexivity|].
    unfold slice_to. cbn. now destruct (0 <=? _); rewrite List.firstn_nil.
  - destruct (SwapAgent.scan_tokens_a _ _ _ _ _) as [cands|] eqn:E; [|discriminate].
    intros [= <- _]. eauto.
Qed.

Lemma In_slice_to {A} (x : A) n (l : list A) : In x (slice_to n l) -> In x l.
Proof. unfold slice_to. destruct (0 <=? n); apply In_firstn. Qed.

Lemma agent_scan_profitable settings s opps s' :
  SwapAgent.find_arbitrage_opportunities settings s = (Return opps, s') ->
  Forall (agent_profitable (min_profit_threshold settings)) opps.
Proof.
  intros H. apply agent_scan_inv in H as (now & cands & E & ->).
  apply agent_scan_a_profitable in E; [|constructor].
  apply List.Forall_forall. intros o Ho.
  apply In_slice_to, sort_desc_In in Ho.
  rewrite List.Forall_forall in E. auto.
Qed.

(** C3, as first stated, fails: the threshold is tested on the percentage
    as the code computes it, which rounding can carry up to the threshold
    from below.  The agent, for prices of 100 and 100.49999999999999999999
    and a threshold of 0.5, computes the decimal 0.49999999999999999999,
    which converts to the float 0.5, and returns the opportunity.  The
    monitor, for prices of 906.25 and 908.0625 and the threshold 0.2 (the
    double next above a fifth), computes in binary64 a percentage that is
    that double, and returns the opportunity, whose percentage is a fifth
    exactly. *)
Lemma C3_rounding_reaches_the_threshold :
  (exists o,
     fst (SwapAgent.find_arbitrage_opportunities (settings_for ["A"; "B"]%string)
            (monitor_state rounded_up_agent 1234567891)) = Return [o] /\
     (exact_percentage (PyDecimal.to_Q (SwapAgent.buy_price o))
        (PyDecimal.to_Q (SwapAgent.sell_price o))
      < PyFloat.to_Q (min_profit_threshold (settings_for ["A"; "B"]%string)))%Q) /\
  (exists o,
     fst (PriceMonitor.get_arbitrage_opportunities (settings_for ["A"; "B"]%string)
            fifth_percent (monitor_state rounded_up_monitor 1234567891))
     = Return [o] /\
     (exact_percentage (PyFloat.to_Q (PriceMonitor.buy_price o))
        (PyFloat.to_Q (PriceMonitor.sell_price o))
      < PyFloat.to_Q fifth_percent)%Q).
Proof.
  split; eexists; (split; [vm_compute; reflexivity|]); vm_compute; reflexivity.
Qed.

(** C3, as amended.  Every opportunity a scan returns has its sell price
    above its buy price, a buy venue different from its sell venue, and a
    profit percentage that reaches the minimum profit threshold, the
    percentage being [(sell - buy) / buy * 100] as the scan computes it from
    these two prices: in binary64 in [PriceMonitor.get_arbitrage_opportunities],
    against its threshold argument; in [Decimal] arithmetic of 28 digits,
    converted to the nearest float, in
    [SolanaSwapAgent.find_arbitrage_opportunities], against the configured
    [min_profit_threshold].  The same holds of every opportunity the agent
    constructs, handed on or not; the monitor returns all it constructs. *)
Theorem C3_opportunities_are_profitable (settings : Settings) (threshold : float)
    (s : PriceMonitor.State) :
  (forall opps s',
      PriceMonitor.get_arbitrage_opportunities settings threshold s
        = (Return opps, s') ->
      forall o, In o opps -> monitor_profitable threshold o) /\
  (forall opps s',
      SwapAgent.find_arbitrage_opportunities settings s = (Return opps, s') ->
      forall o, In o opps ->
        agent_profitable (min_profit_threshold settings) o) /\
  (forall now candidates,
      SwapAgent.scan_tokens_a settings now (PriceMonitor.latest_prices s)
        (monitored_tokens settings) [] = Return candidates ->
      forall o, In o candidates ->
        agent_profitable (min_profit_threshold settings) o).
Proof.
  split; [|split].
  - intros opps s' H o Ho. apply monitor_scan_profitable in H.
    rewrite List.Forall_forall in H. auto.
  - intros opps s' H o Ho. apply agent_scan_profitable in H.
    rewrite List.Forall_forall in H. auto.
  - intros now candidates H o Ho.
    apply agent_scan_a_profitable in H; [|constructor].
    rewrite List.Forall_forall in H. auto.
Qed.
(** ** Ranking and truncation *)

Lemma monitor_profitable_not_nan thr o :
  monitor_profitable thr o ->
  PyFloat.is_nan (PriceMonitor.profit_percentage o) = false.
Proof. intros (_ & _ & H & _). now apply fle_not_nan in H. Qed.

Lemma agent_profitable_not_nan thr o :
  agent_profitable thr o ->
  PyFloat.is_nan (SwapAgent.profit_percentage o) = false.
Proof. intros (_ & _ & H & _). now apply fle_not_nan in H. Qed.

Lemma monitor_scan_sorted settings thr s opps s' :
  PriceMonitor.get_arbitrage_opportunities settings thr s = (Return opps, s') ->
  descending PriceMonitor.profit_percentage opps.
Proof.
  unfold PriceMonitor.get_arbitrage_opportunities, bind, ret.
  destruct (for_each _ _ _ s) as [[acc|e] s1] eqn:E; [|discriminate].
  intros [= <- _]. apply sort_desc_sorted.
  assert (Forall (monitor_profitable thr) acc) as H.
  { revert E. apply for_each_invariant; [|constructor].
    intros acc0 token_a s0 acc1 s2 H0.
    apply for_each_invariant; [|exact H0].
    intros acc2 token_b s3 acc3 s4 H2.
    destruct (String.eqb token_a token_b); [now intros [= <- _]|].
    now apply monitor_scan_pair_profitable. }
  eapply List.Forall_impl; [|exact H].
  intros o. apply monitor_profitable_not_nan.
Qed.

Lemma slice_to_length {A} n (l : list A) :
  0 <= n -> Z.of_nat (length (slice_to n l)) <= n.
Proof.
  intros Hn. unfold slice_to.
  destruct (Z.leb_spec 0 n); [|lia].
  pose proof (List.firstn_le_length (Z.to_nat n) l). lia.
Qed.

Lemma agent_scan_sorted settings s opps s' :
  SwapAgent.find_arbitrage_opportunities settings s = (Return opps, s') ->
  descending SwapAgent.profit_percentage opps.
Proof.
  intros H. apply agent_scan_inv in H as (now & cands & E & ->).
  apply agent_scan_a_profitable in E; [|constructor].
  unfold slice_to.
  destruct (0 <=? _); apply descending_firstn; apply sort_desc_sorted;
    (eapply List.Forall_impl; [|exact E]);
    intros o; apply agent_profitable_not_nan.
Qed.

Lemma agent_scan_length settings s opps s' :
  0 <= max_concurrent_swaps settings ->
  SwapAgent.find_arbitrage_opportunities settings s = (Return opps, s') ->
  Z.of_nat (length opps) <= max_concurrent_swaps settings.
Proof.
  intros Hn H. apply agent_scan_inv in H as (now & cands & E & ->).
  now apply slice_to_length.
Qed.

Lemma agent_scan_top settings s opps s' :
  0 <= max_concurrent_swaps settings ->
  SwapAgent.find_arbitrage_opportunities settings s = (Return opps, s') ->
  exists now cands,
    SwapAgent.scan_tokens_a settings now (PriceMonitor.latest_prices s)
      (monitored_tokens settings) [] = Return cands /\
    opps = firstn (Z.to_nat (max_concurrent_swaps settings))
             (sort_desc SwapAgent.profit_percentage cands).
Proof.
  intros Hn H. apply agent_scan_inv in H as (now & cands & E & ->).
  exists now, cands. split; [exact E|].
  unfold slice_to.
  destruct (Z.leb_spec 0 (max_concurrent_swaps settings)); [reflexivity|lia].
Qed.

Lemma launch_length settings opps tasks :
  Z.of_nat (length tasks) <= max_concurrent_swaps settings ->
  Z.of_nat (length (SwapAgent.launch settings opps tasks))
    <= max_concurrent_swaps settings.
Proof.
  revert tasks. induction opps as [|o opps IH]; intros tasks H; cbn; [exact H|].
  destruct (Z.geb_spec (Z.of_nat (length tasks)) (max_concurrent_swaps settings));
    [exact H|].
  apply IH. rewrite length_app. cbn. lia.
Qed.

Lemma monitor_scan_candidates settings thr s opps s' :
  PriceMonitor.get_arbitrage_opportunities settings thr s = (Return opps, s') ->
  exists cands,
    monitor_candidates settings thr s = (Return cands, s') /\
    opps = sort_desc PriceMonitor.profit_percentage cands.
Proof.
  unfold PriceMonitor.get_arbitrage_opportunities, monitor_candidates, bind, ret.
  destruct (for_each _ _ _ s) as [[acc|e] s1]; [|discriminate].
  intros [= <- <-]. eauto.
Qed.

Lemma descending_app {A} (key : A -> float) (l1 l2 : list A) :
  descending key (l1 ++ l2) ->
  Forall (fun x => Forall (fun y => PyFloat.fge (key x) (key y) = true) l2) l1.
Proof.
  induction l1 as [|x l1 IH]; cbn; intros H; [constructor|].
  inversion H as [|x' l' Hl Hx]; subst. constructor; [|now apply IH].
  apply Forall_app in Hx. apply Hx.
Qed.

Lemma slice_to_prefix {A} n (l : list A) :
  exists rest,
    slice_to n l ++ rest = l /\
    length (slice_to n l)
    = (if (0 <=? n)%Z then Nat.min (Z.to_nat n) (length l)
       else length l - Z.to_nat (- n))%nat.
Proof.
  unfold slice_to. destruct (0 <=? n).
  - exists (skipn (Z.to_nat n) l). split; [apply firstn_skipn|apply length_firstn].
  - exists (skipn (length l - Z.to_nat (- n)) l).
    split; [apply firstn_skipn|]. rewrite length_firstn. lia.
Qed.

Lemma launch_prefix settings opps tasks :
  SwapAgent.launch settings opps tasks
  = tasks ++ firstn (Z.to_nat (max_concurrent_swaps settings
                               - Z.of_nat (length tasks))) opps.
Proof.
  revert tasks. induction opps as [|o opps IH]; intros tasks; cbn [SwapAgent.launch].
  - now rewrite List.firstn_nil, app_nil_r.
  - destruct (Z.geb_spec (Z.of_nat (length tasks)) (max_concurrent_swaps settings))
      as [H|H].
    + replace (Z.to_nat _) with 0%nat by lia. cbn. now rewrite app_nil_r.
    + rewrite IH, length_app. cbn [length].
      replace (Z.to_nat (max_concurrent_swaps settings - Z.of_nat (length tasks)))
        with (S (Z.to_nat (max_concurrent_swaps settings
                           - Z.of_nat (length tasks + 1)))) by lia.
      cbn [firstn]. now rewrite <- app_assoc.
Qed.

(** C5, as first stated, fails for a [max_concurrent_swaps] below zero,
    which the configuration does not turn away: the slice
    [opportunities[:-1]] of three candidates hands on two of them. *)
Lemma C5_negative_limit_hands_on_opportunities :
  exists opps,
    fst (SwapAgent.find_arbitrage_opportunities unlimited_settings
           (monitor_state three_pairs 1234567891)) = Return opps /\
    length opps = 2%nat /\
    max_concurrent_swaps unlimited_settings = -1 /\
    max_concurrent_swaps unlimited_settings < Z.of_nat (length opps).
Proof.
  eexists. split; [vm_compute; reflexivity|].
  split; [reflexivity|]. split; reflexivity.
Qed.

(** C5, as amended.  The opportunities [get_arbitrage_opportunities]
    returns are its candidates, every one of them once, in descending order
    of profit percentage.  [find_arbitrage_opportunities] puts its
    candidates in that order and hands on the slice
    [[:max_concurrent_swaps]] of it: the first [max_concurrent_swaps] of
    them (all when there are fewer) for a limit that is not negative, so
    that no candidate left out has a higher percentage than one handed on;
    all but the last [- max_concurrent_swaps] for a limit below zero.
    [execute_opportunities] creates a task for the first
    [max_concurrent_swaps] opportunities of the list it is given, and for
    none when the limit is not positive. *)
Theorem C5_ranked_and_bounded (settings : Settings) (threshold : float)
    (s : PriceMonitor.State) :
  (forall opps s',
      PriceMonitor.get_arbitrage_opportunities settings threshold s
        = (Return opps, s') ->
      exists cands,
        monitor_candidates settings threshold s = (Return cands, s') /\
        Permutation opps cands /\
        descending PriceMonitor.profit_percentage opps) /\
  (forall opps s',
      SwapAgent.find_arbitrage_opportunities settings s = (Return opps, s') ->
      exists now cands left_out,
        SwapAgent.scan_tokens_a settings now (PriceMonitor.latest_prices s)
          (monitored_tokens settings) [] = Return cands /\
        Permutation (opps ++ left_out) cands /\
        descending SwapAgent.profit_percentage (opps ++ left_out) /\
        Forall (fun o =>
                  Forall (fun o' =>
                            PyFloat.fge (SwapAgent.profit_percentage o)
                              (SwapAgent.profit_percentage o') = true)
                    left_out)
          opps /\
        length opps
        = (if (0 <=? max_concurrent_swaps settings)%Z
           then Nat.min (Z.to_nat (max_concurrent_swaps settings)) (length cands)
           else length cands - Z.to_nat (- max_concurrent_swaps settings))%nat) /\
  (forall opps,
      SwapAgent.execute_opportunities settings opps
      = firstn (Z.to_nat (max_concurrent_swaps settings)) opps).
Proof.
  split; [|split].
  - intros opps s' H. pose proof (monitor_scan_sorted _ _ _ _ _ H) as Hs.
    apply monitor_scan_candidates in H as (cands & E & ->).
    exists cands. split; [exact E|]. split; [apply sort_desc_perm|exact Hs].
  - intros opps s' H. apply agent_scan_inv in H as (now & cands & E & ->).
    pose proof E as Hp. apply agent_scan_a_profitable in Hp; [|constructor].
    assert (descending SwapAgent.profit_percentage
              (sort_desc SwapAgent.profit_percentage cands)) as Hd.
    { apply sort_desc_sorted. eapply List.Forall_impl; [|exact Hp].
      intros o. apply agent_profitable_not_nan. }
    destruct (slice_to_prefix (max_concurrent_swaps settings)
                (sort_desc SwapAgent.profit_percentage cands)) as (rest & Hr & Hl).
    exists now, cands, rest. split; [exact E|].
    rewrite Hr. split; [apply sort_desc_perm|]. split; [exact Hd|]. split.
    + apply descending_app. now rewrite Hr.
    + rewrite Hl, (Permutation_length (sort_desc_perm _ cands)). reflexivity.
  - intros opps. unfold SwapAgent.execute_opportunities.
    rewrite launch_prefix. cbn [app length]. now rewrite Z.sub_0_r.
Qed.
(** ** Rounding never produces a NaN *)

Lemma shr_1_nonneg mrs : 0 <= shr_m mrs -> 0 <= shr_m (shr_1 mrs).
Proof.
  destruct mrs as [m r s]. cbn. destruct m as [|[p|p|]|[p|p|]]; cbn; lia.
Qed.

Lemma iter_pos_shr_1_nonneg p mrs :
  0 <= shr_m mrs -> 0 <= shr_m (SpecFloat.iter_pos shr_1 p mrs).
Proof.
  revert mrs. induction p as [p IH|p IH|]; intros mrs H; cbn.
  - apply IH, IH. now apply shr_1_nonneg.
  - now apply IH, IH.
  - now apply shr_1_nonneg.
Qed.



Lemma round_nearest_even_nonneg m l : 0 <= m -> 0 <= round_nearest_even m l.
Proof.
  intros H. destruct l as [|[]]; cbn; try lia. destruct (Z.even m); lia.
Qed.




(** ** Ties go to the first venue *)

Section FirstBest.
Context {A : Type}.
Variables (better no_worse : A -> A -> bool) (ok : A -> Prop).
Hypothesis better_trans :
  forall x y z, better x y = true -> better y z = true -> better x z = true.
Hypothesis better_no_worse_trans :
  forall x y z, better x y = true -> no_worse y z = true -> better x z = true.
Hypothesis comparable :
  forall x y, ok x -> ok y -> better x y = false -> no_worse y x = true.


End FirstBest.

Section Ties.
Context {A : Type}.
Variable key : A -> float.



End Ties.
(** ** The scan and the clock, the scan and the timestamps of the store *)

Lemma for_each_related {S A B} (RS : S -> S -> Prop) (RB : B -> B -> Prop)
    (body1 body2 : B -> A -> M S B) :
  (forall acc1 acc2 x s1 s2, RB acc1 acc2 -> RS s1 s2 ->
     related RS RB (body1 acc1 x s1) (body2 acc2 x s2)) ->
  forall l acc1 acc2 s1 s2, RB acc1 acc2 -> RS s1 s2 ->
    related RS RB (for_each l body1 acc1 s1) (for_each l body2 acc2 s2).
Proof.
  intros Hbody. induction l as [|x l IH]; intros acc1 acc2 s1 s2 Hacc Hs.
  - split; assumption.
  - cbn. unfold bind. specialize (Hbody acc1 acc2 x s1 s2 Hacc Hs).
    destruct (body1 acc1 x s1) as [[a1|e1] t1], (body2 acc2 x s2) as [[a2|e2] t2];
      destruct Hbody as [Ht Ha]; cbn in Ht, Ha; try contradiction.
    + now apply IH.
    + split; assumption.
Qed.

Lemma scan_pair_candidate thr token_a token_b opps s :
  PriceMonitor.scan_pair thr token_a token_b opps s =
  match candidate thr token_a token_b (PriceMonitor.latest_prices s) with
  | Raise e => (Raise e, s)
  | Return None => (Return opps, s)
  | Return (Some o) =>
    let '(now, c) := tick (PriceMonitor.clock s) in
    (Return (opps ++ [with_timestamp now o]),
     {| PriceMonitor.latest_prices := PriceMonitor.latest_prices s;
        PriceMonitor.clock := c |})
  end.
Proof.
  unfold PriceMonitor.scan_pair, candidate, bind, gets, lift, ret.
  destruct (2 <=? length _)%nat; [|reflexivity].
  destruct (py_min _ _) as [mn|]; [|reflexivity]. cbn.
  destruct (py_max _ _) as [mx|]; [|reflexivity]. cbn.
  destruct (negb _); [|reflexivity].
  destruct (PriceMonitor.profit_of _ _) as [pct|]; [|reflexivity]. cbn.
  destruct (PyFloat.fge pct thr); [|reflexivity].
  unfold PriceMonitor.time_time.
  now destruct (tick (PriceMonitor.clock s)).
Qed.

(** The scan leaves the store as it found it. *)
Lemma scan_pair_store thr token_a token_b opps s :
  PriceMonitor.latest_prices
    (snd (PriceMonitor.scan_pair thr token_a token_b opps s))
  = PriceMonitor.latest_prices s.
Proof.
  rewrite scan_pair_candidate.
  destruct (candidate _ _ _ _) as [[o|]|]; reflexivity.
Qed.


Section SortMap.
Context {A : Type}.
Variables (key : A -> float) (f : A -> A).
Hypothesis key_f : forall x, key (f x) = key x.


End SortMap.

Lemma collect_retime g pair_key store acc1 acc2 :
  Forall2 same_quote acc1 acc2 ->
  Forall2 same_quote
    (fold_left (PriceMonitor.collect_step pair_key) (retime g store) acc1)
    (fold_left (PriceMonitor.collect_step pair_key) store acc2).
Proof.
  revert acc1 acc2. induction store as [|[dex_name prices] store IH];
    intros acc1 acc2 Hacc; cbn; [exact Hacc|].
  apply IH. rewrite lookup_fmap.
  destruct (prices !! pair_key) as [pd|]; cbn; [|exact Hacc].
  apply Forall2_app; [exact Hacc|].
  constructor; [|constructor]. repeat split.
Qed.

Lemma fold_same_quote (step1 step2 : PriceMonitor.DexPrice ->
                                     PriceMonitor.DexPrice ->
                                     PriceMonitor.DexPrice) l1 l2 b1 b2 :
  (forall x1 x2 y1 y2, same_quote x1 x2 -> same_quote y1 y2 ->
     same_quote (step1 x1 y1) (step2 x2 y2)) ->
  Forall2 same_quote l1 l2 -> same_quote b1 b2 ->
  same_quote (fold_left step1 l1 b1) (fold_left step2 l2 b2).
Proof.
  intros Hstep H. revert b1 b2. induction H as [|y1 y2 l1 l2 Hy H IH];
    intros b1 b2 Hb; cbn; [exact Hb|].
  apply IH. now apply Hstep.
Qed.

Lemma py_min_same_quote l1 l2 :
  Forall2 same_quote l1 l2 ->
  match py_min PriceMonitor.dp_price l1, py_min PriceMonitor.dp_price l2 with
  | Return a, Return b => same_quote a b
  | Raise e1, Raise e2 => e1 = e2
  | _, _ => False
  end.
Proof.
  intros [|x1 x2 r1 r2 Hx H]; cbn; [reflexivity|].
  apply fold_same_quote; trivial.
  intros a1 a2 b1 b2 Ha Hb.
  destruct Ha as (? & Ea & ?), Hb as (? & Eb & ?). rewrite Ea, Eb.
  destruct (PyFloat.flt _ _); repeat split; assumption.
Qed.

Lemma py_max_same_quote l1 l2 :
  Forall2 same_quote l1 l2 ->
  match py_max PriceMonitor.dp_price l1, py_max PriceMonitor.dp_price l2 with
  | Return a, Return b => same_quote a b
  | Raise e1, Raise e2 => e1 = e2
  | _, _ => False
  end.
Proof.
  intros [|x1 x2 r1 r2 Hx H]; cbn; [reflexivity|].
  apply fold_same_quote; trivial.
  intros a1 a2 b1 b2 Ha Hb.
  destruct Ha as (? & Ea & ?), Hb as (? & Eb & ?). rewrite Ea, Eb.
  destruct (PyFloat.fgt _ _); repeat split; assumption.
Qed.

Lemma candidate_retime g thr token_a token_b store :
  candidate thr token_a token_b (retime g store)
  = candidate thr token_a token_b store.
Proof.
  unfold candidate, PriceMonitor.collect.
  pose proof (collect_retime g (pair_key_of token_a token_b) store [] []
                ltac:(constructor)) as H.
  set (l1 := fold_left _ (retime g store) []) in *.
  set (l2 := fold_left _ store []) in *.
  rewrite (Forall2_length _ _ _ H).
  destruct (2 <=? length l2)%nat; [|reflexivity].
  pose proof (py_min_same_quote _ _ H) as Hmin.
  pose proof (py_max_same_quote _ _ H) as Hmax.
  destruct (py_min _ l1) as [mn1|], (py_min _ l2) as [mn2|];
    try contradiction; [|now subst]. cbn.
  destruct (py_max _ l1) as [mx1|], (py_max _ l2) as [mx2|];
    try contradiction; [|now subst]. cbn.
  destruct Hmin as (-> & -> & ->), Hmax as (-> & -> & ->). reflexivity.
Qed.

(** The result of a scan does not depend on the timestamps in the store. *)
Lemma monitor_scan_retime settings thr g store clk :
  fst (PriceMonitor.get_arbitrage_opportunities settings thr
         {| PriceMonitor.latest_prices := retime g store;
            PriceMonitor.clock := clk |})
  = fst (PriceMonitor.get_arbitrage_opportunities settings thr
           {| PriceMonitor.latest_prices := store;
              PriceMonitor.clock := clk |}).
Proof.
  unfold PriceMonitor.get_arbitrage_opportunities, bind, ret.
  set (RS := fun a b : PriceMonitor.State =>
               PriceMonitor.latest_prices a = retime g (PriceMonitor.latest_prices b)
               /\ PriceMonitor.clock a = PriceMonitor.clock b).
  match goal with |- context [for_each ?l ?b ?a ?s1] =>
    match goal with |- context [for_each l b a ?s2] =>
      assert_fails (constr_eq s1 s2);
      assert (related RS eq (for_each l b a s1) (for_each l b a s2)) as H
    end
  end.
  { apply for_each_related; [|reflexivity|split; reflexivity].
    intros acc1 acc2 token_a t1 t2 Hacc Ht.
    apply for_each_related; [|exact Hacc|exact Ht].
    intros a1 a2 token_b u1 u2 -> [Hu Hc].
    destruct (String.eqb token_a token_b); [split; [split|reflexivity]; trivial|].
    rewrite !scan_pair_candidate, Hu, candidate_retime, Hc.
    destruct (candidate _ _ _ _) as [[o|]|].
    - destruct (tick (PriceMonitor.clock u2)).
      split; [split|]; reflexivity.
    - split; [split|reflexivity]; trivial.
    - split; [split|reflexivity]; trivial. }
  destruct (for_each _ _ _ _) as [[r1|e1] t1], (for_each _ _ _ _) as [[r2|e2] t2];
    destruct H as [_ H]; cbn in H; try contradiction; cbn; now subst.
Qed.

Lemma collect_fold_dex pair_key store acc :
  map PriceMonitor.dex (fold_left (PriceMonitor.collect_step pair_key) store acc)
  = map PriceMonitor.dex acc
    ++ map fst (List.filter (quotes_pair pair_key) store).
Proof.
  revert acc. induction store as [|[dex_name prices] store IH]; intros acc; cbn.
  - now rewrite app_nil_r.
  - rewrite IH. unfold quotes_pair. cbn [snd].
    destruct (prices !! pair_key) as [pd|]; cbn; [|reflexivity].
    now rewrite map_app, <- app_assoc.
Qed.

(** The venues collected for a pair are those that hold its key, in the
    order of the store. *)
Lemma collect_dex pair_key store :
  map PriceMonitor.dex (PriceMonitor.collect pair_key store)
  = map fst (List.filter (quotes_pair pair_key) store).
Proof. apply collect_fold_dex. Qed.

(** ** The reciprocal key *)

(** A venue without the pair key itself leaves the scan of the monitor as it
    was, whatever it holds under the reverse key. *)
Lemma collect_step_without_direct_key pair_key dex_prices dex_name (prices : Prices) :
  prices !! pair_key = None ->
  PriceMonitor.collect_step pair_key dex_prices (dex_name, prices) = dex_prices.
Proof. intros H. cbn. now rewrite H. Qed.

(** And the scan of the agent likewise. *)
Lemma best_step_without_direct_key token_a token_b b dex_name (prices : Prices) :
  prices !! pair_key_of token_a token_b = None ->
  SwapAgent.best_step token_a token_b b (dex_name, prices) = b.
Proof. intros H. cbn. now rewrite H. Qed.

(** C1.  At the store [mixed_keys] the second venue holds B-A at 0.005 and
    not A-B.  It adds no entry to the prices collected for A-B, and both
    scans return no opportunity, while [get_price_for_pair] on the same store
    does read this venue's A-B price as 1 / 0.005 = 200, and a store stating
    that price under A-B yields an opportunity in both scans. *)
Theorem C1_reciprocal_quote_is_ignored :
  let settings := settings_for ["A"; "B"]%string in
  let s := monitor_state mixed_keys 1234567891 in
  let s' := monitor_state mixed_keys_direct 1234567891 in
  map PriceMonitor.dex (PriceMonitor.collect (pair_key_of "A" "B") mixed_keys)
    = ["jupiter"%string] /\
  fst (PriceMonitor.get_arbitrage_opportunities settings half_percent s)
    = Return [] /\
  fst (SwapAgent.find_arbitrage_opportunities settings s) = Return [] /\
  (exists pd,
      fst (PriceMonitor.get_price_for_pair "A" "B" (Some "raydium"%string) s)
        = Return (Some pd) /\
      PyDecimal.compare (PriceData.price pd) (PyDecimal.mk 200 0) = Eq) /\
  (exists o,
      fst (PriceMonitor.get_arbitrage_opportunities settings half_percent s')
        = Return [o] /\
      PriceMonitor.buy_dex o = "jupiter"%string /\
      PriceMonitor.sell_dex o = "raydium"%string) /\
  (exists o,
      fst (SwapAgent.find_arbitrage_opportunities settings s') = Return [o] /\
      SwapAgent.buy_dex o = "jupiter"%string /\
      SwapAgent.sell_dex o = "raydium"%string).
Proof.
  cbv zeta. repeat split.
  - vm_compute. eexists. split; reflexivity.
  - vm_compute. eexists. repeat split; reflexivity.
  - vm_compute. eexists. repeat split; reflexivity.
Qed.

(** ** Staleness *)

(** C2, as stated, fails.  At second 10000000000 the store [three_venues]
    holds only entries written at second 1234567890; the scan returns an
    opportunity whose buy leg is the first venue's entry and whose sell leg
    is the second venue's, each 8765432110 seconds old, far beyond a
    staleness bound of a minute. *)
Lemma C2_stale_entries_are_traded :
  let s := monitor_state three_venues 10000000000 in
  let now := float_of_Z 10000000000 in
  let o := three_venues_opportunity now in
  let buy_leg := quote 10050 (-2) 1234567890 in
  let sell_leg := quote 10120 (-2) 1234567890 in
  fst (PriceMonitor.get_arbitrage_opportunities
         (settings_for ["SOL"; "USDC"]%string) half_percent s) = Return [o] /\
  (store_get (PriceMonitor.buy_dex o) three_venues ≫= (.!! "SOL-USDC"%string))
    = Some buy_leg /\
  (store_get (PriceMonitor.sell_dex o) three_venues ≫= (.!! "SOL-USDC"%string))
    = Some sell_leg /\
  PriceMonitor.buy_price o = PyDecimal.to_float (PriceData.price buy_leg) /\
  PriceMonitor.sell_price o = PyDecimal.to_float (PriceData.price sell_leg) /\
  PyFloat.fsub now (PriceData.timestamp buy_leg) = float_of_Z 8765432110 /\
  PyFloat.fsub now (PriceData.timestamp sell_leg) = float_of_Z 8765432110 /\
  PyFloat.fgt (float_of_Z 8765432110) (float_of_Z 60) = true.
Proof. cbv zeta. repeat split; vm_compute; reflexivity. Qed.

(** C2, amended.  The scan applies no staleness bound: for every pair the
    venues that take part are all those holding the pair key, in the order
    of the store, and the result of the scan is the same whatever
    timestamps the entries of the store carry. *)
Theorem C2_scan_ignores_timestamps (settings : Settings) (threshold : float)
    (g : PriceData.t -> float) (store : PriceStore) (clk : Clock) :
  (forall pair_key,
     map PriceMonitor.dex (PriceMonitor.collect pair_key store)
     = map fst (List.filter (quotes_pair pair_key) store)) /\
  fst (PriceMonitor.get_arbitrage_opportunities settings threshold
         {| PriceMonitor.latest_prices := retime g store;
            PriceMonitor.clock := clk |})
  = fst (PriceMonitor.get_arbitrage_opportunities settings threshold
           {| PriceMonitor.latest_prices := store;
              PriceMonitor.clock := clk |}).
Proof.
  split; [intros pair_key; apply collect_dex|apply monitor_scan_retime].
Qed.
(** ** Determinism *)




(** ** The circuit breaker of the polling loop *)

Lemma backoff_capped failures :
  (PriceMonitor.max_failures <= failures)%nat ->
  PriceMonitor.backoff failures = 30%Q.
Proof.
  intros H. unfold PriceMonitor.backoff, PriceMonitor.max_failures in *.
  assert (2 ^ 5 <= 2 ^ Z.of_nat failures) as Hp by (apply Z.pow_le_mono_r; lia).
  destruct (Qcompare_spec (inject_Z (2 ^ Z.of_nat failures)) 30) as [E|E|E];
    try reflexivity.
  unfold Qlt, inject_Z in E. cbn in E. lia.
Qed.

(** C6, as stated, fails.  With four failures counted, a poll that raises
    brings the counter to the threshold of five; the loop sleeps for the
    capped back-off of 30 seconds and polls again with the counter still at
    five, not zero.  Over six polls that all raise, from a counter of zero,
    the delays are 2, 4, 8, 16, 30 and 30 seconds and the counter ends at
    six. *)
Lemma C6_counter_survives_the_backoff :
  let r := PriceMonitor.iteration (settings_for []) "jupiter" four_failures
             PriceMonitor.PollRaised in
  failures_after four_failures PriceMonitor.PollRaised
    = PriceMonitor.max_failures /\
  snd r = [30%Q] /\
  PriceMonitor.consecutive_failures (fst r) = 5%nat /\
  PriceMonitor.run (settings_for []) "jupiter"
    {| PriceMonitor.consecutive_failures := 0; PriceMonitor.store := [] |}
    (repeat PriceMonitor.PollRaised 6)
  = ({| PriceMonitor.consecutive_failures := 6; PriceMonitor.store := [] |},
     [[2]; [4]; [8]; [16]; [30]; [30]]%Q).
Proof. cbv zeta. repeat split. Qed.

(** C6, amended.  Whenever the failure counter reaches the threshold (five),
    the loop sleeps at least the cooldown (30 seconds) before it polls
    again: the 30 second pause when the poll returned no prices, the capped
    back-off when the poll raised; and after the pause of a poll that
    returned no prices the counter is zero. *)
Theorem C6_circuit_breaker (settings : Settings) (dex_name : string)
    (l : PriceMonitor.Loop) (p : PriceMonitor.poll) :
  (PriceMonitor.max_failures <= failures_after l p)%nat ->
  Exists (fun seconds => (30 <= seconds)%Q)
    (snd (PriceMonitor.iteration settings dex_name l p)) /\
  (forall prices, p = PriceMonitor.Polled prices ->
     PriceMonitor.consecutive_failures
       (fst (PriceMonitor.iteration settings dex_name l p)) = 0%nat).
Proof.
  intros H. destruct p as [prices|];
    unfold PriceMonitor.iteration, failures_after in *.
  - destruct (bool_decide (prices = ∅));
      cbn [PriceMonitor.consecutive_failures PriceMonitor.store] in *;
      [|unfold PriceMonitor.max_failures in H; lia].
    apply Nat.leb_le in H as H'. rewrite H'. cbn [fst snd].
    split; [|reflexivity]. left. apply Qle_refl.
  - cbn [fst snd]. split; [|discriminate].
    left. rewrite backoff_capped by exact H. apply Qle_refl.
Qed.
(** ** Small integers convert to floats exactly *)

Lemma digits2_pos_size p : digits2_pos p = Pos.size p.
Proof. induction p; cbn; congruence. Qed.

Lemma digits2_pos_iter_xO p k :
  digits2_pos (Pos.iter xO p k) = (digits2_pos p + k)%positive.
Proof.
  induction k as [|k IH] using Pos.peano_ind.
  - cbn. lia.
  - rewrite Pos.iter_succ. cbn. rewrite IH. lia.
Qed.

Lemma digits2_pos_bound p n :
  0 <= n -> Zpos p < 2 ^ n -> Zpos (digits2_pos p) <= n.
Proof.
  intros Hn H. rewrite digits2_pos_size.
  pose proof (Pos.size_le p) as Hle.
  destruct (Z.le_gt_cases (Zpos (Pos.size p)) n) as [|Hgt]; trivial.
  exfalso.
  assert (2 ^ (n + 1) <= 2 ^ Zpos (Pos.size p)) by (apply Z.pow_le_mono_r; lia).
  assert (Zpos (2 ^ Pos.size p) <= Zpos p~0) as H1 by exact Hle.
  rewrite Pos2Z.inj_pow in H1. rewrite Z.pow_add_r in * by lia.
  change (Zpos p~0) with (2 * Zpos p) in H1. cbn in *. lia.
Qed.

(** A mantissa already in canonical position is left alone by rounding. *)
Lemma binary_round_aux_canonical s m e :
  fexp PyFloat.prec PyFloat.emax (Zpos (digits2_pos m) + e) = e ->
  e <= PyFloat.emax - PyFloat.prec ->
  binary_round_aux PyFloat.prec PyFloat.emax s (Zpos m) e loc_Exact
  = S754_finite s m e.
Proof.
  intros Hc He. unfold binary_round_aux, shr_fexp. cbn [Zdigits2].
  rewrite Hc, Z.sub_diag. cbn [shr shr_record_of_loc shr_m loc_of_shr_record
                               round_nearest_even Zdigits2].
  rewrite Hc, Z.sub_diag. cbn [shr shr_record_of_loc shr_m].
  apply Z.leb_le in He. now rewrite He.
Qed.

Lemma of_int_small n :
  0 < n < 2 ^ 53 ->
  exists m e, PyFloat.of_int n = Return (S754_finite false m e).
Proof.
  intros [H0 H]. destruct n as [|p|p]; try lia.
  pose proof (digits2_pos_bound p 53 ltac:(lia) H) as Hd.
  unfold PyFloat.of_int, binary_normalize, binary_round.
  set (d := Zpos (digits2_pos p)) in *.
  assert (fexp PyFloat.prec PyFloat.emax (d + 0) = d - 53) as Hf.
  { unfold fexp, emin, PyFloat.prec, PyFloat.emax. subst d. lia. }
  rewrite Hf. unfold shl_align.
  destruct (d - 53 - 0) as [|k|k] eqn:Ek; try lia.
  - rewrite binary_round_aux_canonical; eauto.
    + change (Zpos (digits2_pos p)) with d. rewrite Hf. lia.
    + unfold PyFloat.emax, PyFloat.prec. lia.
  - rewrite binary_round_aux_canonical; eauto.
    + rewrite digits2_pos_iter_xO.
      unfold fexp, emin, PyFloat.prec, PyFloat.emax. subst d. lia.
    + unfold PyFloat.emax, PyFloat.prec. lia.
Qed.

Lemma of_int_returns n :
  0 <= n < 2 ^ 53 -> exists f, PyFloat.of_int n = Return f.
Proof.
  intros [H0 H]. destruct (Z.eq_dec n 0) as [->|Hn].
  - eexists. reflexivity.
  - destruct (of_int_small n) as (m & e & E); [lia|]. eauto.
Qed.

(** With fewer than [2 ^ 53] successes counted the update of the average
    raises nothing. *)
Lemma new_average_returns (avg x : float) n :
  0 < n < 2 ^ 53 -> exists r, new_average avg n x = Return r.
Proof.
  intros H. unfold new_average. cbn [arith_mul_int arith_div_int arith_add float_arith].
  unfold PyFloat.float_mul_int, PyFloat.float_div_int.
  destruct (of_int_returns (n - 1)) as [f1 E1]; [lia|].
  destruct (of_int_small n H) as (m & e & E2).
  rewrite E1. cbn [obind]. rewrite E2. cbn [obind].
  unfold PyFloat.fdiv. cbn [PyFloat.is_zero]. eauto.
Qed.
(** ** The execution statistics *)

(** The three ways a call ends: a failure counted once; a success counted
    once, the average updated; or a success counted and then, the update of
    the average raising, a failure counted too. *)
Lemma execute_cases settings backend token_a token_b swap_amount dex_path
    min_profit s :
  let r := SwapExecutor.execute_arbitrage_swap settings backend token_a token_b
             swap_amount dex_path min_profit s in
  let st := SwapExecutor.count_attempt (SwapExecutor.execution_stats s) in
  (fst r = Return None /\
   SwapExecutor.execution_stats (snd r) = SwapExecutor.count_failure st) \/
  (exists tx avg,
      new_average (SwapExecutor.average_execution_time st)
        (SwapExecutor.successful_swaps st + 1) (measured s) = Return avg /\
      (exists res, fst r = Return (Some res) /\
                   SwapExecutor.r_execution_time res = measured s) /\
      SwapExecutor.execution_stats (snd r)
      = SwapExecutor.set_average avg
          (SwapExecutor.add_gas (SwapExecutor.gas_used tx)
             (SwapExecutor.count_success st))) \/
  (exists tx e,
      new_average (SwapExecutor.average_execution_time st)
        (SwapExecutor.successful_swaps st + 1) (measured s) = Raise e /\
      fst r = Return None /\
      SwapExecutor.execution_stats (snd r)
      = SwapExecutor.count_failure
          (SwapExecutor.add_gas (SwapExecutor.gas_used tx)
             (SwapExecutor.count_success st))).
Proof.
  cbv zeta.
  unfold SwapExecutor.execute_arbitrage_swap, measured, bind, try_except,
    SwapExecutor.update_stats, modify, ret, lift, SwapExecutor.time_time, tick.
  destruct s as [st clk]. cbn [SwapExecutor.clock SwapExecutor.execution_stats].
  destruct (SwapExecutor._build_swap_data _ _ _ _ _ _) as [swap_data|];
    cbn; [|now left].
  destruct (SwapExecutor.get_swap_accounts backend) as [accounts|];
    cbn; [|now left].
  destruct (SwapExecutor.build_arbitrage_instruction backend) as [instr|e];
    cbn; [|now left].
  destruct (SwapExecutor.send_transaction backend) as [tx|]; cbn; [|now left].
  unfold SwapExecutor._update_average_execution_time, bind, gets, lift,
    SwapExecutor.update_stats, modify. cbn.
  destruct (new_average _ _ _) as [avg|e] eqn:E; cbn; right.
  - left. exists tx, avg. repeat split; eauto.
  - right. exists tx, e. repeat split; eauto.
Qed.
Lemma call_accounting settings c s :
  0 <= SwapExecutor.successful_swaps (SwapExecutor.execution_stats s) < 2 ^ 53 - 1 ->
  let st := SwapExecutor.execution_stats s in
  let st' := SwapExecutor.execution_stats (snd (SwapExecutor.call settings c s)) in
  SwapExecutor.total_attempts st' = SwapExecutor.total_attempts st + 1 /\
  ((SwapExecutor.successful_swaps st' = SwapExecutor.successful_swaps st + 1 /\
    SwapExecutor.failed_swaps st' = SwapExecutor.failed_swaps st) \/
   (SwapExecutor.successful_swaps st' = SwapExecutor.successful_swaps st /\
    SwapExecutor.failed_swaps st' = SwapExecutor.failed_swaps st + 1)).
Proof.
  intros H. cbv zeta. unfold SwapExecutor.call.
  destruct (execute_cases settings (SwapExecutor.backend c)
              (SwapExecutor.c_token_a c) (SwapExecutor.c_token_b c)
              (SwapExecutor.c_swap_amount c) (SwapExecutor.c_dex_path c)
              (SwapExecutor.c_min_profit c) s)
    as [[_ E]|[(tx & avg & _ & _ & E)|(tx & e & E & _)]].
  - rewrite E. cbn. split; [reflexivity|]. right. split; reflexivity.
  - rewrite E. cbn. split; [reflexivity|]. left. split; reflexivity.
  - exfalso. cbn in E.
    destruct (new_average_returns
                (SwapExecutor.average_execution_time (SwapExecutor.execution_stats s))
                (measured s)
                (SwapExecutor.successful_swaps (SwapExecutor.execution_stats s) + 1))
      as [r Er]; [lia|]. congruence.
Qed.

Lemma calls_accounting settings l s :
  0 <= SwapExecutor.successful_swaps (SwapExecutor.execution_stats s) ->
  SwapExecutor.successful_swaps (SwapExecutor.execution_stats s)
    + Z.of_nat (length l) < 2 ^ 53 ->
  accounted (SwapExecutor.execution_stats s) ->
  let st := SwapExecutor.execution_stats s in
  let st' := SwapExecutor.execution_stats (SwapExecutor.calls settings l s) in
  accounted st' /\
  SwapExecutor.total_attempts st' = SwapExecutor.total_attempts st + Z.of_nat (length l).
Proof.
  revert s. induction l as [|c l IH]; intros s H0 Hb Hacc; cbv zeta.
  - cbn. split; [exact Hacc|lia].
  - cbn [SwapExecutor.calls length] in *.
    destruct (call_accounting settings c s) as (Ht & Hsf); [lia|].
    cbv zeta in Ht, Hsf.
    set (s1 := snd (SwapExecutor.call settings c s)) in *.
    destruct (IH s1) as (Ha & Hl).
    + destruct Hsf as [[-> _]|[-> _]]; lia.
    + destruct Hsf as [[-> _]|[-> _]]; lia.
    + unfold accounted in *. destruct Hsf as [[-> ->]|[-> ->]]; lia.
    + split; [exact Ha|]. cbv zeta in Hl. rewrite Hl, Ht. lia.
Qed.

(** The statistics under interleaved calls *)

(** The two pieces of a call, one after the other, are the call. *)
Lemma uninterrupted_is_call settings c s :
  Gather.uninterrupted settings c s = SwapExecutor.call settings c s.
Proof.
  unfold Gather.uninterrupted, Gather.start, Gather.finish, SwapExecutor.call,
    SwapExecutor.execute_arbitrage_swap, bind, try_except, ret, lift,
    SwapExecutor.update_stats, modify, SwapExecutor.time_time.
  destruct (tick (SwapExecutor.clock s)) as [now c1]. cbn.
  destruct (SwapExecutor._build_swap_data _ _ _ _ _ _); cbn; trivial.
  destruct (SwapExecutor.get_swap_accounts _); cbn; trivial.
  destruct (SwapExecutor.build_arbitrage_instruction _); cbn; trivial.
Qed.

(** The first piece counts the attempt, and a failure when the call ends in
    it. *)
Lemma start_cases settings c s :
  let st := SwapExecutor.execution_stats s in
  let r := Gather.start settings c s in
  let st' := SwapExecutor.execution_stats (snd r) in
  SwapExecutor.total_attempts st' = SwapExecutor.total_attempts st + 1 /\
  SwapExecutor.successful_swaps st' = SwapExecutor.successful_swaps st /\
  ((fst r = Return (inl None) /\
    SwapExecutor.failed_swaps st' = SwapExecutor.failed_swaps st + 1) \/
   (exists a, fst r = Return (inr a) /\
              SwapExecutor.failed_swaps st' = SwapExecutor.failed_swaps st)).
Proof.
  cbv zeta.
  unfold Gather.start, bind, try_except, ret, lift, SwapExecutor.update_stats,
    modify, SwapExecutor.time_time.
  destruct (tick (SwapExecutor.clock s)) as [now c1]. cbn.
  destruct (SwapExecutor._build_swap_data _ _ _ _ _ _); cbn; [|auto].
  destruct (SwapExecutor.get_swap_accounts _); cbn; [|auto].
  destruct (SwapExecutor.build_arbitrage_instruction _); cbn; [|auto].
  split; [reflexivity|]. split; [reflexivity|]. right. eauto.
Qed.

(** The second piece counts one outcome. *)
Lemma finish_cases a s :
  0 <= SwapExecutor.successful_swaps (SwapExecutor.execution_stats s) < 2 ^ 53 - 1 ->
  let st := SwapExecutor.execution_stats s in
  let r := Gather.finish a s in
  let st' := SwapExecutor.execution_stats (snd r) in
  (exists result, fst r = Return result) /\
  SwapExecutor.total_attempts st' = SwapExecutor.total_attempts st /\
  ((SwapExecutor.successful_swaps st' = SwapExecutor.successful_swaps st + 1 /\
    SwapExecutor.failed_swaps st' = SwapExecutor.failed_swaps st) \/
   (SwapExecutor.successful_swaps st' = SwapExecutor.successful_swaps st /\
    SwapExecutor.failed_swaps st' = SwapExecutor.failed_swaps st + 1)).
Proof.
  intros H. cbv zeta. destruct s as [st clk].
  cbn [SwapExecutor.execution_stats] in H.
  unfold Gather.finish, bind, try_except, ret, lift, SwapExecutor.update_stats,
    modify, SwapExecutor.time_time, tick.
  cbn [SwapExecutor.clock SwapExecutor.execution_stats].
  destruct (Gather.answer a) as [tx|]; cbn; [|eauto 6].
  unfold SwapExecutor._update_average_execution_time, bind, gets, lift,
    SwapExecutor.update_stats, modify. cbn.
  destruct (new_average _ _ _) as [avg|e] eqn:E; cbn; [eauto 6|].
  exfalso.
  match type of E with
  | new_average ?avg ?n ?x = _ =>
    destruct (new_average_returns avg x n) as [r Er]; [lia|congruence]
  end.
Qed.

Lemma without_length {A} k (l : list A) (x : A) :
  nth_error l k = Some x -> length l = S (length (Gather.without k l)).
Proof.
  intros H. unfold Gather.without.
  assert (k < length l)%nat by (apply nth_error_Some; congruence).
  rewrite length_app, length_firstn, length_skipn. lia.
Qed.

Lemma how_many_app {A} (f : A -> bool) l1 l2 :
  how_many f (l1 ++ l2) = (how_many f l1 + how_many f l2)%nat.
Proof. unfold how_many. now rewrite List.filter_app, length_app. Qed.

Lemma step_accounting settings e w cancelled :
  0 <= SwapExecutor.successful_swaps
         (SwapExecutor.execution_stats (Gather.executor w)) < 2 ^ 53 - 1 ->
  tally w cancelled ->
  let st := SwapExecutor.execution_stats (Gather.executor w) in
  let r := Gather.step settings e w in
  let st' := SwapExecutor.execution_stats (Gather.executor (fst r)) in
  tally (fst r) (cancelled + how_many Gather.is_cancelled (snd r)) /\
  SwapExecutor.total_attempts st'
  = SwapExecutor.total_attempts st + (if Gather.is_start e then 1 else 0) /\
  SwapExecutor.successful_swaps st' + SwapExecutor.failed_swaps st'
  = SwapExecutor.successful_swaps st + SwapExecutor.failed_swaps st
    + Z.of_nat (how_many Gather.is_returned (snd r)) /\
  SwapExecutor.successful_swaps st
  <= SwapExecutor.successful_swaps st' <= SwapExecutor.successful_swaps st + 1 /\
  Forall (fun x => forall e', x <> Gather.Raised e') (snd r).
Proof.
  intros Hs Ht. cbv zeta. unfold tally in *. cbv zeta in Ht.
  destruct e as [c|k|k]; cbn [Gather.step Gather.is_start].
  - destruct (start_cases settings c (Gather.executor w)) as (H1 & H2 & H3).
    cbv zeta in H1, H2, H3.
    destruct (Gather.start settings c (Gather.executor w)) as [[[result|a]|e] s1];
      cbn [fst snd] in *.
    + destruct H3 as [[_ H3]|(a & [=] & _)].
      cbn [fst snd Gather.executor Gather.awaiting]. unfold how_many. cbn.
      repeat split; try lia. constructor; [discriminate|constructor].
    + destruct H3 as [[[=] _]|(a' & _ & H3)].
      cbn [fst snd Gather.executor Gather.awaiting]. unfold how_many. cbn.
      rewrite length_app. cbn [length].
      repeat split; try lia. constructor.
    + destruct H3 as [[[=] _]|(a' & [=] & _)].
  - destruct (nth_error (Gather.awaiting w) k) as [a|] eqn:Ek.
    + destruct (finish_cases a (Gather.executor w) Hs) as ((result & H0) & H1 & H2).
      cbv zeta in H0, H1, H2. apply without_length in Ek.
      destruct (Gather.finish a (Gather.executor w)) as [r s1]. cbn [fst snd] in *.
      subst r. cbn [fst snd Gather.executor Gather.awaiting]. unfold how_many. cbn.
      repeat split; try lia. constructor; [discriminate|constructor].
    + cbn [fst snd]. unfold how_many. cbn. repeat split; try lia. constructor.
  - destruct (nth_error (Gather.awaiting w) k) as [a|] eqn:Ek.
    + apply without_length in Ek.
      cbn [fst snd Gather.executor Gather.awaiting]. unfold how_many. cbn.
      repeat split; try lia. constructor; [discriminate|constructor].
    + cbn [fst snd]. unfold how_many. cbn. repeat split; try lia. constructor.
Qed.

Lemma run_accounting settings schedule w cancelled :
  0 <= SwapExecutor.successful_swaps
         (SwapExecutor.execution_stats (Gather.executor w)) ->
  SwapExecutor.successful_swaps (SwapExecutor.execution_stats (Gather.executor w))
    + Z.of_nat (length schedule) < 2 ^ 53 ->
  tally w cancelled ->
  let st := SwapExecutor.execution_stats (Gather.executor w) in
  let r := Gather.run settings schedule w in
  let st' := SwapExecutor.execution_stats (Gather.executor (fst r)) in
  tally (fst r) (cancelled + how_many Gather.is_cancelled (snd r)) /\
  SwapExecutor.total_attempts st'
  = SwapExecutor.total_attempts st + Z.of_nat (how_many Gather.is_start schedule) /\
  SwapExecutor.successful_swaps st' + SwapExecutor.failed_swaps st'
  = SwapExecutor.successful_swaps st + SwapExecutor.failed_swaps st
    + Z.of_nat (how_many Gather.is_returned (snd r)) /\
  Forall (fun x => forall e', x <> Gather.Raised e') (snd r).
Proof.
  revert w cancelled. induction schedule as [|e rest IH]; intros w cancelled H0 Hb Ht;
    cbv zeta.
  - cbn. unfold how_many. cbn. rewrite Nat.add_0_r. repeat split; try lia; trivial.
  - cbn [Gather.run length] in *.
    destruct (step_accounting settings e w cancelled) as (T1 & A1 & O1 & S1 & R1);
      [lia|exact Ht|]. cbv zeta in T1, A1, O1, S1, R1.
    destruct (Gather.step settings e w) as [w1 ended]. cbn [fst snd] in *.
    destruct (IH w1 (cancelled + how_many Gather.is_cancelled ended)%nat)
      as (T2 & A2 & O2 & R2); [lia|lia|exact T1|]. cbv zeta in T2, A2, O2, R2.
    destruct (Gather.run settings rest w1) as [w2 ended']. cbn [fst snd] in *.
    rewrite !how_many_app. split; [|split; [|split]].
    + now rewrite Nat.add_assoc.
    + unfold how_many in *. cbn [List.filter]. destruct (Gather.is_start e); cbn [length]; lia.
    + lia.
    + apply Forall_app. now split.
Qed.

(** C9, as first stated, fails: the attempt is counted before the await of
    the transaction and the outcome after it.  Of two calls begun one after
    the other, the first returns its result while the second still awaits:
    two attempts are counted then and one outcome.  And a call cancelled
    while it awaits leaves an attempt without an outcome for good. *)
Lemma C9_outcome_is_counted_after_the_await :
  (exists result,
     snd (Gather.run (settings_for ["A"; "B"]%string)
            [Gather.Start successful_call; Gather.Start successful_call;
             Gather.Finish 0]
            (Gather.idle (clock_at 1234567890)))
     = [Gather.Returned (Some result)]) /\
  (let st := SwapExecutor.execution_stats
               (Gather.executor
                  (fst (Gather.run (settings_for ["A"; "B"]%string)
                          [Gather.Start successful_call;
                           Gather.Start successful_call; Gather.Finish 0]
                          (Gather.idle (clock_at 1234567890))))) in
   SwapExecutor.total_attempts st = 2 /\
   SwapExecutor.successful_swaps st = 1 /\
   SwapExecutor.failed_swaps st = 0 /\
   ~ accounted st) /\
  (let w := fst (Gather.run (settings_for ["A"; "B"]%string)
                   [Gather.Start successful_call; Gather.Cancel 0]
                   (Gather.idle (clock_at 1234567890))) in
   let st := SwapExecutor.execution_stats (Gather.executor w) in
   Gather.awaiting w = [] /\
   SwapExecutor.total_attempts st = 1 /\
   SwapExecutor.successful_swaps st = 0 /\
   SwapExecutor.failed_swaps st = 0 /\
   ~ accounted st).
Proof.
  split; [eexists; vm_compute; reflexivity|]. split.
  - cbv zeta. repeat (split; [vm_compute; reflexivity|]). vm_compute. discriminate.
  - cbv zeta. repeat (split; [vm_compute; reflexivity|]). vm_compute. discriminate.
Qed.

(** C9, as amended.  A call of [execute_arbitrage_swap] that nothing
    interrupts adds one to [total_attempts] and one to exactly one of
    [successful_swaps] and [failed_swaps], on every way out of it, and so
    keeps [total_attempts = successful_swaps + failed_swaps].  The attempt
    is counted in the first piece of the call and the outcome in the piece
    that ends it, which is the second when the call awaits its transaction.
    So after every schedule of calls from a new executor, pieces of other
    calls running between the two of a call and calls being cancelled while
    they await, [total_attempts] is the number of calls begun,
    [successful_swaps + failed_swaps] the number of calls that returned, no
    call raised, and [total_attempts] is [successful_swaps + failed_swaps]
    and the number of calls that await and the number of calls cancelled;
    the equation of the claim holds whenever no call awaits and none was
    cancelled.  (The success counter is taken below [2 ^ 53], where it
    converts to a float exactly.) *)
Theorem C9_every_attempt_is_accounted (settings : Settings)
    (c : SwapExecutor.Call) (s : SwapExecutor.State)
    (schedule : list Gather.Event) (clk : Clock) :
  Gather.uninterrupted settings c s = SwapExecutor.call settings c s /\
  (0 <= SwapExecutor.successful_swaps (SwapExecutor.execution_stats s) < 2 ^ 53 - 1 ->
   let st := SwapExecutor.execution_stats s in
   let st' := SwapExecutor.execution_stats (snd (SwapExecutor.call settings c s)) in
   SwapExecutor.total_attempts st' = SwapExecutor.total_attempts st + 1 /\
   ((SwapExecutor.successful_swaps st' = SwapExecutor.successful_swaps st + 1 /\
     SwapExecutor.failed_swaps st' = SwapExecutor.failed_swaps st) \/
    (SwapExecutor.successful_swaps st' = SwapExecutor.successful_swaps st /\
     SwapExecutor.failed_swaps st' = SwapExecutor.failed_swaps st + 1)) /\
   (accounted st -> accounted st')) /\
  (let st := SwapExecutor.execution_stats s in
   let r := Gather.start settings c s in
   let st' := SwapExecutor.execution_stats (snd r) in
   SwapExecutor.total_attempts st' = SwapExecutor.total_attempts st + 1 /\
   SwapExecutor.successful_swaps st' = SwapExecutor.successful_swaps st /\
   ((fst r = Return (inl None) /\
     SwapExecutor.failed_swaps st' = SwapExecutor.failed_swaps st + 1) \/
    (exists a, fst r = Return (inr a) /\
               SwapExecutor.failed_swaps st' = SwapExecutor.failed_swaps st))) /\
  (forall a,
     0 <= SwapExecutor.successful_swaps (SwapExecutor.execution_stats s) < 2 ^ 53 - 1 ->
     let st := SwapExecutor.execution_stats s in
     let r := Gather.finish a s in
     let st' := SwapExecutor.execution_stats (snd r) in
     (exists result, fst r = Return result) /\
     SwapExecutor.total_attempts st' = SwapExecutor.total_attempts st /\
     ((SwapExecutor.successful_swaps st' = SwapExecutor.successful_swaps st + 1 /\
       SwapExecutor.failed_swaps st' = SwapExecutor.failed_swaps st) \/
      (SwapExecutor.successful_swaps st' = SwapExecutor.successful_swaps st /\
       SwapExecutor.failed_swaps st' = SwapExecutor.failed_swaps st + 1))) /\
  (Z.of_nat (length schedule) < 2 ^ 53 ->
   let r := Gather.run settings schedule (Gather.idle clk) in
   let st' := SwapExecutor.execution_stats (Gather.executor (fst r)) in
   SwapExecutor.total_attempts st'
   = Z.of_nat (how_many Gather.is_start schedule) /\
   SwapExecutor.successful_swaps st' + SwapExecutor.failed_swaps st'
   = Z.of_nat (how_many Gather.is_returned (snd r)) /\
   SwapExecutor.total_attempts st'
   = SwapExecutor.successful_swaps st' + SwapExecutor.failed_swaps st'
     + Z.of_nat (length (Gather.awaiting (fst r)))
     + Z.of_nat (how_many Gather.is_cancelled (snd r)) /\
   Forall (fun ending => forall e, ending <> Gather.Raised e) (snd r) /\
   (Gather.awaiting (fst r) = [] ->
    how_many Gather.is_cancelled (snd r) = 0%nat ->
    accounted st')).
Proof.
  split; [apply uninterrupted_is_call|]. split; [|split; [|split]].
  - intros H. cbv zeta.
    destruct (call_accounting settings c s H) as (Ht & Hsf). cbv zeta in Ht, Hsf.
    split; [exact Ht|]. split; [exact Hsf|].
    unfold accounted. destruct Hsf as [[-> ->]|[-> ->]]; lia.
  - apply start_cases.
  - intros a. apply finish_cases.
  - intros H. cbv zeta.
    destruct (run_accounting settings schedule (Gather.idle clk) 0) as (T & A & O & R).
    + cbn. lia.
    + cbn. lia.
    + unfold tally. cbn. reflexivity.
    + cbv zeta in T, A, O, R. unfold tally in T. cbv zeta in T.
      cbn [Gather.idle Gather.executor SwapExecutor.execution_stats
           SwapExecutor.initial_stats SwapExecutor.total_attempts
           SwapExecutor.successful_swaps SwapExecutor.failed_swaps] in A, O.
      cbn [Nat.add] in T.
      split; [lia|]. split; [lia|]. split; [exact T|]. split; [exact R|].
      intros Ha Hc. unfold accounted. rewrite Ha, Hc in T. cbn in T. lia.
Qed.
(** ** The running average *)

(** What a call does to the average: nothing unless it returns a result, and
    then the update formula with the new count of successes. *)
Lemma call_average settings c s :
  let st := SwapExecutor.execution_stats s in
  let r := SwapExecutor.call settings c s in
  let st' := SwapExecutor.execution_stats (snd r) in
  match fst r with
  | Return None =>
    SwapExecutor.average_execution_time st' = SwapExecutor.average_execution_time st
  | Return (Some res) =>
    SwapExecutor.r_execution_time res = measured s /\
    SwapExecutor.successful_swaps st' = SwapExecutor.successful_swaps st + 1 /\
    new_average (SwapExecutor.average_execution_time st)
      (SwapExecutor.successful_swaps st') (SwapExecutor.r_execution_time res)
    = Return (SwapExecutor.average_execution_time st')
  | Raise _ => False
  end.
Proof.
  cbv zeta. unfold SwapExecutor.call.
  destruct (execute_cases settings (SwapExecutor.backend c)
              (SwapExecutor.c_token_a c) (SwapExecutor.c_token_b c)
              (SwapExecutor.c_swap_amount c) (SwapExecutor.c_dex_path c)
              (SwapExecutor.c_min_profit c) s)
    as [[-> E]|[(tx & avg & Ea & (res & -> & Er) & E)|(tx & e & _ & -> & E)]];
    rewrite E; cbn; try reflexivity.
  rewrite Er. repeat split. exact Ea.
Qed.

Lemma averages_of_latencies settings l s :
  0 <= SwapExecutor.successful_swaps (SwapExecutor.execution_stats s) ->
  SwapExecutor.successful_swaps (SwapExecutor.execution_stats s)
    + Z.of_nat (length l) < 2 ^ 53 ->
  let st := SwapExecutor.execution_stats s in
  let st' := SwapExecutor.execution_stats (SwapExecutor.calls settings l s) in
  averages (SwapExecutor.average_execution_time st)
    (SwapExecutor.successful_swaps st) (latencies settings l s)
  = Return (SwapExecutor.average_execution_time st') /\
  SwapExecutor.successful_swaps st'
  = SwapExecutor.successful_swaps st + Z.of_nat (length (latencies settings l s)).
Proof.
  revert s. induction l as [|c l IH]; intros s H0 Hb; cbv zeta.
  - cbn. split; [reflexivity|lia].
  - cbn [SwapExecutor.calls latencies length] in *.
    pose proof (call_average settings c s) as Hc.
    destruct (call_accounting settings c s) as (_ & Hsf); [lia|].
    cbv zeta in Hc, Hsf.
    set (r := SwapExecutor.call settings c s) in *.
    specialize (IH (snd r)). cbv zeta in IH.
    destruct (fst r) as [[res|]|e] eqn:Efst; [| |contradiction].
    + destruct Hc as (_ & Hs & Ha).
      destruct IH as (IHa & IHs); [lia|lia|].
      cbn [averages length]. rewrite <- Hs, Ha. cbn [obind].
      rewrite IHa, IHs. split; [reflexivity|lia].
    + assert (SwapExecutor.successful_swaps (SwapExecutor.execution_stats (snd r))
              = SwapExecutor.successful_swaps (SwapExecutor.execution_stats s)) as Hs.
      { destruct Hsf as [[Hs1 _]|[Hs1 _]]; [|exact Hs1].
        exfalso.
        destruct (execute_cases settings (SwapExecutor.backend c)
              (SwapExecutor.c_token_a c) (SwapExecutor.c_token_b c)
              (SwapExecutor.c_swap_amount c) (SwapExecutor.c_dex_path c)
              (SwapExecutor.c_min_profit c) s)
          as [[_ E]|[(tx & avg & _ & (res & Er & _) & _)|(tx & e & E & _)]].
        - fold (SwapExecutor.call settings c s) in E. fold r in E.
          rewrite E in Hs1. cbn in Hs1. lia.
        - fold (SwapExecutor.call settings c s) in Er. fold r in Er.
          congruence.
        - cbn in E.
          destruct (new_average_returns
            (SwapExecutor.average_execution_time (SwapExecutor.execution_stats s))
            (measured s)
            (SwapExecutor.successful_swaps (SwapExecutor.execution_stats s) + 1))
            as [r' Er']; [lia|]. congruence. }
      destruct IH as (IHa & IHs); [lia|lia|].
      rewrite <- Hc, <- Hs. split; [exact IHa|exact IHs].
Qed.

(** Over the rationals the update keeps [average * count = sum]. *)
Lemma averages_exact (xs : list Q) (avg : Q) (n : Z) :
  0 <= n ->
  exists avg', averages avg n xs = Return avg' /\
    (avg' * inject_Z (n + Z.of_nat (length xs)) == avg * inject_Z n + Qsum xs)%Q.
Proof.
  revert avg n. induction xs as [|x xs IH]; intros avg n Hn.
  - exists avg. split; [reflexivity|]. cbn. rewrite Z.add_0_r. ring.
  - cbn [averages]. unfold new_average.
    cbn [arith_mul_int arith_div_int arith_add exact_arith obind].
    destruct (Z.eqb_spec (n + 1) 0) as [|_]; [lia|].
    destruct (IH ((avg * inject_Z (n + 1 - 1) + x) / inject_Z (n + 1))%Q (n + 1))
      as (avg' & E & H); [lia|].
    exists avg'. split; [exact E|].
    cbn [length Qsum fold_right].
    replace (n + Z.of_nat (S (length xs))) with (n + 1 + Z.of_nat (length xs)) by lia.
    rewrite H. replace (n + 1 - 1) with n by lia.
    fold (Qsum xs).
    assert (~ inject_Z (n + 1) == 0)%Q as Hnz.
    { unfold Qeq, inject_Z. cbn. lia. }
    field. exact Hnz.
Qed.

Lemma averages_mean (xs : list Q) :
  xs <> [] ->
  exists avg, averages 0%Q 0 xs = Return avg /\ (avg == Qmean xs)%Q.
Proof.
  intros Hxs. destruct (averages_exact xs 0%Q 0 ltac:(lia)) as (avg & E & H).
  exists avg. split; [exact E|]. unfold Qmean.
  cbn [Z.add] in H.
  assert (~ inject_Z (Z.of_nat (length xs)) == 0)%Q as Hnz.
  { destruct xs; [congruence|]. unfold Qeq, inject_Z. cbn. lia. }
  assert (Qsum xs == avg * inject_Z (Z.of_nat (length xs)))%Q as ->
    by (rewrite H; ring).
  field. exact Hnz.
Qed.
(** C8, as stated, fails.  After four successful calls with the latencies
    0.1, 0.3, 0.5 and 0.1 seconds, from the initial statistics, the stored
    average is 0.24999999999999997 (the double just below a quarter), while
    the arithmetic mean of the four latencies is a quarter: exactly so over
    the rationals, and also when the sum and the quotient are evaluated in
    binary64. *)
Lemma C8_stored_average_is_not_the_mean :
  let st := SwapExecutor.execution_stats after_four_successes in
  latencies (settings_for ["A"; "B"]%string) four_calls
    (initial_state (latency_clock four_latencies)) = four_latencies /\
  SwapExecutor.successful_swaps st = 4 /\
  SwapExecutor.average_execution_time st
  = S754_finite false 9007199254740991 (-55) /\
  float_mean four_latencies = Return (S754_finite false 4503599627370496 (-54)) /\
  (Qmean (map PyFloat.to_Q four_latencies) == 1 # 4)%Q /\
  ~ (PyFloat.to_Q (SwapExecutor.average_execution_time st)
     == Qmean (map PyFloat.to_Q four_latencies))%Q.
Proof.
  cbv zeta. repeat split; try (vm_compute; reflexivity).
  vm_compute. discriminate.
Qed.

(** C8, amended.  The average is updated only by a call that succeeds, by
    [new = (old * (n - 1) + x) / n] evaluated in binary64, [n] being the
    number of successes including the current one; so after a sequence of
    calls from the initial statistics the stored average is these rounded
    updates applied to the latencies of the successful calls in order.  Over
    the rationals the same updates give the arithmetic mean
    [(x1 + ... + xn) / n]. *)
Theorem C8_running_average (settings : Settings) (c : SwapExecutor.Call)
    (s : SwapExecutor.State) (l : list SwapExecutor.Call) (clk : Clock)
    (xs : list Q) :
  (let st := SwapExecutor.execution_stats s in
   let r := SwapExecutor.call settings c s in
   let st' := SwapExecutor.execution_stats (snd r) in
   match fst r with
   | Return None =>
     SwapExecutor.average_execution_time st' = SwapExecutor.average_execution_time st
   | Return (Some res) =>
     SwapExecutor.r_execution_time res = measured s /\
     SwapExecutor.successful_swaps st' = SwapExecutor.successful_swaps st + 1 /\
     new_average (SwapExecutor.average_execution_time st)
       (SwapExecutor.successful_swaps st') (SwapExecutor.r_execution_time res)
     = Return (SwapExecutor.average_execution_time st')
   | Raise _ => False
   end) /\
  (Z.of_nat (length l) < 2 ^ 53 ->
   let s0 := {| SwapExecutor.execution_stats := SwapExecutor.initial_stats;
                SwapExecutor.clock := clk |} in
   let st' := SwapExecutor.execution_stats (SwapExecutor.calls settings l s0) in
   averages PyFloat.f0 0 (latencies settings l s0)
   = Return (SwapExecutor.average_execution_time st') /\
   SwapExecutor.successful_swaps st'
   = Z.of_nat (length (latencies settings l s0))) /\
  (xs <> [] ->
   exists avg, averages 0%Q 0 xs = Return avg /\ (avg == Qmean xs)%Q).
Proof.
  split; [apply call_average|]. split; [|apply averages_mean].
  intros H. cbv zeta.
  apply (averages_of_latencies settings l
           {| SwapExecutor.execution_stats := SwapExecutor.initial_stats;
              SwapExecutor.clock := clk |}); cbn; lia.
Qed.
(** ** Building the order *)

Lemma build_steps_chained settings token_a token_b len_path i dex_path amount acc l :
  SwapExecutor.build_steps settings token_a token_b len_path i dex_path amount acc
    = Return (Some l) ->
  exists hops,
    l = acc ++ hops /\
    length hops = length dex_path /\
    chained (max_slippage_bps settings) amount hops.
Proof.
  revert i amount acc. induction dex_path as [|dex_name rest IH];
    intros i amount acc; cbn [SwapExecutor.build_steps].
  - intros [= <-]. exists []. now rewrite app_nil_r.
  - destruct (SwapExecutor.dex_type_map _) as [ty|]; [|discriminate].
    destruct (if (i =? 0)%nat then _ else _) as [input_token output_token].
    destruct (PyFloat.int_truediv _ _) as [factor|] eqn:Ef; [|discriminate].
    cbn [obind].
    destruct (PyFloat.int_mul_float _ _) as [product|] eqn:Ep; [|discriminate].
    cbn [obind].
    destruct (PyFloat.to_int _) as [min_out|] eqn:Em; [|discriminate].
    cbn [obind]. intros H. apply IH in H as (hops & -> & Hlen & Hch).
    eexists (_ :: hops). split; [now rewrite <- app_assoc|].
    split; [cbn; now rewrite Hlen|].
    cbn. repeat split; trivial.
    unfold calculate_slippage_amount.
    rewrite Ef. cbn [obind]. rewrite Ep. cbn [obind]. exact Em.
Qed.

(** Every hop of a built order has the slippage amount of its input as
    minimum output, and the hops are chained from the swap amount. *)
Lemma build_swap_data_chained settings token_a token_b swap_amount dex_path
    min_profit swap_data :
  SwapExecutor._build_swap_data settings token_a token_b swap_amount dex_path
    min_profit = Some swap_data ->
  length (SwapExecutor.swap_instructions swap_data) = length dex_path /\
  chained (max_slippage_bps settings) swap_amount
    (SwapExecutor.swap_instructions swap_data).
Proof.
  unfold SwapExecutor._build_swap_data.
  destruct (SwapExecutor.build_steps _ _ _ _ _ _ _ _) as [[l|]|] eqn:E;
    try discriminate.
  cbn. intros [= <-]. cbn.
  apply build_steps_chained in E as (hops & -> & Hlen & Hch). now cbn.
Qed.

(** The scenario of the specification: 50 basis points on 1000000. *)
Lemma slippage_scenario : calculate_slippage_amount 1000000 50 = Return 995000.
Proof. reflexivity. Qed.

(** C4.  With a maximum slippage of 600 basis points and a swap amount of
    2150, [amountIn * (10000 - maxSlippageBps) / 10000] is 2021 with nothing
    to truncate, and the first hop of the built order has a minimum output
    of 2020: the factor 0.94 is rounded to a double before the product is
    taken, the product comes out just below 2021, and [int] truncates it.
    The second hop is chained from 2020. *)
Theorem C4_minimum_out_off_by_one :
  2150 * (10000 - 600) = 2021 * 10000 /\
  calculate_slippage_amount 2150 600 = Return 2020 /\
  option_map SwapExecutor.swap_instructions
    (SwapExecutor._build_swap_data settings_600bps "A" "B" 2150
       ["jupiter"; "raydium"]%string 0)
  = Some [ {| SwapExecutor.dex_type := 0;
              SwapExecutor.amount_in := 2150;
              SwapExecutor.minimum_amount_out := 2020;
              SwapExecutor.token_mint_in := "A";
              SwapExecutor.token_mint_out := "B" |};
           {| SwapExecutor.dex_type := 1;
              SwapExecutor.amount_in := 2020;
              SwapExecutor.minimum_amount_out := 1898;
              SwapExecutor.token_mint_in := "B";
              SwapExecutor.token_mint_out := "A" |} ].
Proof. repeat split; vm_compute; reflexivity. Qed.
(** ** [calculate_profit] *)

Lemma div_half_even_nonneg n d :
  0 <= n -> 0 < d -> 0 <= PyDecimal.div_half_even n d.
Proof.
  intros Hn Hd. unfold PyDecimal.div_half_even.
  pose proof (Z.div_pos n d Hn Hd).
  destruct (2 * (n mod d) ?= d); [destruct (Z.even _)| |]; lia.
Qed.

(** Rounding keeps the sign. *)
Lemma fix_sign x :
  (0 <= PyDecimal.coefficient x -> 0 <= PyDecimal.coefficient (PyDecimal.fix_ x)) /\
  (PyDecimal.coefficient x <= 0 -> PyDecimal.coefficient (PyDecimal.fix_ x) <= 0).
Proof.
  unfold PyDecimal.fix_.
  destruct (_ <=? PyDecimal.context_prec) eqn:E; [tauto|].
  apply Z.leb_gt in E.
  set (k := PyDecimal.num_digits _ - PyDecimal.context_prec) in *.
  assert (0 < 10 ^ k) by (apply Z.pow_pos_nonneg; lia).
  pose proof (div_half_even_nonneg (Z.abs (PyDecimal.coefficient x)) (10 ^ k)
                ltac:(lia) ltac:(lia)) as Hm.
  destruct (_ =? 10 ^ PyDecimal.context_prec); cbn [PyDecimal.coefficient].
  - assert (0 < 10 ^ (PyDecimal.context_prec - 1)) by now cbn.
    split; nia.
  - split; nia.
Qed.

Lemma align_spec x y :
  let '(a, b, e) := PyDecimal.align x y in
  exists kx ky,
    0 < kx /\ 0 < ky /\
    a = PyDecimal.coefficient x * kx /\ b = PyDecimal.coefficient y * ky.
Proof.
  unfold PyDecimal.align.
  destruct x as [cx ex], y as [cy ey]. cbn [PyDecimal.coefficient PyDecimal.exponent].
  exists (10 ^ (ex - Z.min ex ey)), (10 ^ (ey - Z.min ex ey)).
  repeat split; try apply Z.pow_pos_nonneg; lia.
Qed.

(** A comparison with [Decimal("0")] is a comparison of the coefficient
    with 0. *)
Ltac against_zero x y :=
  unfold PyDecimal.lt, PyDecimal.le, PyDecimal.compare;
  pose proof (align_spec x y) as H;
  destruct (PyDecimal.align x y) as [[a b] e];
  destruct H as (kx & ky & Hx & Hy & -> & ->);
  cbn [PyDecimal.coefficient PyDecimal.zero PyDecimal.of_int];
  match goal with
  | |- context [?u ?= ?v] =>
    destruct (Z.compare_spec u v);
    split; intros; try discriminate; try reflexivity; nia
  end.

Lemma lt_zero x :
  PyDecimal.lt x PyDecimal.zero = true <-> PyDecimal.coefficient x < 0.
Proof. against_zero x PyDecimal.zero. Qed.

Lemma zero_le x :
  PyDecimal.le PyDecimal.zero x = true <-> 0 <= PyDecimal.coefficient x.
Proof. against_zero PyDecimal.zero x. Qed.

Lemma compare_zero x :
  PyDecimal.compare x PyDecimal.zero = Eq <-> PyDecimal.coefficient x = 0.
Proof. against_zero x PyDecimal.zero. Qed.

Lemma sub_nonpos sell buy :
  PyDecimal.le sell buy = true ->
  PyDecimal.coefficient (PyDecimal.sub sell buy) <= 0.
Proof.
  unfold PyDecimal.le, PyDecimal.compare, PyDecimal.sub.
  destruct (PyDecimal.align sell buy) as [[a b] e].
  destruct (Z.compare_spec a b); try discriminate; intros _;
    apply fix_sign; cbn; lia.
Qed.

Lemma mul_nonpos x y :
  PyDecimal.coefficient x <= 0 -> 0 <= PyDecimal.coefficient y ->
  PyDecimal.coefficient (PyDecimal.mul x y) <= 0.
Proof. intros Hx Hy. unfold PyDecimal.mul. apply fix_sign. cbn. nia. Qed.

Lemma max_zero_coefficient x :
  PyDecimal.coefficient (PyDecimal.max x PyDecimal.zero)
  = Z.max (PyDecimal.coefficient x) 0.
Proof.
  unfold PyDecimal.max, PyDecimal.gt.
  destruct (PyDecimal.lt x PyDecimal.zero) eqn:E.
  - apply lt_zero in E. cbn. lia.
  - destruct (Z.lt_ge_cases (PyDecimal.coefficient x) 0) as [H|H].
    + apply lt_zero in H. congruence.
    + lia.
Qed.

(** C10, as stated, fails on a negative position size: buying at 2 and
    selling at 1 with a position of -1 returns a profit of 1, not 0. *)
Lemma C10_negative_position_size :
  let buy_price := PyDecimal.mk 2 0 in
  let sell_price := PyDecimal.mk 1 0 in
  let position_size := PyDecimal.mk (-1) 0 in
  PyDecimal.le sell_price buy_price = true /\
  calculate_profit buy_price sell_price position_size = PyDecimal.mk 1 0 /\
  PyDecimal.gt (calculate_profit buy_price sell_price position_size)
    PyDecimal.zero = true.
Proof. cbv zeta. repeat split. Qed.
Lemma Qpower_10_pos e : (0 < 10 ^ e)%Q.
Proof. now apply Qpower_0_lt. Qed.

Lemma to_Q_scaled c k e :
  0 <= k ->
  (PyDecimal.to_Q (PyDecimal.mk (c * 10 ^ k) e)
   == PyDecimal.to_Q (PyDecimal.mk c (k + e)))%Q.
Proof.
  intros Hk. unfold PyDecimal.to_Q. cbn [PyDecimal.coefficient PyDecimal.exponent].
  rewrite inject_Z_mult, (Zpower_Qpower 10 k Hk).
  rewrite Qpower_plus by discriminate.
  change (inject_Z 10) with 10%Q. ring.
Qed.

Lemma to_Q_align x y :
  let '(a, b, e) := PyDecimal.align x y in
  (PyDecimal.to_Q (PyDecimal.mk a e) == PyDecimal.to_Q x)%Q /\
  (PyDecimal.to_Q (PyDecimal.mk b e) == PyDecimal.to_Q y)%Q.
Proof.
  unfold PyDecimal.align. destruct x as [cx ex], y as [cy ey].
  cbn [PyDecimal.coefficient PyDecimal.exponent].
  split; rewrite to_Q_scaled by lia.
  - now replace (ex - Z.min ex ey + Z.min ex ey) with ex by lia.
  - now replace (ey - Z.min ex ey + Z.min ex ey) with ey by lia.
Qed.

Lemma to_Q_sign x :
  (PyDecimal.coefficient x < 0 -> (PyDecimal.to_Q x < 0)%Q) /\
  (0 <= PyDecimal.coefficient x -> (0 <= PyDecimal.to_Q x)%Q).
Proof.
  unfold PyDecimal.to_Q. pose proof (Qpower_10_pos (PyDecimal.exponent x)) as Hp.
  destruct (10 ^ PyDecimal.exponent x)%Q as [pn pd].
  unfold Qlt, Qle, Qmult, inject_Z in *. cbn in *. split; nia.
Qed.

Lemma to_Q_max_zero x :
  (PyDecimal.to_Q (PyDecimal.max x PyDecimal.zero) == Qmax (PyDecimal.to_Q x) 0)%Q.
Proof.
  unfold PyDecimal.max, PyDecimal.gt.
  destruct (PyDecimal.lt x PyDecimal.zero) eqn:E.
  - apply lt_zero in E. apply to_Q_sign in E.
    rewrite Q.max_r by now apply Qlt_le_weak. reflexivity.
  - assert (0 <= PyDecimal.coefficient x) as H.
    { destruct (Z.lt_ge_cases (PyDecimal.coefficient x) 0) as [H|H]; [|lia].
      apply lt_zero in H. congruence. }
    apply to_Q_sign in H. now rewrite Q.max_l.
Qed.

Lemma fix_exact x :
  PyDecimal.num_digits (PyDecimal.coefficient x) <= PyDecimal.context_prec ->
  PyDecimal.fix_ x = x.
Proof.
  intros H. unfold PyDecimal.fix_. apply Z.leb_le in H. now rewrite H.
Qed.

Lemma to_Q_mul_exact c1 e1 c2 e2 :
  (PyDecimal.to_Q (PyDecimal.mk (c1 * c2) (e1 + e2))
   == PyDecimal.to_Q (PyDecimal.mk c1 e1) * PyDecimal.to_Q (PyDecimal.mk c2 e2))%Q.
Proof.
  unfold PyDecimal.to_Q. cbn [PyDecimal.coefficient PyDecimal.exponent].
  rewrite inject_Z_mult, Qpower_plus by discriminate. ring.
Qed.

Lemma to_Q_sub_exact a b e :
  (PyDecimal.to_Q (PyDecimal.mk (a - b) e)
   == PyDecimal.to_Q (PyDecimal.mk a e) - PyDecimal.to_Q (PyDecimal.mk b e))%Q.
Proof.
  unfold PyDecimal.to_Q. cbn [PyDecimal.coefficient PyDecimal.exponent].
  unfold Z.sub. rewrite inject_Z_plus, inject_Z_opp. ring.
Qed.

Lemma calculate_profit_exact buy sell size :
  fits_context buy sell size ->
  (PyDecimal.to_Q (calculate_profit buy sell size)
   == Qmax ((PyDecimal.to_Q sell - PyDecimal.to_Q buy) * PyDecimal.to_Q size) 0)%Q.
Proof.
  unfold fits_context, calculate_profit, PyDecimal.mul, PyDecimal.sub.
  pose proof (to_Q_align sell buy) as Ha.
  destruct (PyDecimal.align sell buy) as [[a b] e]. destruct Ha as [Hs Hb].
  intros [H1 H2].
  rewrite (fix_exact (PyDecimal.mk (a - b) e)) by exact H1.
  cbn [PyDecimal.coefficient PyDecimal.exponent].
  rewrite fix_exact by exact H2.
  rewrite to_Q_max_zero. destruct size as [cs es].
  cbn [PyDecimal.coefficient PyDecimal.exponent].
  rewrite to_Q_mul_exact, to_Q_sub_exact, Hs, Hb. reflexivity.
Qed.

(** C10, amended.  [calculate_profit] returns [max((sell_price - buy_price) *
    position_size, 0)] computed in [Decimal] arithmetic: exactly when the
    difference and the product fit the 28 digits of the context, each
    rounded to 28 digits otherwise.  The result is never negative, and it is
    zero when [sell_price <= buy_price] and the position size is not
    negative. *)
Theorem C10_profit_is_never_negative (buy_price sell_price position_size : Decimal) :
  PyDecimal.lt (calculate_profit buy_price sell_price position_size)
    PyDecimal.zero = false /\
  (PyDecimal.le sell_price buy_price = true ->
   PyDecimal.le PyDecimal.zero position_size = true ->
   PyDecimal.compare (calculate_profit buy_price sell_price position_size)
     PyDecimal.zero = Eq) /\
  (fits_context buy_price sell_price position_size ->
   (PyDecimal.to_Q (calculate_profit buy_price sell_price position_size)
    == Qmax ((PyDecimal.to_Q sell_price - PyDecimal.to_Q buy_price)
             * PyDecimal.to_Q position_size) 0)%Q).
Proof.
  split; [|split].
  - destruct (PyDecimal.lt _ _) eqn:E; [|reflexivity].
    apply lt_zero in E. unfold calculate_profit in E.
    rewrite max_zero_coefficient in E. lia.
  - intros Hle Hsize. apply compare_zero. unfold calculate_profit.
    rewrite max_zero_coefficient.
    apply zero_le in Hsize. apply sub_nonpos in Hle.
    pose proof (mul_nonpos _ _ Hle Hsize). lia.
  - apply calculate_profit_exact.
Qed.
(** ** The theorems at concrete inputs *)

(** C3 at a concrete input. *)
Lemma C3_witness :
  monitor_profitable half_percent
    (three_venues_opportunity (float_of_Z 1234567891)) /\
  agent_profitable half_percent
    (three_venues_agent_opportunity (float_of_Z 1234567891)).
Proof.
  split.
  - eapply (proj1 (C3_opportunities_are_profitable
                     (settings_for ["SOL"; "USDC"]%string) half_percent
                     (monitor_state three_venues 1234567891)))
      with (opps := [three_venues_opportunity (float_of_Z 1234567891)]).
    + vm_compute. reflexivity.
    + left. reflexivity.
  - eapply (proj1 (proj2 (C3_opportunities_are_profitable
                            (settings_for ["SOL"; "USDC"]%string) half_percent
                            (monitor_state three_venues 1234567891))))
      with (opps := [three_venues_agent_opportunity (float_of_Z 1234567891)]).
    + vm_compute. reflexivity.
    + left. reflexivity.
Defined.

(** C5 at a concrete input. *)
Lemma C5_witness :
  descending PriceMonitor.profit_percentage
    [three_venues_opportunity (float_of_Z 1234567891)] /\
  SwapAgent.execute_opportunities (settings_for ["SOL"; "USDC"]%string)
    (repeat (three_venues_agent_opportunity (float_of_Z 1234567891)) 7)
  = repeat (three_venues_agent_opportunity (float_of_Z 1234567891)) 5.
Proof.
  pose proof (C5_ranked_and_bounded (settings_for ["SOL"; "USDC"]%string)
                half_percent (monitor_state three_venues 1234567891))
    as (Hm & _ & Hl).
  split.
  - edestruct (Hm [three_venues_opportunity (float_of_Z 1234567891)])
      as (cands & _ & _ & Hd).
    + vm_compute. reflexivity.
    + exact Hd.
  - apply Hl.
Defined.

(** C6 at a concrete input. *)
Lemma C6_witness :
  Exists (fun seconds => (30 <= seconds)%Q)
    (snd (PriceMonitor.iteration (settings_for []) "jupiter" four_failures
            (PriceMonitor.Polled no_prices))) /\
  PriceMonitor.consecutive_failures
    (fst (PriceMonitor.iteration (settings_for []) "jupiter" four_failures
            (PriceMonitor.Polled no_prices))) = 0%nat.
Proof.
  assert (PriceMonitor.max_failures
          <= failures_after four_failures (PriceMonitor.Polled no_prices))%nat
    as H by (vm_compute; reflexivity).
  destruct (C6_circuit_breaker (settings_for []) "jupiter" four_failures
              (PriceMonitor.Polled no_prices) H) as [H1 H2].
  split; [exact H1|]. exact (H2 no_prices eq_refl).
Defined.


(** C8 at a concrete input. *)
Lemma C8_witness :
  averages PyFloat.f0 0
    (latencies (settings_for ["A"; "B"]%string) four_calls
       (initial_state (latency_clock four_latencies)))
  = Return (SwapExecutor.average_execution_time
              (SwapExecutor.execution_stats
                 (SwapExecutor.calls (settings_for ["A"; "B"]%string) four_calls
                    (initial_state (latency_clock four_latencies))))) /\
  exists avg,
    averages 0%Q 0 [1 # 10; 3 # 10; 1 # 2; 1 # 10]%Q = Return avg /\
    (avg == Qmean [1 # 10; 3 # 10; 1 # 2; 1 # 10])%Q.
Proof.
  destruct (C8_running_average (settings_for ["A"; "B"]%string) successful_call
              (initial_state (latency_clock four_latencies)) four_calls
              (latency_clock four_latencies) [1 # 10; 3 # 10; 1 # 2; 1 # 10]%Q)
    as (_ & H2 & H3).
  split.
  - apply H2. vm_compute. reflexivity.
  - apply H3. discriminate.
Defined.

(** C9 at a concrete input: four calls begun, of which the first two have
    returned and the last was cancelled. *)
Lemma C9_witness :
  0 <= 0 < 2 ^ 53 - 1 /\
  Z.of_nat 7 < 2 ^ 53 /\
  accounted (SwapExecutor.execution_stats
               (snd (SwapExecutor.call (settings_for ["A"; "B"]%string)
                       successful_call
                       (initial_state (latency_clock four_latencies))))) /\
  tally (fst (Gather.run (settings_for ["A"; "B"]%string)
                [Gather.Start successful_call; Gather.Start successful_call;
                 Gather.Finish 1; Gather.Start successful_call;
                 Gather.Start successful_call; Gather.Cancel 2;
                 Gather.Finish 0]
                (Gather.idle (latency_clock four_latencies))))
    (how_many Gather.is_cancelled
       (snd (Gather.run (settings_for ["A"; "B"]%string)
               [Gather.Start successful_call; Gather.Start successful_call;
                Gather.Finish 1; Gather.Start successful_call;
                Gather.Start successful_call; Gather.Cancel 2;
                Gather.Finish 0]
               (Gather.idle (latency_clock four_latencies))))).
Proof.
  assert (0 <= 0 < 2 ^ 53 - 1) as H0 by (split; [lia|reflexivity]).
  assert (Z.of_nat 7 < 2 ^ 53) as H7 by reflexivity.
  split; [exact H0|]. split; [exact H7|].
  destruct (C9_every_attempt_is_accounted (settings_for ["A"; "B"]%string)
              successful_call (initial_state (latency_clock four_latencies))
              [Gather.Start successful_call; Gather.Start successful_call;
               Gather.Finish 1; Gather.Start successful_call;
               Gather.Start successful_call; Gather.Cancel 2; Gather.Finish 0]
              (latency_clock four_latencies)) as (_ & H1 & _ & _ & H2).
  split.
  - apply (H1 H0). reflexivity.
  - apply (H2 H7).
Defined.

(** C10 at a concrete input. *)
Lemma C10_witness :
  PyDecimal.compare
    (calculate_profit (PyDecimal.mk 10120 (-2)) (PyDecimal.mk 10050 (-2))
       (PyDecimal.mk 10 (-1)))
    PyDecimal.zero = Eq /\
  (PyDecimal.to_Q
     (calculate_profit (PyDecimal.mk 10050 (-2)) (PyDecimal.mk 10120 (-2))
        (PyDecimal.mk 10 (-1)))
   == Qmax ((PyDecimal.to_Q (PyDecimal.mk 10120 (-2))
             - PyDecimal.to_Q (PyDecimal.mk 10050 (-2)))
            * PyDecimal.to_Q (PyDecimal.mk 10 (-1))) 0)%Q.
Proof.
  split.
  - apply (proj1 (proj2 (C10_profit_is_never_negative
                           (PyDecimal.mk 10120 (-2)) (PyDecimal.mk 10050 (-2))
                           (PyDecimal.mk 10 (-1))))); vm_compute; reflexivity.
  - apply (proj2 (proj2 (C10_profit_is_never_negative
                           (PyDecimal.mk 10050 (-2)) (PyDecimal.mk 10120 (-2))
                           (PyDecimal.mk 10 (-1))))).
    vm_compute. split; discriminate.
Defined.

(** * Further properties *)

(** ** The price history *)

Lemma deque_append_length {A} (m : nat) (d : list A) (x : A) :
  length (PriceHistory.deque_append m d x) = Nat.min (length d + 1) m.
Proof.
  unfold PriceHistory.deque_append. rewrite length_skipn, length_app. cbn. lia.
Qed.

Lemma deque_append_last {A} (m : nat) (d : list A) (x : A) :
  (0 < m)%nat -> exists kept, PriceHistory.deque_append m d x = kept ++ [x].
Proof.
  intros Hm. unfold PriceHistory.deque_append.
  rewrite skipn_app, length_app. cbn [length].
  replace (length d + 1 - m - length d)%nat with 0%nat by lia.
  cbn [skipn]. eauto.
Qed.

Lemma history_key_inj dex k1 k2 :
  PriceHistory.history_key dex k1 = PriceHistory.history_key dex k2 -> k1 = k2.
Proof.
  unfold PriceHistory.history_key. intros H.
  apply (inj (String.app dex)) in H. now apply (inj (String.app ":")) in H.
Qed.

Lemma record_lookup dex (prices : Prices) (h : PriceHistory.t) k :
  PriceHistory.record dex prices h !! PriceHistory.history_key dex k
  = match prices !! k with
    | Some pd =>
      Some (PriceHistory.deque_append PriceHistory.maxlen
              (default [] (h !! PriceHistory.history_key dex k))
              (PriceHistory.entry_of pd))
    | None => h !! PriceHistory.history_key dex k
    end.
Proof.
  unfold PriceHistory.record.
  induction prices as [|k' pd prices Hk' Hfold IH] using map_first_key_ind.
  - now rewrite map_fold_empty, lookup_empty.
  - rewrite map_fold_insert_first_key by assumption.
    unfold PriceHistory.record_one at 1.
    destruct (decide (k = k')) as [->|Hne].
    + rewrite !lookup_insert_eq. rewrite IH, Hk'. reflexivity.
    + rewrite lookup_insert_ne by (intros E; apply history_key_inj in E; congruence).
      rewrite lookup_insert_ne by congruence. exact IH.
Qed.

Lemma record_other dex (prices : Prices) (h : PriceHistory.t) key :
  (forall k, is_Some (prices !! k) -> key <> PriceHistory.history_key dex k) ->
  PriceHistory.record dex prices h !! key = h !! key.
Proof.
  unfold PriceHistory.record.
  induction prices as [|k' pd prices Hk' Hfold IH] using map_first_key_ind.
  - now rewrite map_fold_empty.
  - intros Hkey. rewrite map_fold_insert_first_key by assumption.
    unfold PriceHistory.record_one at 1.
    rewrite lookup_insert_ne.
    + apply IH. intros k Hk. apply Hkey.
      destruct (decide (k = k')) as [->|Hne].
      * rewrite lookup_insert_eq. eauto.
      * now rewrite lookup_insert_ne.
    + intros E. apply (Hkey k'); [|now symmetry].
      rewrite lookup_insert_eq. eauto.
Qed.

Lemma record_bounded dex (prices : Prices) (h : PriceHistory.t) :
  rings_bounded h -> rings_bounded (PriceHistory.record dex prices h).
Proof.
  unfold PriceHistory.record.
  induction prices as [|k' pd prices Hk' Hfold IH] using map_first_key_ind.
  - now rewrite map_fold_empty.
  - intros Hh. rewrite map_fold_insert_first_key by assumption.
    specialize (IH Hh). intros key ring. unfold PriceHistory.record_one at 1.
    destruct (decide (key = PriceHistory.history_key dex k')) as [->|Hne].
    + rewrite lookup_insert_eq. intros [= <-]. rewrite deque_append_length. lia.
    + rewrite lookup_insert_ne by congruence. apply IH.
Qed.

(** X1.  Recording the prices of a poll appends to the ring of every pair
    quoted the entry made of its quote, as the newest and last element, the
    oldest being dropped from a ring that already held 100; the ring of a
    pair the poll did not quote, and the rings of every other key, are left
    as they were. *)
Theorem history_records_each_quote (dex_name : string) (prices : Prices)
    (h : PriceHistory.t) :
  (forall pair_key price_data,
     prices !! pair_key = Some price_data ->
     let before := default [] (h !! PriceHistory.history_key dex_name pair_key) in
     exists kept,
       PriceHistory.record dex_name prices h
         !! PriceHistory.history_key dex_name pair_key
       = Some (kept ++ [PriceHistory.entry_of price_data]) /\
       kept = skipn (length before + 1 - 100) before) /\
  (forall key,
     (forall pair_key, is_Some (prices !! pair_key) ->
                       key <> PriceHistory.history_key dex_name pair_key) ->
     PriceHistory.record dex_name prices h !! key = h !! key).
Proof.
  split.
  - intros k pd Hk before. rewrite record_lookup, Hk.
    unfold PriceHistory.deque_append, PriceHistory.maxlen. fold before.
    rewrite skipn_app, length_app. cbn [length].
    replace (length before + 1 - 100 - length before)%nat with 0%nat by lia.
    cbn [skipn]. eauto.
  - intros key Hkey. now apply record_other.
Qed.

(** X2.  From an empty history, whatever the venues poll and however often,
    no ring ever holds more than 100 entries. *)
Theorem history_rings_hold_at_most_100 (polls : list (string * Prices)) :
  forall key ring,
    recorded polls ∅ !! key = Some ring -> (length ring <= 100)%nat.
Proof.
  assert (forall h, rings_bounded h -> rings_bounded (recorded polls h)) as H.
  { induction polls as [|[dex prices] rest IH]; intros h Hh; cbn; trivial.
    apply IH. now apply record_bounded. }
  apply (H ∅). intros key ring. now rewrite lookup_empty.
Qed.

Lemma slice_from_suffix {A} (n : nat) (l : list A) :
  exists older, l = older ++ slice_from (- Z.of_nat (S n)) l /\
                length (slice_from (- Z.of_nat (S n)) l)
                = Nat.min (S n) (length l).
Proof.
  unfold slice_from.
  replace (- Z.of_nat (S n) <? 0) with true by (symmetry; apply Z.ltb_lt; lia).
  rewrite Z.opp_involutive, Nat2Z.id.
  exists (firstn (length l - S n) l). split.
  - now rewrite firstn_skipn.
  - rewrite length_skipn. lia.
Qed.

(** X3.  With a positive limit [get_price_history] returns the newest
    entries of the ring, in the order they were recorded: the last [limit]
    of them, or all when the ring holds fewer. *)
Theorem price_history_returns_the_newest (token_a token_b dex_name : string)
    (limit : Z) (h : PriceHistory.t) :
  0 < limit ->
  let ring := default [] (h !! PriceHistory.history_key dex_name
                                 (pair_key_of token_a token_b)) in
  let result := PriceHistory.get_price_history token_a token_b dex_name limit h in
  (exists older, ring = older ++ result) /\
  length result = Nat.min (Z.to_nat limit) (length ring).
Proof.
  intros Hl ring result. subst result. unfold PriceHistory.get_price_history.
  fold ring. destruct ring as [|x ring'] eqn:E.
  - split; [now exists []|]. cbn. lia.
  - rewrite <- E. clear E.
    destruct (Z.to_nat limit) as [|n] eqn:En; [lia|].
    replace limit with (Z.of_nat (S n)) by lia.
    destruct (slice_from_suffix n ring) as (older & H1 & H2). eauto.
Qed.

(** X4.  A limit of zero does not return an empty list but the whole ring,
    up to 100 entries, and a negative limit [- n] returns the ring without
    its [n] oldest entries: the slice [history[-limit:]] then starts from
    the front. *)
Theorem price_history_limit_zero_or_negative (token_a token_b dex_name : string)
    (n : nat) (h : PriceHistory.t) :
  PriceHistory.get_price_history token_a token_b dex_name (- Z.of_nat n) h
  = skipn n (default [] (h !! PriceHistory.history_key dex_name
                               (pair_key_of token_a token_b))).
Proof.
  unfold PriceHistory.get_price_history.
  destruct (default [] _) as [|x ring] eqn:E; [now rewrite skipn_nil|].
  unfold slice_from. rewrite Z.opp_involutive.
  replace (Z.of_nat n <? 0) with false by (symmetry; apply Z.ltb_ge; lia).
  now rewrite Nat2Z.id.
Qed.

(** ** The price store under the polling loop *)

Lemma store_get_set_eq k v (d : PriceStore) : store_get k (store_set k v d) = Some v.
Proof.
  induction d as [|[k' v'] d IH]; cbn.
  - now rewrite String.eqb_refl.
  - destruct (String.eqb k k') eqn:E; cbn; rewrite ?String.eqb_refl, ?E; trivial.
Qed.

Lemma store_get_set_ne k k' v (d : PriceStore) :
  k' <> k -> store_get k' (store_set k v d) = store_get k' d.
Proof.
  intros Hne. induction d as [|[k0 v0] d IH]; cbn.
  - destruct (String.eqb k' k) eqn:E; trivial. apply String.eqb_eq in E. congruence.
  - destruct (String.eqb k k0) eqn:E; cbn.
    + apply String.eqb_eq in E. subst k0.
      destruct (String.eqb k' k) eqn:E'; trivial.
      apply String.eqb_eq in E'. congruence.
    + now rewrite IH.
Qed.

Lemma store_set_keys k v (d : PriceStore) :
  map fst (store_set k v d)
  = match store_get k d with
    | Some _ => map fst d
    | None => map fst d ++ [k]
    end.
Proof.
  induction d as [|[k0 v0] d IH]; cbn; trivial.
  destruct (String.eqb k k0) eqn:E; cbn.
  - apply String.eqb_eq in E. now subst.
  - rewrite IH. now destruct (store_get k d).
Qed.

(** X5.  A poll that returns prices replaces the whole dictionary of its
    venue, the venue keeping its place in the order of the store (a new
    venue goes last) and every other venue its dictionary.  A poll that
    returns no prices, or raises, leaves the store as it was: the prices
    the venue returned before stay in it. *)
Theorem poll_updates_one_venue (settings : Settings) (dex_name : string)
    (l : PriceMonitor.Loop) (p : PriceMonitor.poll) :
  let before := PriceMonitor.store l in
  let after := PriceMonitor.store (fst (PriceMonitor.iteration settings dex_name l p)) in
  match p with
  | PriceMonitor.Polled prices =>
    if bool_decide (prices = ∅) then after = before
    else store_get dex_name after = Some prices /\
         (forall other, other <> dex_name ->
                        store_get other after = store_get other before) /\
         map fst after = match store_get dex_name before with
                         | Some _ => map fst before
                         | None => map fst before ++ [dex_name]
                         end
  | PriceMonitor.PollRaised => after = before
  end.
Proof.
  destruct p as [prices|]; cbv zeta; unfold PriceMonitor.iteration; trivial.
  destruct (bool_decide (prices = ∅)).
  - now destruct (PriceMonitor.max_failures <=? _)%nat.
  - cbn. split; [apply store_get_set_eq|]. split; [|apply store_set_keys].
    intros other H. now apply store_get_set_ne.
Qed.

Lemma Qcompare_inject_Z a b : (inject_Z a ?= inject_Z b)%Q = (a ?= b).
Proof. unfold Qcompare, inject_Z. cbn. now rewrite !Z.mul_1_r. Qed.

Lemma backoff_value failures :
  PriceMonitor.backoff failures
  = if (failures <? 5)%nat then inject_Z (2 ^ Z.of_nat failures) else 30%Q.
Proof.
  unfold PriceMonitor.backoff.
  change 30%Q with (inject_Z 30). rewrite Qcompare_inject_Z.
  destruct (Nat.ltb_spec failures 5) as [H|H].
  - assert (2 ^ Z.of_nat failures <= 2 ^ 4) by (apply Z.pow_le_mono_r; lia).
    destruct (Z.compare_spec (2 ^ Z.of_nat failures) 30); trivial; lia.
  - assert (2 ^ 5 <= 2 ^ Z.of_nat failures) by (apply Z.pow_le_mono_r; lia).
    destruct (Z.compare_spec (2 ^ Z.of_nat failures) 30); trivial; lia.
Qed.

(** X6.  After a poll that raises the loop sleeps [2 ^ failures] seconds
    while fewer than five failures are counted, and 30 seconds from the
    fifth on; the delay is at least 2 seconds, at most 30, and never shrinks
    as failures accumulate. *)
Theorem backoff_doubles_up_to_the_cap (settings : Settings) (dex_name : string)
    (l : PriceMonitor.Loop) :
  let failures := S (PriceMonitor.consecutive_failures l) in
  let delay := PriceMonitor.backoff failures in
  snd (PriceMonitor.iteration settings dex_name l PriceMonitor.PollRaised) = [delay] /\
  delay = (if (failures <? 5)%nat then inject_Z (2 ^ Z.of_nat failures) else 30%Q) /\
  (2 <= delay <= 30)%Q /\
  (delay <= PriceMonitor.backoff (S failures))%Q.
Proof.
  cbv zeta. split; [reflexivity|]. split; [apply backoff_value|].
  rewrite !backoff_value.
  set (n := PriceMonitor.consecutive_failures l).
  destruct (Nat.ltb_spec (S n) 5) as [H|H].
  - assert (2 ^ 1 <= 2 ^ Z.of_nat (S n) <= 2 ^ 4) as Hp
        by (split; apply Z.pow_le_mono_r; lia).
    split; [split; unfold Qle, inject_Z; cbn; lia|].
    destruct (Nat.ltb_spec (S (S n)) 5) as [H'|H'].
    + rewrite <- Zle_Qle. apply Z.pow_le_mono_r; lia.
    + unfold Qle, inject_Z; cbn; lia.
  - split; [split; unfold Qle; cbn; lia|].
    destruct (Nat.ltb_spec (S (S n)) 5) as [H'|H']; [lia|]. unfold Qle; cbn; lia.
Qed.

(** ** The order of decimals *)

Lemma compare_to_Q x y :
  PyDecimal.compare x y = (PyDecimal.to_Q x ?= PyDecimal.to_Q y)%Q.
Proof.
  pose proof (to_Q_align x y) as H. unfold PyDecimal.compare.
  destruct (PyDecimal.align x y) as [[a b] e]. destruct H as [Ha Hb].
  rewrite <- Ha, <- Hb. unfold PyDecimal.to_Q.
  cbn [PyDecimal.coefficient PyDecimal.exponent].
  pose proof (Qpower_10_pos e) as Hp.
  destruct (Z.compare_spec a b) as [->|H|H]; symmetry.
  - apply Qeq_alt. reflexivity.
  - apply Qlt_alt. apply Qmult_lt_compat_r; trivial. now rewrite <- Zlt_Qlt.
  - apply Qgt_alt. apply Qmult_lt_compat_r; trivial. now rewrite <- Zlt_Qlt.
Qed.

Lemma decimal_le_Q x y :
  PyDecimal.le x y = true <-> (PyDecimal.to_Q x <= PyDecimal.to_Q y)%Q.
Proof.
  unfold PyDecimal.le. rewrite compare_to_Q, Qle_alt.
  destruct (_ ?= _)%Q; split; congruence.
Qed.

Lemma decimal_lt_Q x y :
  PyDecimal.lt x y = true <-> (PyDecimal.to_Q x < PyDecimal.to_Q y)%Q.
Proof.
  unfold PyDecimal.lt. rewrite compare_to_Q, Qlt_alt.
  destruct (_ ?= _)%Q; split; congruence.
Qed.

Lemma decimal_gt_false x y : PyDecimal.gt x y = false <-> PyDecimal.le x y = true.
Proof.
  unfold PyDecimal.gt. rewrite decimal_le_Q.
  destruct (PyDecimal.lt y x) eqn:E.
  - apply decimal_lt_Q in E. split; [discriminate|]. intros H.
    exfalso. eapply Qlt_not_le; eauto.
  - split; trivial. intros _. apply Qnot_lt_le. intros H.
    apply decimal_lt_Q in H. congruence.
Qed.

Lemma decimal_gt_le x y : PyDecimal.gt x y = true -> PyDecimal.le y x = true.
Proof.
  unfold PyDecimal.gt. rewrite decimal_lt_Q, decimal_le_Q. apply Qlt_le_weak.
Qed.

Lemma decimal_le_refl x : PyDecimal.le x x = true.
Proof. apply decimal_le_Q. apply Qle_refl. Qed.

Lemma decimal_le_trans x y z :
  PyDecimal.le x y = true -> PyDecimal.le y z = true -> PyDecimal.le x z = true.
Proof. rewrite !decimal_le_Q. apply Qle_trans. Qed.

(** ** [get_price_for_pair] *)

Lemma inverted_cases rev :
  (PyDecimal.coefficient (PriceData.price rev) = 0 /\
   PriceMonitor.inverted rev = Raise ZeroDivisionError) \/
  (PyDecimal.coefficient (PriceData.price rev) <> 0 /\
   exists q, PriceMonitor.inverted rev = Return q).
Proof.
  unfold PriceMonitor.inverted, PyDecimal.div.
  cbn [PyDecimal.of_int PyDecimal.coefficient].
  destruct (Z.eqb_spec (PyDecimal.coefficient (PriceData.price rev)) 0) as [E|E].
  - left. now split.
  - right. split; trivial. change (1 =? 0) with false. cbn. eauto.
Qed.

(** What one venue does to the best quote so far. *)
Lemma best_step_cases pair rpair best (d : Prices) :
  (d !! pair = None /\ d !! rpair = None /\
   PriceMonitor.best_step pair rpair best d = Return best) \/
  (zero_reverse_quote pair rpair d /\
   PriceMonitor.best_step pair rpair best d = Raise ZeroDivisionError) \/
  (exists q, quoted pair rpair d q /\
     PriceMonitor.best_step pair rpair best d
     = Return (match best with
               | None => Some q
               | Some b => if PyDecimal.gt (PriceData.price q) (PriceData.price b)
                           then Some q else best
               end)).
Proof.
  unfold PriceMonitor.best_step, quoted, zero_reverse_quote.
  destruct (d !! pair) as [pd|] eqn:Ed.
  - right. right. exists pd. split; [now left|]. now destruct best.
  - destruct (d !! rpair) as [rev|] eqn:Er.
    + destruct (inverted_cases rev) as [[Hz E]|[Hz [q E]]]; rewrite E; cbn.
      * right. left. eauto 6.
      * right. right. exists q. split; [right; eauto|]. now destruct best.
    + now left.
Qed.

Lemma quoted_functional pair rpair d q1 q2 :
  quoted pair rpair d q1 -> quoted pair rpair d q2 -> q1 = q2.
Proof.
  unfold quoted. intros [H1|[H1 (r1 & Hr1 & E1)]] [H2|[H2 (r2 & Hr2 & E2)]];
    congruence.
Qed.

Lemma best_over_spec pair rpair l seen best r :
  best_of pair rpair seen best ->
  PriceMonitor.best_over pair rpair l best = Return r ->
  best_of pair rpair (seen ++ l) r.
Proof.
  revert seen best. induction l as [|d l IH]; intros seen best Hb; cbn.
  - intros [= <-]. now rewrite app_nil_r.
  - destruct (best_step_cases pair rpair best d)
      as [(Hd & Hr & E)|[(Hz & E)|(q & Hq & E)]]; rewrite E; cbn; try discriminate.
    + intros H. replace (seen ++ d :: l) with ((seen ++ [d]) ++ l)
        by now rewrite <- app_assoc.
      eapply IH; eauto. destruct best as [b|]; cbn in *.
      * destruct Hb as [(d0 & Hin & Hq0) Hmax]. split.
        -- exists d0. split; trivial. apply in_app_iff. now left.
        -- intros d' q' Hin' Hq'. apply in_app_iff in Hin' as [Hin'|[<-|[]]];
             eauto. destruct Hq' as [Hq'|[_ (rev & Hq' & _)]]; congruence.
      * intros d' Hin'. apply in_app_iff in Hin' as [Hin'|[<-|[]]]; eauto.
    + intros H. replace (seen ++ d :: l) with ((seen ++ [d]) ++ l)
        by now rewrite <- app_assoc.
      eapply IH; eauto. destruct best as [b|]; cbn in *.
      * destruct Hb as [(d0 & Hin & Hq0) Hmax].
        destruct (PyDecimal.gt _ _) eqn:Eg; cbn.
        -- split.
           ++ exists d. split; trivial. apply in_app_iff. right. now left.
           ++ intros d' q' Hin' Hq'. apply in_app_iff in Hin' as [Hin'|[<-|[]]].
              ** eapply decimal_le_trans; [eapply Hmax; eauto|].
                 now apply decimal_gt_le.
              ** rewrite (quoted_functional _ _ _ _ _ Hq' Hq). apply decimal_le_refl.
        -- split.
           ++ exists d0. split; trivial. apply in_app_iff. now left.
           ++ intros d' q' Hin' Hq'. apply in_app_iff in Hin' as [Hin'|[<-|[]]].
              ** eauto.
              ** rewrite (quoted_functional _ _ _ _ _ Hq' Hq).
                 now apply decimal_gt_false.
      * split.
        -- exists d. split; trivial. apply in_app_iff. right. now left.
        -- intros d' q' Hin' Hq'. apply in_app_iff in Hin' as [Hin'|[<-|[]]].
           ++ destruct (Hb d' Hin') as [H1 H2].
              destruct Hq' as [Hq'|[_ (rev & Hq' & _)]]; congruence.
           ++ rewrite (quoted_functional _ _ _ _ _ Hq' Hq). apply decimal_le_refl.
Qed.

(** X7.  Asked for a pair without a venue, [get_price_for_pair] returns the
    highest quote over the venues of the store, a venue that has only the
    reverse pair quoting the inverse of that price: the result is the quote
    of some venue and no venue quotes more; it is [None] only when no venue
    has the pair in either direction. *)
Theorem best_price_is_the_highest_quote (token_a token_b : string)
    (s : PriceMonitor.State) (r : option PriceData.t) :
  fst (PriceMonitor.get_price_for_pair token_a token_b None s) = Return r ->
  let pair := pair_key_of token_a token_b in
  let rpair := pair_key_of token_b token_a in
  let venues := map snd (PriceMonitor.latest_prices s) in
  match r with
  | None => forall d, In d venues -> d !! pair = None /\ d !! rpair = None
  | Some best =>
    (exists d, In d venues /\ quoted pair rpair d best) /\
    (forall d q, In d venues -> quoted pair rpair d q ->
                 PyDecimal.le (PriceData.price q) (PriceData.price best) = true)
  end.
Proof.
  unfold PriceMonitor.get_price_for_pair, bind, gets, lift. cbn.
  intros H. apply (best_over_spec _ _ _ [] None) in H; [exact H|].
  intros d [].
Qed.

Lemma best_over_raises pair rpair l best :
  (exists d, In d l /\ zero_reverse_quote pair rpair d) ->
  PriceMonitor.best_over pair rpair l best = Raise ZeroDivisionError.
Proof.
  revert best. induction l as [|d l IH]; intros best (d0 & Hin & Hz); [destruct Hin|].
  cbn. destruct (best_step_cases pair rpair best d)
    as [(Hd & Hr & E)|[(Hz' & E)|(q & Hq & E)]]; rewrite E; cbn; trivial.
  - apply IH. destruct Hin as [<-|Hin]; eauto.
    destruct Hz as (_ & rev & Hrev & _). congruence.
  - apply IH. destruct Hin as [<-|Hin]; eauto.
    destruct Hz as (Hp & rev & Hrev & Hc).
    destruct Hq as [Hq|(_ & rev' & Hrev' & Hinv)]; [congruence|].
    assert (rev' = rev) as -> by congruence.
    destruct (inverted_cases rev) as [[_ E']|[Hnz _]]; congruence.
Qed.

Lemma best_over_returns pair rpair l best :
  (forall d, In d l -> ~ zero_reverse_quote pair rpair d) ->
  exists r, PriceMonitor.best_over pair rpair l best = Return r.
Proof.
  revert best. induction l as [|d l IH]; intros best Hl; cbn; eauto.
  destruct (best_step_cases pair rpair best d)
    as [(Hd & Hr & E)|[(Hz' & E)|(q & Hq & E)]]; rewrite E; cbn.
  - apply IH. intros; apply Hl; now right.
  - exfalso. eapply Hl; eauto. now left.
  - apply IH. intros; apply Hl; now right.
Qed.

(** X8.  Asked for a pair without a venue, [get_price_for_pair] raises
    exactly when some venue of the store has only the reverse pair, at a
    price of zero, which it would have to invert; it then raises
    [ZeroDivisionError], whatever the other venues quote, and in every other
    store it returns. *)
Theorem best_price_raises_on_a_zero_reverse_quote (token_a token_b : string)
    (s : PriceMonitor.State) :
  let pair := pair_key_of token_a token_b in
  let rpair := pair_key_of token_b token_a in
  let venues := map snd (PriceMonitor.latest_prices s) in
  let result := fst (PriceMonitor.get_price_for_pair token_a token_b None s) in
  (Exists (zero_reverse_quote pair rpair) venues ->
   result = Raise ZeroDivisionError) /\
  (~ Exists (zero_reverse_quote pair rpair) venues ->
   exists r, result = Return r).
Proof.
  cbv zeta. unfold PriceMonitor.get_price_for_pair, bind, gets, lift. cbn. split.
  - intros H. apply best_over_raises. now apply List.Exists_exists in H.
  - intros H. apply best_over_returns. intros d Hin Hz. apply H.
    apply List.Exists_exists. eauto.
Qed.

(** ** What the scans raise *)

Lemma for_each_raise {S A B} (I : S -> Prop) (body : B -> A -> M S B) :
  (forall acc x s, I s -> I (snd (body acc x s))) ->
  forall l acc s e s',
    I s -> for_each l body acc s = (Raise e, s') ->
    exists acc0 x s0, In x l /\ I s0 /\ body acc0 x s0 = (Raise e, s').
Proof.
  intros Hbody. induction l as [|x l IH]; intros acc s e s' Hs Hrun; [discriminate|].
  cbn in Hrun. unfold bind in Hrun.
  destruct (body acc x s) as [[acc1|e1] s1] eqn:E.
  - pose proof (Hbody acc x s Hs) as Hs1. rewrite E in Hs1.
    destruct (IH _ _ _ _ Hs1 Hrun) as (acc0 & x0 & s0 & Hin & H0 & Hr).
    exists acc0, x0, s0. repeat split; trivial. now right.
  - injection Hrun as <- <-. exists acc, x, s. repeat split; trivial. now left.
Qed.

Lemma for_each_must_raise {S A B} (I : S -> Prop) (body : B -> A -> M S B) (x : A) :
  (forall acc y s, I s -> I (snd (body acc y s))) ->
  (forall acc s, I s -> exists e s', body acc x s = (Raise e, s')) ->
  forall l acc s, In x l -> I s ->
    exists e s', for_each l body acc s = (Raise e, s').
Proof.
  intros Hinv Hx. induction l as [|y l IH]; intros acc s Hin Hs; [destruct Hin|].
  cbn. unfold bind.
  destruct (body acc y s) as [[acc1|e1] s1] eqn:E; [|eauto].
  destruct Hin as [->|Hin].
  - destruct (Hx acc s Hs) as (e & s' & E'). congruence.
  - apply IH; trivial. specialize (Hinv acc y s Hs). now rewrite E in Hinv.
Qed.

Lemma fold_min_In {A} (key : A -> float) (rest : list A) (x : A) :
  In (fold_left (fun best y => if PyFloat.flt (key y) (key best) then y else best)
        rest x) (x :: rest).
Proof.
  revert x. induction rest as [|y rest IH]; intros x; cbn; [now left|].
  destruct (PyFloat.flt (key y) (key x)).
  - right. apply IH.
  - destruct (IH x) as [H|H]; [now left|right; now right].
Qed.

Lemma py_min_In {A} (key : A -> float) (l : list A) (m : A) :
  py_min key l = Return m -> In m l.
Proof.
  destruct l as [|x rest]; [discriminate|]. cbn -[In]. intros [= <-].
  apply fold_min_In.
Qed.

Lemma collect_fold_source pair_key store acc y :
  In y (fold_left (PriceMonitor.collect_step pair_key) store acc) ->
  In y acc \/
  exists item pd, In item store /\ snd item !! pair_key = Some pd /\
                  PriceMonitor.dp_price y = PyDecimal.to_float (PriceData.price pd).
Proof.
  revert acc. induction store as [|[dex_name prices] store IH]; intros acc; cbn;
    [now left|].
  intros H. apply IH in H as [H|(item & pd & Hin & Hpd & E)].
  - destruct (prices !! pair_key) as [pd|] eqn:Epd; [|now left].
    apply in_app_iff in H as [H|[<-|[]]]; [now left|].
    right. exists (dex_name, prices), pd. cbn. eauto.
  - right. exists item, pd. eauto.
Qed.

Lemma of_int_100 : PyFloat.of_int 100 = Return (S754_finite false 7036874417766400 (-46)).
Proof. reflexivity. Qed.

Lemma profit_of_cases mn mx :
  (PyFloat.is_zero mn = true /\
   PriceMonitor.profit_of mn mx = Raise ZeroDivisionError) \/
  (PyFloat.is_zero mn = false /\ exists pct, PriceMonitor.profit_of mn mx = Return pct).
Proof.
  unfold PriceMonitor.profit_of, PyFloat.fdiv, PyFloat.float_mul_int.
  rewrite of_int_100.
  destruct (PyFloat.is_zero mn); cbn; [now left|right; eauto].
Qed.

Lemma candidate_raises thr token_a token_b store e :
  candidate thr token_a token_b store = Raise e ->
  e = ZeroDivisionError /\ zero_price store.
Proof.
  unfold candidate.
  destruct (2 <=? length _)%nat eqn:Hlen; [|discriminate].
  destruct (py_min _ _) as [mn|] eqn:Emin.
  2:{ destruct (PriceMonitor.collect _ _); discriminate. }
  destruct (py_max _ _) as [mx|] eqn:Emax.
  2:{ destruct (PriceMonitor.collect _ _); discriminate. }
  cbn. destruct (negb _); [|discriminate].
  destruct (profit_of_cases (PriceMonitor.dp_price mn) (PriceMonitor.dp_price mx))
    as [[Hz E]|[Hz [pct E]]]; rewrite E; cbn.
  - intros [= <-]. split; trivial.
    apply py_min_In in Emin. apply collect_fold_source in Emin as [[]|H].
    destruct H as (item & pd & Hin & Hpd & Eq).
    exists item, (pair_key_of token_a token_b), pd.
    repeat split; trivial. now rewrite <- Eq.
  - destruct (PyFloat.fge _ _); discriminate.
Qed.

Lemma candidate_zero_min thr token_a token_b store mn mx :
  let dex_prices := PriceMonitor.collect (pair_key_of token_a token_b) store in
  (2 <= length dex_prices)%nat ->
  py_min PriceMonitor.dp_price dex_prices = Return mn ->
  py_max PriceMonitor.dp_price dex_prices = Return mx ->
  PriceMonitor.dex mn <> PriceMonitor.dex mx ->
  PyFloat.is_zero (PriceMonitor.dp_price mn) = true ->
  candidate thr token_a token_b store = Raise ZeroDivisionError.
Proof.
  cbv zeta. intros Hlen Emin Emax Hdex Hz. unfold candidate.
  apply Nat.leb_le in Hlen. rewrite Hlen, Emin, Emax. cbn.
  apply String.eqb_neq in Hdex. rewrite Hdex. cbn.
  destruct (profit_of_cases (PriceMonitor.dp_price mn) (PriceMonitor.dp_price mx))
    as [[_ E]|[Hnz _]]; [now rewrite E|congruence].
Qed.

(** X9.  The scan of the price monitor raises nothing but
    [ZeroDivisionError], and only over a store that holds a price converting
    to the float zero: over any other store it returns.  It does raise when,
    for some ordered pair of distinct monitored tokens, the cheapest of at
    least two quotes is zero and the dearest comes from another venue. *)
Theorem monitor_scan_divides_by_the_cheapest_price (settings : Settings)
    (threshold : float) (s : PriceMonitor.State) :
  let store := PriceMonitor.latest_prices s in
  let result := fst (PriceMonitor.get_arbitrage_opportunities settings threshold s) in
  (forall e, result = Raise e -> e = ZeroDivisionError /\ zero_price store) /\
  (~ zero_price store -> exists opportunities, result = Return opportunities) /\
  (forall token_a token_b mn mx,
     In token_a (monitored_tokens settings) ->
     In token_b (monitored_tokens settings) ->
     token_a <> token_b ->
     let dex_prices := PriceMonitor.collect (pair_key_of token_a token_b) store in
     (2 <= length dex_prices)%nat ->
     py_min PriceMonitor.dp_price dex_prices = Return mn ->
     py_max PriceMonitor.dp_price dex_prices = Return mx ->
     PriceMonitor.dex mn <> PriceMonitor.dex mx ->
     PyFloat.is_zero (PriceMonitor.dp_price mn) = true ->
     result = Raise ZeroDivisionError).
Proof.
  cbv zeta.
  set (I := fun s0 => PriceMonitor.latest_prices s0 = PriceMonitor.latest_prices s).
  assert (forall acc token_a token_b s0, I s0 ->
            I (snd ((if String.eqb token_a token_b then ret acc
                     else PriceMonitor.scan_pair threshold token_a token_b acc) s0)))
    as Hpair.
  { intros acc a b s0 H0. unfold I in *.
    destruct (String.eqb a b); [exact H0|]. now rewrite scan_pair_store. }
  assert (forall acc token_a s0, I s0 ->
            I (snd (for_each (monitored_tokens settings)
                      (fun acc token_b =>
                         if String.eqb token_a token_b then ret acc
                         else PriceMonitor.scan_pair threshold token_a token_b acc)
                      acc s0))) as Hrow.
  { intros acc a s0 H0. unfold I in *. rewrite <- H0.
    apply (for_each_preserves PriceMonitor.latest_prices). intros acc' b s1.
    destruct (String.eqb a b); [reflexivity|apply scan_pair_store]. }
  assert (forall e, fst (PriceMonitor.get_arbitrage_opportunities settings threshold s)
                    = Raise e ->
                    e = ZeroDivisionError /\ zero_price (PriceMonitor.latest_prices s))
    as Hraise.
  { intros e. unfold PriceMonitor.get_arbitrage_opportunities, bind, ret.
    destruct (for_each _ _ _ s) as [[opps|e0] s'] eqn:E; [discriminate|].
    cbn. intros [= ->].
    apply (for_each_raise I) in E as (acc0 & a & s0 & _ & H0 & E);
      [|exact (fun acc x s1 => Hrow acc x s1)|reflexivity].
    apply (for_each_raise I) in E as (acc1 & b & s1 & _ & H1 & E);
      [|exact (fun acc x s2 => Hpair acc a x s2)|exact H0].
    destruct (String.eqb a b); [discriminate|].
    rewrite scan_pair_candidate in E. rewrite H1 in E.
    destruct (candidate _ _ _ _) as [[o|]|e0] eqn:Ec.
    - destruct (tick _); discriminate.
    - discriminate.
    - injection E as -> _. eapply candidate_raises; eauto. }
  split; [exact Hraise|]. split.
  - intros Hnz.
    destruct (fst (PriceMonitor.get_arbitrage_opportunities settings threshold s))
      as [opps|e] eqn:E; [eauto|].
    destruct (Hraise e eq_refl) as [_ Hz]. contradiction.
  - intros a b mn mx Ha Hb Hab Hlen Emin Emax Hdex Hz.
    pose proof (candidate_zero_min threshold a b _ mn mx Hlen Emin Emax Hdex Hz) as Hc.
    assert (exists e s', for_each (monitored_tokens settings)
               (fun acc token_a =>
                  for_each (monitored_tokens settings)
                    (fun acc token_b =>
                       if String.eqb token_a token_b then ret acc
                       else PriceMonitor.scan_pair threshold token_a token_b acc)
                    acc) [] s = (Raise e, s')) as (e & s' & E).
    { apply (for_each_must_raise I) with (x := a); trivial; [|reflexivity].
      intros acc s0 H0.
      apply (for_each_must_raise I) with (x := b); trivial.
      - intros acc' y s1. apply Hpair.
      - intros acc' s1 H1. apply String.eqb_neq in Hab. rewrite Hab.
        rewrite scan_pair_candidate, H1, Hc. eauto. }
    assert (fst (PriceMonitor.get_arbitrage_opportunities settings threshold s)
            = Raise e) as Hr.
    { unfold PriceMonitor.get_arbitrage_opportunities, bind. now rewrite E. }
    rewrite Hr. f_equal. now apply Hraise.
Qed.

(** *** The agent *)

Lemma agent_profit_of_returns buy sell :
  PyDecimal.truthy buy = true -> exists pct, SwapAgent.profit_of buy sell = Return pct.
Proof.
  unfold PyDecimal.truthy, SwapAgent.profit_of, PyDecimal.div. intros H.
  apply negb_true_iff in H. rewrite H.
  destruct (PyDecimal.coefficient (PyDecimal.sub sell buy) =? 0); cbn; eauto.
Qed.

Lemma agent_scan_pair_returns settings now store token_a token_b opps :
  exists opps', SwapAgent.scan_pair settings now store token_a token_b opps
                = Return opps'.
Proof.
  unfold SwapAgent.scan_pair.
  destruct (fold_left _ store SwapAgent.no_best) as [[buy|] [sell|] [bdex|] [sdex|]];
    cbn; eauto.
  destruct (PyDecimal.truthy buy) eqn:Eb; cbn; eauto.
  destruct (_ && _); cbn; eauto.
  destruct (agent_profit_of_returns buy sell Eb) as [pct ->]. cbn.
  destruct (PyFloat.fge _ _); eauto.
Qed.

Lemma agent_scan_b_returns settings now store token_a tokens opps :
  exists opps', SwapAgent.scan_tokens_b settings now store token_a tokens opps
                = Return opps'.
Proof.
  revert opps. induction tokens as [|token_b rest IH]; intros opps; cbn; eauto.
  destruct (String.eqb token_a token_b); cbn; [apply IH|].
  destruct (agent_scan_pair_returns settings now store token_a token_b opps)
    as [acc ->]. cbn. apply IH.
Qed.

Lemma agent_scan_a_returns settings now store tokens opps :
  exists opps', SwapAgent.scan_tokens_a settings now store tokens opps
                = Return opps'.
Proof.
  revert opps. induction tokens as [|token_a rest IH]; intros opps; cbn; eauto.
  destruct (agent_scan_b_returns settings now store token_a
              (monitored_tokens settings) opps) as [acc ->]. cbn. apply IH.
Qed.

(** X10.  The scan of the agent raises nothing, whatever the store holds: a
    buy price of zero, which the profit percentage would divide by, is
    turned away by the truth test on the two best prices before the division
    is reached.  The scan reads the wall clock once and leaves the store as
    it was. *)
Theorem agent_scan_never_raises (settings : Settings) (s : PriceMonitor.State) :
  exists opportunities,
    SwapAgent.find_arbitrage_opportunities settings s
    = (Return opportunities,
       {| PriceMonitor.latest_prices := PriceMonitor.latest_prices s;
          PriceMonitor.clock := snd (tick (PriceMonitor.clock s)) |}).
Proof.
  unfold SwapAgent.find_arbitrage_opportunities, bind, gets, lift, ret,
    PriceMonitor.time_time.
  destruct (tick (PriceMonitor.clock s)) as [now c]. cbn.
  destruct (PriceMonitor.latest_prices s) as [|item store]; [eauto|].
  destruct (agent_scan_a_returns settings now (item :: store)
              (monitored_tokens settings) []) as [cands ->]. eauto.
Qed.

(** ** Pairs that a single venue quotes *)

Lemma for_each_skip {S A B} (body : B -> A -> M S B) (s : S) :
  (forall acc x, body acc x s = (Return acc, s)) ->
  forall l acc, for_each l body acc s = (Return acc, s).
Proof.
  intros Hbody. induction l as [|x l IH]; intros acc; [reflexivity|].
  cbn. unfold bind. now rewrite Hbody.
Qed.

Lemma candidate_single_venue thr token_a token_b store :
  (length (List.filter (quotes_pair (pair_key_of token_a token_b)) store) <= 1)%nat ->
  candidate thr token_a token_b store = Return None.
Proof.
  intros H. unfold candidate.
  assert (length (PriceMonitor.collect (pair_key_of token_a token_b) store) <= 1)%nat
    as Hlen.
  { rewrite <- (length_map PriceMonitor.dex), collect_dex, length_map. exact H. }
  destruct (Nat.leb_spec 2 (length (PriceMonitor.collect
                                      (pair_key_of token_a token_b) store)));
    [lia|reflexivity].
Qed.

Lemma agent_fold_no_venue token_a token_b store b :
  List.filter (quotes_pair (pair_key_of token_a token_b)) store = [] ->
  fold_left (SwapAgent.best_step token_a token_b) store b = b.
Proof.
  induction store as [|[dex_name prices] store IH]; cbn; trivial.
  unfold quotes_pair at 1. cbn [snd].
  destruct (prices !! pair_key_of token_a token_b) as [pd|]; [discriminate|].
  exact IH.
Qed.

Lemma agent_fold_single_venue token_a token_b store :
  (length (List.filter (quotes_pair (pair_key_of token_a token_b)) store) <= 1)%nat ->
  one_sided (fold_left (SwapAgent.best_step token_a token_b) store SwapAgent.no_best).
Proof.
  induction store as [|[dex_name prices] store IH]; cbn; [reflexivity|].
  unfold quotes_pair at 1. cbn [snd].
  destruct (prices !! pair_key_of token_a token_b) as [pd|]; [|exact IH].
  cbn. intros H. rewrite agent_fold_no_venue; [reflexivity|].
  destruct (List.filter _ store); [reflexivity|cbn in H; lia].
Qed.

Lemma agent_scan_pair_single_venue settings now store token_a token_b opps :
  (length (List.filter (quotes_pair (pair_key_of token_a token_b)) store) <= 1)%nat ->
  SwapAgent.scan_pair settings now store token_a token_b opps = Return opps.
Proof.
  intros H. unfold SwapAgent.scan_pair.
  pose proof (agent_fold_single_venue token_a token_b store H) as Hone.
  unfold one_sided in Hone.
  destruct (fold_left _ store SwapAgent.no_best) as [[buy|] [sell|] [bdex|] [sdex|]];
    cbn in *; trivial.
  injection Hone as ->. rewrite String.eqb_refl. cbn.
  now rewrite !andb_false_r.
Qed.

(** X11.  An arbitrage needs two venues that hold the same pair key.  When
    no pair key of the monitored tokens is held by more than one venue of
    the store (a store of a single venue, or venues quoting different pairs,
    or one quoting A-B and the other B-A) both scans return the empty list,
    and the scan of the monitor does not read the clock. *)
Theorem single_venue_pairs_yield_nothing (settings : Settings) (threshold : float)
    (s : PriceMonitor.State) :
  (forall token_a token_b,
     (length (List.filter (quotes_pair (pair_key_of token_a token_b))
                (PriceMonitor.latest_prices s)) <= 1)%nat) ->
  PriceMonitor.get_arbitrage_opportunities settings threshold s = (Return [], s) /\
  fst (SwapAgent.find_arbitrage_opportunities settings s) = Return [].
Proof.
  intros H. split.
  - unfold PriceMonitor.get_arbitrage_opportunities, bind, ret.
    rewrite for_each_skip; [reflexivity|].
    intros acc a. apply for_each_skip. intros acc' b.
    destruct (String.eqb a b); [reflexivity|].
    rewrite scan_pair_candidate, candidate_single_venue; trivial.
  - unfold SwapAgent.find_arbitrage_opportunities, bind, gets, lift, ret,
      PriceMonitor.time_time.
    destruct (tick (PriceMonitor.clock s)) as [now c]. cbn.
    destruct (PriceMonitor.latest_prices s) as [|item store] eqn:Es; [reflexivity|].
    assert (forall tokens_a tokens opps,
              SwapAgent.scan_tokens_a
                {| monitored_tokens := tokens;
                   min_profit_threshold := min_profit_threshold settings;
                   max_slippage_bps := max_slippage_bps settings;
                   max_position_size := max_position_size settings;
                   max_concurrent_swaps := max_concurrent_swaps settings;
                   price_update_interval := price_update_interval settings |}
                now (item :: store) tokens_a opps = Return opps) as Hscan.
    { intros tokens_a tokens opps.
      induction tokens_a as [|a rest IH]; cbn; trivial.
      assert (forall tokens_b,
                SwapAgent.scan_tokens_b
                  {| monitored_tokens := tokens;
                     min_profit_threshold := min_profit_threshold settings;
                     max_slippage_bps := max_slippage_bps settings;
                     max_position_size := max_position_size settings;
                     max_concurrent_swaps := max_concurrent_swaps settings;
                     price_update_interval := price_update_interval settings |}
                  now (item :: store) a tokens_b opps = Return opps) as Hb.
      { induction tokens_b as [|b rest' IH']; cbn; trivial.
        destruct (String.eqb a b); cbn; trivial.
        now rewrite agent_scan_pair_single_venue. }
      rewrite Hb. exact IH. }
    destruct settings as [tokens thr bps size conc interval]. cbn in *.
    rewrite Hscan. cbn. unfold slice_to.
    destruct (0 <=? conc); now rewrite List.firstn_nil.
Qed.

(** ** The hops of an order *)

Lemma build_steps_hops settings token_a token_b len_path i dex_path amount acc l :
  SwapExecutor.build_steps settings token_a token_b len_path i dex_path amount acc
    = Return (Some l) ->
  exists hops,
    l = acc ++ hops /\
    Forall2 hop_venue dex_path hops /\
    (forall k hop, nth_error hops k = Some hop ->
                   hop_direction token_a token_b ((i + k =? 0)%nat) hop).
Proof.
  revert i amount acc. induction dex_path as [|dex_name rest IH];
    intros i amount acc; cbn [SwapExecutor.build_steps].
  - intros [= <-]. exists []. rewrite app_nil_r. repeat split; [constructor|].
    intros [|k] hop; discriminate.
  - destruct (SwapExecutor.dex_type_map _) as [ty|] eqn:Ety; [|discriminate].
    destruct (if (i =? 0)%nat then _ else _) as [input_token output_token] eqn:Edir.
    destruct (PyFloat.int_truediv _ _) as [factor|]; [|discriminate].
    cbn [obind].
    destruct (PyFloat.int_mul_float _ _) as [product|]; [|discriminate].
    cbn [obind].
    destruct (PyFloat.to_int _) as [min_out|]; [|discriminate].
    cbn [obind]. intros H. apply IH in H as (hops & -> & Hven & Hdir).
    eexists (_ :: hops). split; [now rewrite <- app_assoc|]. split.
    + constructor; trivial.
    + intros [|k] hop; cbn [nth_error].
      * intros [= <-]. rewrite Nat.add_0_r. unfold hop_direction. cbn.
        destruct (i =? 0)%nat; [|destruct (i =? len_path - 1)%nat];
          injection Edir as <- <-; now split.
      * intros Hk. specialize (Hdir k hop Hk).
        now replace (i + S k)%nat with (S i + k)%nat by lia.
Qed.

Lemma build_steps_unknown_venue settings token_a token_b len_path i dex_path
    amount acc :
  Exists (fun dex_name => SwapExecutor.dex_type_map (SwapExecutor.lower dex_name) = None)
    dex_path ->
  or_None (SwapExecutor.build_steps settings token_a token_b len_path i dex_path
             amount acc) = None.
Proof.
  intros H. revert i amount acc.
  induction dex_path as [|dex_name rest IH]; intros i amount acc;
    [inversion H|]. cbn [SwapExecutor.build_steps].
  destruct (SwapExecutor.dex_type_map _) as [ty|] eqn:Ety; [|reflexivity].
  destruct (if (i =? 0)%nat then _ else _) as [input_token output_token].
  destruct (PyFloat.int_truediv _ _) as [factor|]; [|reflexivity]. cbn [obind].
  destruct (PyFloat.int_mul_float _ _) as [product|]; [|reflexivity]. cbn [obind].
  destruct (PyFloat.to_int _) as [min_out|]; [|reflexivity]. cbn [obind].
  apply IH. inversion H; subst; [congruence|assumption].
Qed.

(** X12.  An order built for a path has one hop per venue of the path, in
    the order of the path, each with the type of its venue, the name taken
    without regard to case; it carries the minimum profit it was given and
    the configured slippage.  The first hop swaps token A for token B and
    every later hop token B for token A, the hops between the first and the
    last included. *)
Theorem order_has_one_hop_per_venue (settings : Settings) (token_a token_b : string)
    (swap_amount : Z) (dex_path : list string) (min_profit : Z)
    (swap_data : SwapExecutor.SwapData) :
  SwapExecutor._build_swap_data settings token_a token_b swap_amount dex_path
    min_profit = Some swap_data ->
  let hops := SwapExecutor.swap_instructions swap_data in
  SwapExecutor.expected_profit swap_data = min_profit /\
  SwapExecutor.slippage_bps swap_data = max_slippage_bps settings /\
  Forall2 hop_venue dex_path hops /\
  (forall k hop, nth_error hops k = Some hop ->
                 hop_direction token_a token_b ((k =? 0)%nat) hop).
Proof.
  unfold SwapExecutor._build_swap_data.
  destruct (SwapExecutor.build_steps _ _ _ _ _ _ _ _) as [[l|]|] eqn:E;
    try discriminate.
  cbn. intros [= <-]. cbn.
  apply build_steps_hops in E as (hops & -> & Hven & Hdir). cbn. auto.
Qed.

(** X13.  A path that names a venue other than jupiter, raydium, phoenix
    and meteora (in any case) builds no order, wherever in the path the name
    stands; the call of [execute_arbitrage_swap] then counts one attempt
    and one failure and returns [None], whatever the collaborators would
    have done.  An empty path builds an order without hops. *)
Theorem unknown_venue_builds_no_order (settings : Settings)
    (backend : SwapExecutor.Backend) (token_a token_b : string)
    (swap_amount : Z) (dex_path : list string) (min_profit : Z)
    (s : SwapExecutor.State) :
  (Exists (fun dex_name =>
             SwapExecutor.dex_type_map (SwapExecutor.lower dex_name) = None)
     dex_path ->
   SwapExecutor._build_swap_data settings token_a token_b swap_amount dex_path
     min_profit = None /\
   let r := SwapExecutor.execute_arbitrage_swap settings backend token_a token_b
              swap_amount dex_path min_profit s in
   fst r = Return None /\
   SwapExecutor.execution_stats (snd r)
   = SwapExecutor.count_failure
       (SwapExecutor.count_attempt (SwapExecutor.execution_stats s))) /\
  SwapExecutor._build_swap_data settings token_a token_b swap_amount [] min_profit
  = Some {| SwapExecutor.expected_profit := min_profit;
            SwapExecutor.slippage_bps := max_slippage_bps settings;
            SwapExecutor.swap_instructions := [] |}.
Proof.
  split; [|reflexivity]. intros H.
  assert (SwapExecutor._build_swap_data settings token_a token_b swap_amount
            dex_path min_profit = None) as E.
  { unfold SwapExecutor._build_swap_data.
    pose proof (build_steps_unknown_venue settings token_a token_b
                  (length dex_path) 0 dex_path swap_amount [] H) as Hn.
    destruct (SwapExecutor.build_steps _ _ _ _ _ _ _ _) as [[l|]|]; cbn in *;
      congruence. }
  split; [exact E|]. cbv zeta.
  unfold SwapExecutor.execute_arbitrage_swap, bind, try_except,
    SwapExecutor.update_stats, modify, ret, SwapExecutor.time_time.
  destruct (tick (SwapExecutor.clock s)) as [now c]. cbn. rewrite E. cbn. auto.
Qed.

(** ** Rounding does not cross an integer *)

Lemma shr_1_upper mrs B :
  0 <= shr_m mrs -> upper mrs <= 2 * B -> upper (shr_1 mrs) <= B.
Proof.
  destruct mrs as [m r s]. unfold upper. cbn [shr_m shr_r shr_s shr_1].
  intros Hm. destruct m as [|[p|p|]|p]; try lia; destruct r, s; cbn; lia.
Qed.

Lemma iter_shr_1_upper p mrs B :
  0 <= shr_m mrs -> upper mrs <= 2 ^ Zpos p * B ->
  upper (SpecFloat.iter_pos shr_1 p mrs) <= B.
Proof.
  revert mrs B. induction p as [p IH|p IH|]; intros mrs B Hm H; cbn [SpecFloat.iter_pos].
  - assert (2 ^ Zpos p~1 = 2 * (2 ^ Zpos p * 2 ^ Zpos p)) as E.
    { rewrite <- Z.pow_add_r, <- Z.pow_succ_r by lia. f_equal. lia. }
    rewrite E in H.
    apply IH; [now apply iter_pos_shr_1_nonneg, shr_1_nonneg|].
    apply IH; [now apply shr_1_nonneg|].
    apply shr_1_upper; trivial. lia.
  - assert (2 ^ Zpos p~0 = 2 ^ Zpos p * 2 ^ Zpos p) as E.
    { rewrite <- Z.pow_add_r by lia. f_equal. lia. }
    rewrite E in H.
    apply IH; [now apply iter_pos_shr_1_nonneg|].
    apply IH; trivial. lia.
  - apply shr_1_upper; trivial.
Qed.

Lemma upper_of_loc m l :
  upper (shr_record_of_loc m l) = match l with loc_Exact => m | _ => m + 1 end.
Proof. destruct l as [|[]]; reflexivity. Qed.

Lemma round_below_upper mrs :
  round_nearest_even (shr_m mrs) (loc_of_shr_record mrs) <= upper mrs.
Proof.
  destruct mrs as [m [] []]; unfold upper; cbn; try lia.
  destruct (Z.even m); lia.
Qed.

Lemma shr_m_below_upper mrs : shr_m mrs <= upper mrs.
Proof. unfold upper. destruct (_ || _); lia. Qed.

Lemma Zdigits2_bound m n : 0 <= m -> 0 <= n -> m < 2 ^ n -> Zdigits2 m <= n.
Proof.
  intros Hm Hn H. destruct m as [|p|p]; cbn; try lia.
  now apply digits2_pos_bound.
Qed.

(** One pass of [shr_fexp] on a value below [K], when [K < 2 ^ 53]. *)
Lemma shr_fexp_upper K m e l :
  0 <= m -> e <= 0 -> 0 <= K < 2 ^ 53 ->
  upper (shr_record_of_loc m l) <= K * 2 ^ (- e) ->
  let '(mrs, e') := shr_fexp PyFloat.prec PyFloat.emax m e l in
  0 <= shr_m mrs /\ e' <= 0 /\ upper mrs <= K * 2 ^ (- e').
Proof.
  intros Hm He HK H. unfold shr_fexp.
  assert (Zdigits2 m + e <= 53) as Hd.
  { assert (Zdigits2 m <= 53 - e); [|lia].
    apply Zdigits2_bound; trivial; [lia|].
    pose proof (shr_m_below_upper (shr_record_of_loc m l)) as Hu.
    replace (shr_m (shr_record_of_loc m l)) with m in Hu by now destruct l as [|[]].
    replace (53 - e) with (53 + - e) by lia. rewrite Z.pow_add_r by lia.
    assert (0 < 2 ^ (- e)) by (apply Z.pow_pos_nonneg; lia). nia. }
  set (n := fexp PyFloat.prec PyFloat.emax (Zdigits2 m + e) - e).
  assert (e + n <= 0) as Hn.
  { subst n. unfold fexp, emin, PyFloat.prec, PyFloat.emax. lia. }
  destruct n as [|p|p] eqn:En; cbn [shr].
  - split; [now destruct l as [|[]]|]. now split.
  - split; [apply iter_pos_shr_1_nonneg; now destruct l as [|[]]|].
    split; [exact Hn|].
    apply iter_shr_1_upper; [now destruct l as [|[]]|].
    replace (2 ^ Zpos p * (K * 2 ^ (- (e + Zpos p)))) with (K * 2 ^ (- e)); trivial.
    replace (- e) with (Zpos p + - (e + Zpos p)) at 1 by lia.
    rewrite Z.pow_add_r by lia. ring.
  - split; [now destruct l as [|[]]|]. now split.
Qed.

(** Rounding a value that is at most an integer below [2 ^ 53] gives a float
    that is at most this integer: no infinity, and nothing beyond it. *)
Lemma binary_round_aux_within K m e l :
  0 <= m -> e <= 0 -> 0 <= K < 2 ^ 53 ->
  upper (shr_record_of_loc m l) <= K * 2 ^ (- e) ->
  within K (binary_round_aux PyFloat.prec PyFloat.emax false m e l).
Proof.
  intros Hm He HK H. unfold binary_round_aux.
  pose proof (shr_fexp_upper K m e l Hm He HK H) as H1.
  destruct (shr_fexp _ _ m e l) as [mrs' e']. destruct H1 as (Hm' & He' & Hu').
  pose proof (round_below_upper mrs') as Hr.
  pose proof (round_nearest_even_nonneg _ (loc_of_shr_record mrs') Hm') as Hr0.
  set (m2 := round_nearest_even _ _) in *.
  pose proof (shr_fexp_upper K m2 e' loc_Exact Hr0 He' HK) as H2.
  rewrite upper_of_loc in H2. specialize (H2 ltac:(lia)).
  destruct (shr_fexp _ _ m2 e' loc_Exact) as [mrs'' e''].
  destruct H2 as (Hm'' & He'' & Hu'').
  pose proof (shr_m_below_upper mrs'') as Hs.
  destruct (shr_m mrs'') as [|q|q]; cbn; trivial; [|lia].
  replace (e'' <=? PyFloat.emax - PyFloat.prec) with true
    by (symmetry; apply Z.leb_le; unfold PyFloat.emax, PyFloat.prec; lia).
  cbn. split; [exact He''|lia].
Qed.

Lemma within_weaken K K' x : K <= K' -> within K x -> within K' x.
Proof.
  intros HK. destruct x as [s| |  |[] m e]; cbn; trivial.
  intros [He H]. split; trivial.
  assert (0 < 2 ^ (- e)) by (apply Z.pow_pos_nonneg; lia). nia.
Qed.

Lemma iter_xO_value p k : Zpos (Pos.iter xO p k) = Zpos p * 2 ^ Zpos k.
Proof.
  induction k as [|k IH] using Pos.peano_ind.
  - cbn. lia.
  - rewrite Pos.iter_succ, Pos2Z.inj_xO, IH, Pos2Z.inj_succ, Z.pow_succ_r by lia. ring.
Qed.

(** [float(n)] *)
Lemma of_int_within n :
  0 <= n < 2 ^ 53 -> exists f, PyFloat.of_int n = Return f /\ within n f.
Proof.
  intros [H0 H]. unfold PyFloat.of_int.
  assert (within n (binary_normalize PyFloat.prec PyFloat.emax n 0 false)) as Hw.
  { destruct n as [|p|p]; cbn [binary_normalize within]; trivial; [|lia].
    unfold binary_round, shl_align.
    set (fe := fexp _ _ _).
    destruct (fe - 0) as [|k|k] eqn:Ek.
    - apply binary_round_aux_within; try lia. rewrite upper_of_loc. cbn. lia.
    - apply binary_round_aux_within; try lia. rewrite upper_of_loc. cbn. lia.
    - assert (fe <= 0) by lia.
      apply binary_round_aux_within; try lia. rewrite upper_of_loc.
      rewrite iter_xO_value. replace (- fe) with (Zpos k) by lia. lia. }
  destruct (binary_normalize _ _ _ _ _) as [s|s| |s m e]; cbn in Hw; try tauto; eauto.
Qed.

Lemma new_location_cases n k :
  (k = 0 /\ new_location n k = loc_Exact) \/
  (k <> 0 /\ exists c, new_location n k = loc_Inexact c).
Proof.
  unfold new_location, new_location_even, new_location_odd.
  destruct (Z.eqb_spec k 0) as [->|H]; [left|right]; split; trivial.
  - now destruct (Z.even n).
  - apply Z.eqb_neq in H. destruct (Z.even n); rewrite H; eauto.
Qed.

(** [a / b] on two integers *)
Lemma int_truediv_within K a b :
  0 <= a -> 0 < b -> a <= K * b -> 0 <= K < 2 ^ 53 ->
  exists f, PyFloat.int_truediv a b = Return f /\ within K f.
Proof.
  intros Ha Hb Hab HK. unfold PyFloat.int_truediv.
  destruct b as [|q|q]; try lia. destruct a as [|p|p]; try lia.
  { eexists. split; [reflexivity|exact I]. }
  assert (within K (PyFloat.ratio (xorb (Zpos p <? 0) (Zpos q <? 0))
                      (Z.to_pos (Z.abs (Zpos p))) (Z.to_pos (Z.abs (Zpos q)))))
    as Hw.
  { change (Z.to_pos (Z.abs (Zpos p))) with p.
    change (Z.to_pos (Z.abs (Zpos q))) with q.
    change (xorb (Zpos p <? 0) (Zpos q <? 0)) with false.
    unfold PyFloat.ratio, SFdiv, SFdiv_core_binary. cbn [xorb].
    set (e' := Z.min _ (0 - 0)).
    assert (e' <= 0) as He' by (subst e'; lia).
    set (m' := match 0 - 0 - e' with Z0 => _ | Zpos _ => _ | Zneg _ => _ end).
    assert (m' = Zpos p * 2 ^ (- e')) as Hm'.
    { subst m'. destruct (0 - 0 - e') as [|k|k] eqn:Ek; try lia.
      - replace (- e') with 0 by lia. cbn. lia.
      - rewrite Z.shiftl_mul_pow2 by lia. f_equal. f_equal. lia. }
    pose proof (Z_div_mod m' (Zpos q) eq_refl) as Hdiv.
    destruct (Z.div_eucl m' (Zpos q)) as [d r]. destruct Hdiv as [Hdiv Hr].
    assert (0 < 2 ^ (- e')) by (apply Z.pow_pos_nonneg; lia).
    assert (0 <= d) by nia.
    apply binary_round_aux_within; trivial.
    rewrite upper_of_loc.
    destruct (new_location_cases (Zpos q) r) as [[-> ->]|[Hr0 [c ->]]]; nia. }
  destruct (PyFloat.ratio _ _ _) as [s|s| |s m e]; cbn in Hw; try tauto; eauto.
Qed.

(** [x * y] *)
Lemma fmul_within K1 K2 x y :
  within K1 x -> within K2 y -> 0 <= K1 -> 0 <= K2 -> K1 * K2 < 2 ^ 53 ->
  within (K1 * K2) (PyFloat.fmul x y).
Proof.
  intros Hx Hy H1 H2 HK.
  destruct x as [sx| | |[] mx ex], y as [sy| | |[] my ey]; cbn in Hx, Hy; try tauto;
    try exact I.
  destruct Hx as [Hex Hx], Hy as [Hey Hy].
  unfold PyFloat.fmul, SFmul. cbn [xorb].
  apply binary_round_aux_within; try lia.
  rewrite upper_of_loc, Pos2Z.inj_mul.
  replace (- (ex + ey)) with (- ex + - ey) by lia. rewrite Z.pow_add_r by lia.
  assert (0 < 2 ^ (- ex)) by (apply Z.pow_pos_nonneg; lia).
  assert (0 < 2 ^ (- ey)) by (apply Z.pow_pos_nonneg; lia).
  nia.
Qed.

(** [int(x)] *)
Lemma to_int_within K x :
  within K x -> 0 <= K -> exists r, PyFloat.to_int x = Return r /\ 0 <= r <= K.
Proof.
  intros Hx HK. destruct x as [s| | |[] m e]; cbn in Hx; try tauto.
  - exists 0. split; [reflexivity|lia].
  - destruct Hx as [He Hm]. destruct e as [|k|k]; try lia.
    + exists (Zpos m). split; [reflexivity|]. change (2 ^ (- 0)) with 1 in Hm. lia.
    + exists (Z.shiftr (Zpos m) (Zpos k)). split; [reflexivity|].
      rewrite Z.shiftr_div_pow2 by lia. change (- Zneg k) with (Zpos k) in Hm.
      assert (0 < 2 ^ Zpos k) by (apply Z.pow_pos_nonneg; lia).
      split; [apply Z.div_pos; lia|].
      apply Z.div_le_upper_bound; lia.
Qed.

(** ** The slippage amount *)

Lemma slippage_within amount slippage_bps :
  0 <= amount < 2 ^ 53 -> 0 <= slippage_bps <= 10000 ->
  exists r, calculate_slippage_amount amount slippage_bps = Return r /\
            0 <= r <= amount.
Proof.
  intros Ha Hb. unfold calculate_slippage_amount.
  destruct (int_truediv_within 1 (10000 - slippage_bps) 10000) as (factor & -> & Hf);
    try lia.
  cbn [obind]. unfold PyFloat.int_mul_float.
  destruct (of_int_within amount Ha) as (fa & -> & Hfa). cbn [obind].
  pose proof (fmul_within amount 1 fa factor Hfa Hf) as Hp.
  rewrite Z.mul_1_r in Hp. specialize (Hp ltac:(lia) ltac:(lia) ltac:(lia)).
  apply to_int_within; trivial. lia.
Qed.

(** ** The performance statistics of the agent *)

Lemma log_performance_returns s :
  counted (SolanaSwapAgent.performance_stats s) ->
  0 < SolanaSwapAgent.total_trades (SolanaSwapAgent.performance_stats s) ->
  SolanaSwapAgent.log_performance s = (Return tt, s).
Proof.
  intros Hc Ht. unfold SolanaSwapAgent.log_performance, bind, gets, lift, ret.
  destruct (_ =? 0); trivial.
  destruct (int_truediv_within 1
              (SolanaSwapAgent.successful_trades (SolanaSwapAgent.performance_stats s))
              (SolanaSwapAgent.total_trades (SolanaSwapAgent.performance_stats s)))
    as (rate & -> & _); try (unfold counted in Hc; lia).
  unfold PyFloat.float_mul_int. now rewrite of_int_100.
Qed.

Lemma division_by_a_count total n :
  0 < n -> exists average, PyDecimal.div total (PyDecimal.of_int n) = Return average.
Proof.
  intros Hn. unfold PyDecimal.div. cbn [PyDecimal.of_int PyDecimal.coefficient].
  replace (n =? 0) with false by (symmetry; apply Z.eqb_neq; lia).
  destruct (_ =? 0); eauto.
Qed.

Lemma update_performance_stats_returns profit success s :
  counted (SolanaSwapAgent.performance_stats s) ->
  SolanaSwapAgent.update_performance_stats profit success s
  = (Return tt,
     {| SolanaSwapAgent.performance_stats :=
          updated profit success (SolanaSwapAgent.performance_stats s);
        SolanaSwapAgent.swap_executor := SolanaSwapAgent.swap_executor s |}) /\
  counted (updated profit success (SolanaSwapAgent.performance_stats s)).
Proof.
  destruct s as [[total successful tp ap lp] ex]. unfold counted. cbn. intros Hc.
  unfold SolanaSwapAgent.update_performance_stats, updated, bind,
    SolanaSwapAgent.update, modify.
  destruct success.
  - unfold SolanaSwapAgent.record_success, bind, gets, ret, lift,
      SolanaSwapAgent.update, modify.
    cbn -[PyDecimal.div PyDecimal.gt decimal_add Z.add Z.ltb
          SolanaSwapAgent.log_performance].
    destruct (division_by_a_count (decimal_add tp profit) (successful + 1))
      as [average Ediv]; [lia|].
    assert ((0 <? successful + 1) = true) as Hlt by (apply Z.ltb_lt; lia).
    destruct (PyDecimal.gt profit lp);
      cbn -[PyDecimal.div PyDecimal.gt decimal_add Z.add Z.ltb
            SolanaSwapAgent.log_performance];
      rewrite Ediv, Hlt;
      cbn -[PyDecimal.div PyDecimal.gt decimal_add Z.add Z.ltb
            SolanaSwapAgent.log_performance];
      (split; [|lia]); rewrite log_performance_returns; trivial;
      unfold counted; cbn; lia.
  - unfold ret. cbn -[Z.add SolanaSwapAgent.log_performance]. split; [|lia].
    rewrite log_performance_returns; trivial; unfold counted; cbn; lia.
Qed.

(** The executor never raises, and reports the profit of its transaction. *)
Lemma execute_arbitrage_swap_result settings backend token_a token_b swap_amount
    dex_path min_profit s :
  let r := SwapExecutor.execute_arbitrage_swap settings backend token_a token_b
             swap_amount dex_path min_profit s in
  fst r = Return None \/
  exists res tx,
    fst r = Return (Some res) /\
    SwapExecutor.send_transaction backend = Some tx /\
    SwapExecutor.r_actual_profit res = default 0 (SwapExecutor.actual_profit tx).
Proof.
  cbv zeta.
  unfold SwapExecutor.execute_arbitrage_swap, bind, try_except,
    SwapExecutor.update_stats, modify, ret, lift, SwapExecutor.time_time, tick.
  destruct s as [st clk]. cbn [SwapExecutor.clock SwapExecutor.execution_stats].
  destruct (SwapExecutor._build_swap_data _ _ _ _ _ _) as [swap_data|];
    cbn; [|now left].
  destruct (SwapExecutor.get_swap_accounts backend) as [accounts|];
    cbn; [|now left].
  destruct (SwapExecutor.build_arbitrage_instruction backend) as [instr|e];
    cbn; [|now left].
  destruct (SwapExecutor.send_transaction backend) as [tx|]; cbn; [|now left].
  unfold SwapExecutor._update_average_execution_time, bind, gets, lift,
    SwapExecutor.update_stats, modify. cbn.
  destruct (new_average _ _ _) as [avg|e] eqn:E; cbn; [|now left].
  right. eauto.
Qed.

Lemma on_executor_spec {A} (m : M SwapExecutor.State A) s :
  SolanaSwapAgent.on_executor m s
  = (fst (m (SolanaSwapAgent.swap_executor s)),
     {| SolanaSwapAgent.performance_stats := SolanaSwapAgent.performance_stats s;
        SolanaSwapAgent.swap_executor := snd (m (SolanaSwapAgent.swap_executor s)) |}).
Proof.
  unfold SolanaSwapAgent.on_executor. now destruct (m _).
Qed.

Lemma profit_in_sol n :
  PyDecimal.div (PyDecimal.of_int n) (PyDecimal.mk 1 9) <> Raise ZeroDivisionError /\
  exists p, PyDecimal.div (PyDecimal.of_int n) (PyDecimal.mk 1 9) = Return p /\
            (n = 0 -> PyDecimal.coefficient p = 0).
Proof.
  unfold PyDecimal.div. cbn [PyDecimal.of_int PyDecimal.coefficient PyDecimal.exponent].
  change (1 =? 0) with false. cbn [negb].
  destruct (Z.eqb_spec n 0) as [->|Hn].
  - split; [discriminate|]. eexists. split; [reflexivity|]. reflexivity.
  - split; [discriminate|]. eexists. split; [reflexivity|]. contradiction.
Qed.

Lemma execute_single_opportunity_cases (settings : Settings)
    (max_position_size : float) (backend : SwapExecutor.Backend)
    (o : SwapAgent.ArbitrageOpportunity) (s : SolanaSwapAgent.State) :
  counted (SolanaSwapAgent.performance_stats s) ->
  let r := SolanaSwapAgent.execute_single_opportunity settings max_position_size
             backend o s in
  let st := SolanaSwapAgent.performance_stats s in
  counted (SolanaSwapAgent.performance_stats (snd r)) /\
  match SolanaSwapAgent.swap_amount_of max_position_size o,
        SolanaSwapAgent.min_profit_of o with
  | Return swap_amount, Return min_profit =>
    let call := SwapExecutor.execute_arbitrage_swap settings backend
                  (SwapAgent.token_a o) (SwapAgent.token_b o) swap_amount
                  (SwapAgent.swap_path o) min_profit
                  (SolanaSwapAgent.swap_executor s) in
    match fst call with
    | Return (Some res) =>
      exists report profit,
        fst r = Return (Some report) /\
        SolanaSwapAgent.result report = res /\
        SolanaSwapAgent.actual_profit report = profit /\
        PyDecimal.div (PyDecimal.of_int (SwapExecutor.r_actual_profit res))
          (PyDecimal.mk 1 9) = Return profit /\
        SolanaSwapAgent.performance_stats (snd r) = updated profit true st
    | _ =>
      fst r = Return None /\
      SolanaSwapAgent.performance_stats (snd r) = st /\
      SolanaSwapAgent.swap_executor (snd r) = snd call
    end
  | _, _ =>
    fst r = Return None /\
    SolanaSwapAgent.performance_stats (snd r) = SolanaSwapAgent.count_trade st /\
    SolanaSwapAgent.swap_executor (snd r) = SolanaSwapAgent.swap_executor s
  end.
Proof.
  intros Hc. cbv zeta.
  unfold SolanaSwapAgent.execute_single_opportunity, try_except, bind, lift, ret.
  pose proof (update_performance_stats_returns PyDecimal.zero false s Hc)
    as [Efail Hcfail].
  destruct (SolanaSwapAgent.swap_amount_of max_position_size o) as [amount|e].
  2:{ rewrite Efail. cbn. auto. }
  destruct (SolanaSwapAgent.min_profit_of o) as [mp|e].
  2:{ rewrite Efail. cbn. auto. }
  rewrite on_executor_spec.
  destruct (execute_arbitrage_swap_result settings backend (SwapAgent.token_a o)
              (SwapAgent.token_b o) amount (SwapAgent.swap_path o) mp
              (SolanaSwapAgent.swap_executor s)) as [E|(res & tx & E & _ & _)];
    rewrite E; cbn [fst snd SolanaSwapAgent.performance_stats
                    SolanaSwapAgent.swap_executor].
  - auto.
  - destruct (profit_in_sol (SwapExecutor.r_actual_profit res))
      as [_ (profit & Ep & _)].
    rewrite Ep.
    match goal with
    | |- context [SolanaSwapAgent.update_performance_stats profit true ?s1] =>
      pose proof (update_performance_stats_returns profit true s1 Hc) as [Eok Hcok];
        rewrite Eok
    end.
    rewrite on_executor_spec.
    cbn [fst snd SolanaSwapAgent.performance_stats SolanaSwapAgent.swap_executor].
    split; [exact Hcok|]. eauto 10.
Qed.

(** X14.  How the agent counts an opportunity it executes, its counters in
    order.  When an amount of the order cannot be computed (the estimated
    profit does not convert to an integer number of lamports) the agent
    counts a trade that did not succeed and the executor is not called.
    When the executor reports a failure the agent counts nothing: the
    failed swap shows in the statistics of the executor only.  When the
    executor reports a success the agent counts a successful trade with the
    profit of the transaction, in SOL.  In no case does the call raise. *)
Theorem agent_counts_successes_not_failures (settings : Settings)
    (max_position_size : float) (backend : SwapExecutor.Backend)
    (o : SwapAgent.ArbitrageOpportunity) (s : SolanaSwapAgent.State) :
  counted (SolanaSwapAgent.performance_stats s) ->
  let r := SolanaSwapAgent.execute_single_opportunity settings max_position_size
             backend o s in
  let st := SolanaSwapAgent.performance_stats s in
  counted (SolanaSwapAgent.performance_stats (snd r)) /\
  match SolanaSwapAgent.swap_amount_of max_position_size o,
        SolanaSwapAgent.min_profit_of o with
  | Return swap_amount, Return min_profit =>
    let call := SwapExecutor.execute_arbitrage_swap settings backend
                  (SwapAgent.token_a o) (SwapAgent.token_b o) swap_amount
                  (SwapAgent.swap_path o) min_profit
                  (SolanaSwapAgent.swap_executor s) in
    match fst call with
    | Return (Some res) =>
      exists report profit,
        fst r = Return (Some report) /\
        SolanaSwapAgent.result report = res /\
        SolanaSwapAgent.actual_profit report = profit /\
        PyDecimal.div (PyDecimal.of_int (SwapExecutor.r_actual_profit res))
          (PyDecimal.mk 1 9) = Return profit /\
        SolanaSwapAgent.performance_stats (snd r) = updated profit true st
    | _ =>
      fst r = Return None /\
      SolanaSwapAgent.performance_stats (snd r) = st /\
      SolanaSwapAgent.swap_executor (snd r) = snd call
    end
  | _, _ =>
    fst r = Return None /\
    SolanaSwapAgent.performance_stats (snd r) = SolanaSwapAgent.count_trade st /\
    SolanaSwapAgent.swap_executor (snd r) = SolanaSwapAgent.swap_executor s
  end.
Proof. apply execute_single_opportunity_cases. Qed.

Lemma send_transaction_profit rpc instructions compute_budget tx :
  _send_transaction rpc instructions compute_budget = Some tx ->
  default 0 (SwapExecutor.actual_profit tx) = 0.
Proof.
  unfold _send_transaction.
  destruct (Rpc.get_latest_blockhash rpc) as [blockhash|]; [|discriminate].
  cbn [obind]. destruct (Rpc.send_transaction rpc _) as [signature|]; [|discriminate].
  cbn [obind]. destruct (Rpc.confirm_transaction rpc) as [confirmation|];
    [|discriminate].
  cbn [obind]. destruct (Rpc.err confirmation); [discriminate|].
  destruct (Rpc.get_transaction rpc) as [tx_details|]; [|discriminate].
  cbn. intros [= <-]. cbn. now destruct (existsb _ _).
Qed.

Lemma decimal_add_zero x y :
  PyDecimal.coefficient x = 0 -> PyDecimal.coefficient y = 0 ->
  PyDecimal.coefficient (decimal_add x y) = 0.
Proof.
  intros Hx Hy. unfold decimal_add, PyDecimal.align. rewrite Hx, Hy.
  rewrite !Z.mul_0_l. reflexivity.
Qed.

Lemma decimal_gt_zero x y :
  PyDecimal.coefficient x = 0 -> PyDecimal.coefficient y = 0 ->
  PyDecimal.gt x y = false.
Proof.
  intros Hx Hy. unfold PyDecimal.gt, PyDecimal.lt, PyDecimal.compare, PyDecimal.align.
  rewrite Hx, Hy. now rewrite !Z.mul_0_l.
Qed.

Lemma updated_no_profit profit st :
  no_profit st -> PyDecimal.coefficient profit = 0 -> no_profit (updated profit true st).
Proof.
  destruct st as [total successful tp ap lp]. unfold no_profit.
  cbn [SolanaSwapAgent.total_profit SolanaSwapAgent.average_profit
       SolanaSwapAgent.largest_profit].
  intros (Htp & Hap & Hlp) Hp. unfold updated.
  cbn -[decimal_add PyDecimal.gt PyDecimal.div Z.add].
  rewrite (decimal_gt_zero profit lp Hp Hlp).
  pose proof (decimal_add_zero tp profit Htp Hp) as Hsum.
  cbn -[decimal_add PyDecimal.gt PyDecimal.div Z.add].
  unfold PyDecimal.div. cbn [PyDecimal.of_int PyDecimal.coefficient PyDecimal.exponent].
  rewrite Hsum. cbn [Z.eqb].
  destruct (successful + 1 =? 0); cbn -[decimal_add]; auto.
Qed.

Lemma updated_counters profit success st :
  SolanaSwapAgent.total_trades (updated profit success st)
  = SolanaSwapAgent.total_trades st + 1 /\
  SolanaSwapAgent.successful_trades (updated profit success st)
  = SolanaSwapAgent.successful_trades st + (if success then 1 else 0).
Proof.
  destruct st as [total successful tp ap lp]. unfold updated.
  destruct success; cbn -[decimal_add PyDecimal.gt PyDecimal.div Z.add]; [|lia].
  destruct (PyDecimal.gt profit lp);
    cbn -[decimal_add PyDecimal.gt PyDecimal.div Z.add];
    destruct (PyDecimal.div _ _); cbn -[decimal_add Z.add]; lia.
Qed.

Lemma execute_single_opportunity_no_profit settings max_position_size backend o s :
  counted (SolanaSwapAgent.performance_stats s) ->
  no_profit (SolanaSwapAgent.performance_stats s) ->
  sends_through_rpc backend ->
  let st' := SolanaSwapAgent.performance_stats
               (snd (SolanaSwapAgent.execute_single_opportunity settings
                       max_position_size backend o s)) in
  counted st' /\ no_profit st' /\
  SolanaSwapAgent.total_trades st'
  <= SolanaSwapAgent.total_trades (SolanaSwapAgent.performance_stats s) + 1.
Proof.
  intros Hc Hn (rpc & n & budget & Hrpc). cbv zeta.
  pose proof (execute_single_opportunity_cases settings max_position_size backend
                o s Hc) as [Hc' H].
  split; [exact Hc'|].
  destruct (SolanaSwapAgent.swap_amount_of max_position_size o) as [amount|e].
  2:{ destruct H as (_ & E & _). rewrite E. split; [exact Hn|].
      destruct (SolanaSwapAgent.performance_stats s).
      cbn [SolanaSwapAgent.count_trade SolanaSwapAgent.total_trades]. lia. }
  destruct (SolanaSwapAgent.min_profit_of o) as [mp|e].
  2:{ destruct H as (_ & E & _). rewrite E. split; [exact Hn|].
      destruct (SolanaSwapAgent.performance_stats s).
      cbn [SolanaSwapAgent.count_trade SolanaSwapAgent.total_trades]. lia. }
  cbv zeta in H.
  destruct (execute_arbitrage_swap_result settings backend (SwapAgent.token_a o)
              (SwapAgent.token_b o) amount (SwapAgent.swap_path o) mp
              (SolanaSwapAgent.swap_executor s)) as [E|(res & tx & E & Htx & Hp)];
    rewrite E in H.
  - destruct H as (_ & E' & _). rewrite E'. split; [exact Hn|]. lia.
  - destruct H as (report & profit & _ & _ & _ & Ediv & E'). rewrite E'.
    rewrite Hrpc in Htx. apply send_transaction_profit in Htx.
    rewrite Htx in Hp. rewrite Hp in Ediv.
    destruct (profit_in_sol 0) as [_ (p & Ep & Hz)].
    assert (p = profit) as <- by congruence.
    split; [apply updated_no_profit; auto|].
    destruct (updated_counters p true (SolanaSwapAgent.performance_stats s)) as [-> _].
    lia.
Qed.

(** X15.  The profit the agent records is always zero.  The profit of a
    swap comes from [_send_transaction], which leaves it out or sets it to
    zero; so from statistics without profit, whatever opportunities are
    executed one after another and whatever the cluster answers, the total,
    the average and the largest profit stay zero, while trades are counted:
    at most one for each call, the successful ones among them. *)
Theorem recorded_profit_is_always_zero (settings : Settings)
    (max_position_size : float) (l : list SolanaSwapAgent.Trade)
    (s : SolanaSwapAgent.State) :
  counted (SolanaSwapAgent.performance_stats s) ->
  no_profit (SolanaSwapAgent.performance_stats s) ->
  Forall (fun t => sends_through_rpc (SolanaSwapAgent.t_backend t)) l ->
  let st' := SolanaSwapAgent.performance_stats
               (SolanaSwapAgent.trades settings max_position_size l s) in
  no_profit st' /\ counted st' /\
  SolanaSwapAgent.total_trades st'
  <= SolanaSwapAgent.total_trades (SolanaSwapAgent.performance_stats s)
     + Z.of_nat (length l).
Proof.
  revert s. induction l as [|t l IH]; intros s Hc Hn Hl; cbn [SolanaSwapAgent.trades].
  - cbv zeta. split; [exact Hn|]. split; [exact Hc|]. cbn [length Z.of_nat]. lia.
  - inversion Hl as [|t' l' Ht Hl']; subst.
    destruct (execute_single_opportunity_no_profit settings max_position_size
                (SolanaSwapAgent.t_backend t) (SolanaSwapAgent.t_opportunity t)
                s Hc Hn Ht) as (Hc1 & Hn1 & Hle).
    destruct (IH _ Hc1 Hn1 Hl') as (Hn2 & Hc2 & Hle2).
    cbv zeta. split; [exact Hn2|]. split; [exact Hc2|].
    cbv zeta in Hle, Hle2. cbn [length]. lia.
Qed.

(** X16.  For an amount from 0 to [2 ^ 53 - 1] and a slippage from 0 to
    10000 basis points [calculate_slippage_amount] raises nothing and
    returns an amount that is not negative and not above the amount given:
    the two roundings of the float computation never carry the result past
    it. *)
Theorem slippage_amount_is_within_the_amount (amount slippage_bps : Z) :
  0 <= amount < 2 ^ 53 -> 0 <= slippage_bps <= 10000 ->
  exists minimum,
    calculate_slippage_amount amount slippage_bps = Return minimum /\
    0 <= minimum <= amount.
Proof. apply slippage_within. Qed.

Lemma chained_amounts slippage_bps amount hops :
  0 <= amount < 2 ^ 53 -> 0 <= slippage_bps <= 10000 ->
  chained slippage_bps amount hops ->
  Forall (hop_amounts amount) hops.
Proof.
  intros Ha Hb. revert amount Ha. induction hops as [|hop rest IH]; intros amount Ha;
    cbn [chained]; [constructor|].
  intros (Hin & Hout & Hrest).
  destruct (slippage_within amount slippage_bps Ha Hb) as (r & Er & Hr).
  rewrite Er in Hout. injection Hout as Hout. subst r.
  constructor.
  - unfold hop_amounts. rewrite Hin. lia.
  - assert (0 <= SwapExecutor.minimum_amount_out hop < 2 ^ 53) as Ha' by lia.
    specialize (IH _ Ha' Hrest).
    eapply List.Forall_impl; [|exact IH].
    intros h [H1 H2]. split; trivial. lia.
Qed.

Lemma build_steps_known_venues settings token_a token_b len_path i dex_path
    amount acc :
  0 <= amount < 2 ^ 53 -> 0 <= max_slippage_bps settings <= 10000 ->
  Forall (fun dex_name => ~ unknown_venue dex_name) dex_path ->
  exists l, SwapExecutor.build_steps settings token_a token_b len_path i dex_path
              amount acc = Return (Some l).
Proof.
  intros Ha Hb Hk. revert i amount acc Ha.
  induction dex_path as [|dex_name rest IH]; intros i amount acc Ha;
    cbn [SwapExecutor.build_steps]; [eauto|].
  inversion Hk as [|n r Hn Hr]; subst. unfold unknown_venue in Hn.
  destruct (SwapExecutor.dex_type_map _) as [ty|]; [|congruence].
  destruct (if (i =? 0)%nat then _ else _) as [input_token output_token].
  destruct (slippage_within amount (max_slippage_bps settings) Ha Hb)
    as (r0 & Er & Hr0).
  unfold calculate_slippage_amount in Er.
  destruct (PyFloat.int_truediv _ _) as [factor|]; [|discriminate].
  cbn [obind] in *.
  destruct (PyFloat.int_mul_float _ _) as [product|]; [|discriminate].
  cbn [obind] in *. rewrite Er. cbn [obind].
  apply IH; trivial. lia.
Qed.

Lemma venues_known_or_not dex_path :
  Forall (fun dex_name => ~ unknown_venue dex_name) dex_path \/
  Exists unknown_venue dex_path.
Proof.
  induction dex_path as [|n rest [IH|IH]]; [left; constructor| |right; now right].
  unfold unknown_venue at 1.
  destruct (SwapExecutor.dex_type_map (SwapExecutor.lower n)) eqn:E.
  - left. constructor; trivial. unfold unknown_venue. congruence.
  - right. now left.
Qed.

(** X17.  With a swap amount from 0 to [2 ^ 53 - 1] and a configured
    slippage from 0 to 10000 basis points, an order is built exactly when
    every venue of the path is known: the arithmetic of the hops never
    fails.  In the order built no hop puts out more than it takes in, no
    amount is negative, and no hop takes in more than the swap amount. *)
Theorem order_is_built_when_the_venues_are_known (settings : Settings)
    (token_a token_b : string) (swap_amount : Z) (dex_path : list string)
    (min_profit : Z) :
  0 <= swap_amount < 2 ^ 53 ->
  0 <= max_slippage_bps settings <= 10000 ->
  let order := SwapExecutor._build_swap_data settings token_a token_b swap_amount
                 dex_path min_profit in
  (order = None <-> Exists unknown_venue dex_path) /\
  (forall swap_data, order = Some swap_data ->
     Forall (hop_amounts swap_amount) (SwapExecutor.swap_instructions swap_data)).
Proof.
  intros Ha Hb. cbv zeta. split; [split|].
  - intros Hnone. destruct (venues_known_or_not dex_path) as [Hall|Hex]; trivial.
    + destruct (build_steps_known_venues settings token_a token_b (length dex_path)
                  0 dex_path swap_amount [] Ha Hb Hall) as [l El].
      unfold SwapExecutor._build_swap_data in Hnone. rewrite El in Hnone.
      discriminate.
  - intros Hex. unfold SwapExecutor._build_swap_data.
    pose proof (build_steps_unknown_venue settings token_a token_b
                  (length dex_path) 0 dex_path swap_amount [] Hex) as Hn.
    destruct (SwapExecutor.build_steps _ _ _ _ _ _ _ _) as [[l|]|]; cbn in *;
      congruence.
  - intros swap_data E. apply build_swap_data_chained in E as [_ Hch].
    eapply chained_amounts; eauto.
Qed.

(** ** The wire format of an order *)

Lemma byte_of_Z_value n : 0 <= n < 256 -> Z.of_N (Byte.to_N (Executor.byte_of_Z n)) = n.
Proof.
  intros H. unfold Executor.byte_of_Z.
  destruct (Byte.of_N (Z.to_N n)) as [b|] eqn:E.
  - apply Byte.to_of_N in E. rewrite E. lia.
  - apply Byte.of_N_None_iff in E. lia.
Qed.

Lemma little_endian_length len n : length (Executor.little_endian len n) = len.
Proof. revert n. induction len as [|k IH]; intros n; cbn; congruence. Qed.

Lemma little_endian_inj len a b :
  0 <= a < 256 ^ Z.of_nat len -> 0 <= b < 256 ^ Z.of_nat len ->
  Executor.little_endian len a = Executor.little_endian len b -> a = b.
Proof.
  revert a b. induction len as [|k IH]; intros a b Ha Hb.
  - cbn in *. lia.
  - rewrite Nat2Z.inj_succ, Z.pow_succ_r in Ha, Hb by lia.
    cbn [Executor.little_endian]. intros [= Hbyte Hrest].
    apply (f_equal (fun x => Z.of_N (Byte.to_N x))) in Hbyte.
    rewrite !byte_of_Z_value in Hbyte by (apply Z.mod_pos_bound; lia).
    apply IH in Hrest.
    + rewrite (Z.div_mod a 256), (Z.div_mod b 256) by lia. congruence.
    + split; [apply Z.div_pos; lia|apply Z.div_lt_upper_bound; lia].
    + split; [apply Z.div_pos; lia|apply Z.div_lt_upper_bound; lia].
Qed.

Lemma to_bytes_cases n len :
  (0 <= n < 256 ^ Z.of_nat len /\
   Executor.to_bytes n len = Return (Executor.little_endian len n)) \/
  (~ 0 <= n < 256 ^ Z.of_nat len /\ Executor.to_bytes n len = Raise OverflowError).
Proof.
  unfold Executor.to_bytes.
  destruct (Z.leb_spec 0 n), (Z.ltb_spec n (256 ^ Z.of_nat len)); cbn;
    [left|right|right|right]; split; trivial; lia.
Qed.

Section WireFacts.
(** The decoding of a key, whose result is 32 bytes long. *)
Variable pubkey_bytes : string -> outcome (list Byte.byte).
Hypothesis key_length : forall s k, pubkey_bytes s = Return k -> length k = 32%nat.

Lemma serialize_instruction_cases i :
  (instruction_fits pubkey_bytes i /\
   exists k_in k_out,
     pubkey_bytes (SwapExecutor.token_mint_in i) = Return k_in /\
     pubkey_bytes (SwapExecutor.token_mint_out i) = Return k_out /\
     Executor.serialize_instruction pubkey_bytes i
     = Return (Executor.little_endian 1 (SwapExecutor.dex_type i)
               ++ Executor.little_endian 8 (SwapExecutor.amount_in i)
               ++ Executor.little_endian 8 (SwapExecutor.minimum_amount_out i)
               ++ k_in ++ k_out)) \/
  (~ instruction_fits pubkey_bytes i /\
   exists e, Executor.serialize_instruction pubkey_bytes i = Raise e).
Proof.
  unfold Executor.serialize_instruction, instruction_fits.
  destruct (to_bytes_cases (SwapExecutor.dex_type i) 1) as [[H1 ->]|[H1 ->]];
    cbn [obind]; [|right; split; [|eauto]; intros (H & _); apply H1; exact H].
  destruct (to_bytes_cases (SwapExecutor.amount_in i) 8) as [[H2 ->]|[H2 ->]];
    cbn [obind]; [|right; split; [|eauto]; intros (_ & H & _); apply H2; exact H].
  destruct (to_bytes_cases (SwapExecutor.minimum_amount_out i) 8)
    as [[H3 ->]|[H3 ->]];
    cbn [obind]; [|right; split; [|eauto]; intros (_ & _ & H & _); apply H3; exact H].
  destruct (pubkey_bytes (SwapExecutor.token_mint_in i)) as [k_in|e] eqn:E4;
    cbn [obind];
    [|right; split; [|eauto]; intros (_ & _ & _ & [k H] & _); discriminate].
  destruct (pubkey_bytes (SwapExecutor.token_mint_out i)) as [k_out|e] eqn:E5;
    cbn [obind];
    [|right; split; [|eauto]; intros (_ & _ & _ & _ & [k H]); discriminate].
  left. split; [|eauto 6]. repeat split; try apply H1; try apply H2; try apply H3; eauto.
Qed.

Lemma serialize_instruction_length i bytes :
  Executor.serialize_instruction pubkey_bytes i = Return bytes ->
  length bytes = 81%nat.
Proof.
  destruct (serialize_instruction_cases i)
    as [(_ & k_in & k_out & E1 & E2 & E)|(_ & e & E)]; rewrite E; [|discriminate].
  intros H. apply (f_equal (fun r => match r with Return b => length b | _ => O end)) in H.
  rewrite <- H, !length_app, !little_endian_length.
  rewrite (key_length _ _ E1), (key_length _ _ E2). reflexivity.
Qed.

Lemma serialize_instructions_cases l data :
  (Forall (instruction_fits pubkey_bytes) l /\
   exists body,
     Executor.serialize_instructions pubkey_bytes l data = Return (data ++ body) /\
     length body = (81 * length l)%nat) \/
  (~ Forall (instruction_fits pubkey_bytes) l /\
   exists e, Executor.serialize_instructions pubkey_bytes l data = Raise e).
Proof.
  revert data. induction l as [|i l IH]; intros data; cbn [Executor.serialize_instructions].
  - left. split; [constructor|]. exists []. now rewrite app_nil_r.
  - destruct (serialize_instruction_cases i)
      as [(Hfit & k_in & k_out & E1 & E2 & E)|(Hfit & e & E)].
    + pose proof (serialize_instruction_length i _ E) as Hlen.
      rewrite E. cbn [obind].
      destruct (IH (data ++ Executor.little_endian 1 (SwapExecutor.dex_type i)
                      ++ Executor.little_endian 8 (SwapExecutor.amount_in i)
                      ++ Executor.little_endian 8 (SwapExecutor.minimum_amount_out i)
                      ++ k_in ++ k_out))
        as [(Hall & body & Eb & Hb)|(Hall & e & Eb)].
      * left. split; [now constructor|].
        eexists (_ ++ body). rewrite Eb. split; [now rewrite <- app_assoc|].
        rewrite length_app, Hlen, Hb. cbn [length]. lia.
      * right. split; [|eauto]. intros H. inversion H; subst. contradiction.
    + right. rewrite E. cbn [obind]. split; [|eauto].
      intros H. inversion H; subst. contradiction.
Qed.

Lemma serialize_swap_data_shape (swap_data : SwapExecutor.SwapData) :
  let result := Executor._serialize_swap_data pubkey_bytes swap_data in
  ((exists data, result = Return data) <-> swap_data_fits pubkey_bytes swap_data) /\
  (forall data, result = Return data ->
     head data = Some Byte.x01 /\
     length data
     = (15 + 81 * length (SwapExecutor.swap_instructions swap_data))%nat).
Proof.
  cbv zeta. unfold Executor._serialize_swap_data, swap_data_fits.
  destruct (to_bytes_cases (SwapExecutor.expected_profit swap_data) 8)
    as [[H1 ->]|[H1 ->]]; cbn [obind].
  2:{ split; [split|discriminate]; [intros [? [=]]|intros (H & _); tauto]. }
  destruct (to_bytes_cases (SwapExecutor.slippage_bps swap_data) 2)
    as [[H2 ->]|[H2 ->]]; cbn [obind].
  2:{ split; [split|discriminate]; [intros [? [=]]|intros (_ & H & _); tauto]. }
  destruct (to_bytes_cases
              (Z.of_nat (length (SwapExecutor.swap_instructions swap_data))) 4)
    as [[H3 ->]|[H3 ->]]; cbn [obind].
  2:{ split; [split|discriminate]; [intros [? [=]]|].
      intros (_ & _ & H & _). exfalso. apply H3. split; [lia|exact H]. }
  match goal with
  | |- context [Executor.serialize_instructions _ _ ?d] =>
    destruct (serialize_instructions_cases
                (SwapExecutor.swap_instructions swap_data) d)
      as [(Hall & body & -> & Hb)|(Hall & e & ->)]
  end.
  - split; [split; [intros _|eauto]|].
    + repeat split; try apply H1; try apply H2; try apply H3; trivial.
    + intros data H. split.
      * apply (f_equal (fun r => match r with Return b => head b | _ => None end)) in H.
        now rewrite <- H.
      * apply (f_equal (fun r => match r with Return b => length b | _ => O end)) in H.
        rewrite <- H, !length_app, !little_endian_length, Hb. cbn [length]. lia.
  - split; [split|discriminate]; [intros [? [=]]|].
    intros (_ & _ & _ & H). contradiction.
Qed.

(** X18.  [_serialize_swap_data] returns exactly when the order fits the
    wire format: the expected profit and every amount in 8 unsigned bytes,
    the slippage in 2, the number of hops in 4, every venue type in 1, and
    every mint a key; on any other order it raises.  The data returned
    begins with the byte 1 and holds 15 bytes and 81 for each hop. *)
Theorem wire_format_of_an_order (swap_data : SwapExecutor.SwapData) :
  let result := Executor._serialize_swap_data pubkey_bytes swap_data in
  ((exists data, result = Return data) <-> swap_data_fits pubkey_bytes swap_data) /\
  (forall data, result = Return data ->
     head data = Some Byte.x01 /\
     length data
     = (15 + 81 * length (SwapExecutor.swap_instructions swap_data))%nat).
Proof. apply serialize_swap_data_shape. Qed.

Lemma serialize_instructions_chunks l data out :
  Executor.serialize_instructions pubkey_bytes l data = Return out ->
  exists chunks, Forall2 (encoded pubkey_bytes) l chunks /\ out = data ++ concat chunks.
Proof.
  revert data. induction l as [|i l IH]; intros data; cbn [Executor.serialize_instructions].
  - intros H. exists []. split; [constructor|]. cbn. rewrite app_nil_r. congruence.
  - destruct (serialize_instruction_cases i)
      as [(Hfit & k_in & k_out & E1 & E2 & E)|(Hfit & e & E)]; rewrite E;
      cbn [obind]; [|discriminate].
    intros H. apply IH in H as (chunks & Hch & ->).
    eexists (_ :: chunks). split.
    + constructor; [|exact Hch]. split; [exact Hfit|]. eauto 6.
    + cbn [concat]. now rewrite <- app_assoc.
Qed.

Lemma encoded_length i chunk : encoded pubkey_bytes i chunk -> length chunk = 81%nat.
Proof.
  intros (_ & k_in & k_out & E1 & E2 & ->).
  rewrite !length_app, !little_endian_length.
  rewrite (key_length _ _ E1), (key_length _ _ E2). reflexivity.
Qed.

Lemma encoded_inj i j chunk :
  encoded pubkey_bytes i chunk -> encoded pubkey_bytes j chunk ->
  same_instruction pubkey_bytes i j.
Proof.
  intros (Hi & ki_in & ki_out & Ei1 & Ei2 & ->) (Hj & kj_in & kj_out & Ej1 & Ej2 & E).
  destruct Hi as (Hi1 & Hi2 & Hi3 & _), Hj as (Hj1 & Hj2 & Hj3 & _).
  apply app_inj_1 in E as [E1 E]; [|now rewrite !little_endian_length].
  apply app_inj_1 in E as [E2 E]; [|now rewrite !little_endian_length].
  apply app_inj_1 in E as [E3 E]; [|now rewrite !little_endian_length].
  apply app_inj_1 in E as [E4 E5];
    [|now rewrite (key_length _ _ Ei1), (key_length _ _ Ej1)].
  apply little_endian_inj in E1; [|exact Hi1|exact Hj1].
  apply little_endian_inj in E2; [|exact Hi2|exact Hj2].
  apply little_endian_inj in E3; [|exact Hi3|exact Hj3].
  unfold same_instruction. repeat split; congruence.
Qed.

Lemma chunks_inj l1 l2 c1 c2 :
  Forall2 (encoded pubkey_bytes) l1 c1 -> Forall2 (encoded pubkey_bytes) l2 c2 ->
  length l1 = length l2 -> concat c1 = concat c2 ->
  Forall2 (same_instruction pubkey_bytes) l1 l2.
Proof.
  intros H1. revert l2 c2. induction H1 as [|i chunk l1 c1 Hi H1 IH];
    intros l2 c2 H2 Hlen Hcat.
  - destruct l2; [constructor|discriminate].
  - destruct H2 as [|j chunk' l2 c2 Hj H2]; [discriminate|].
    cbn [concat] in Hcat. apply app_inj_1 in Hcat as [-> Hcat];
      [|now rewrite (encoded_length _ _ Hi), (encoded_length _ _ Hj)].
    constructor; [eapply encoded_inj; eauto|].
    eapply IH; eauto.
Qed.

(** X19.  Two orders that serialize to the same data are the same order as
    far as the program on chain can tell: the same expected profit and
    slippage, and the same hops in the same order, venue type for venue
    type, amount for amount, and mint for mint (as keys). *)
Theorem wire_format_is_injective (d1 d2 : SwapExecutor.SwapData) (data : list Byte.byte) :
  Executor._serialize_swap_data pubkey_bytes d1 = Return data ->
  Executor._serialize_swap_data pubkey_bytes d2 = Return data ->
  SwapExecutor.expected_profit d1 = SwapExecutor.expected_profit d2 /\
  SwapExecutor.slippage_bps d1 = SwapExecutor.slippage_bps d2 /\
  Forall2 (same_instruction pubkey_bytes)
    (SwapExecutor.swap_instructions d1) (SwapExecutor.swap_instructions d2).
Proof.
  assert (forall d out,
            Executor._serialize_swap_data pubkey_bytes d = Return out ->
            0 <= SwapExecutor.expected_profit d < 256 ^ Z.of_nat 8 /\
            0 <= SwapExecutor.slippage_bps d < 256 ^ Z.of_nat 2 /\
            0 <= Z.of_nat (length (SwapExecutor.swap_instructions d))
              < 256 ^ Z.of_nat 4 /\
            exists chunks,
              Forall2 (encoded pubkey_bytes) (SwapExecutor.swap_instructions d) chunks /\
              out = [Byte.x01]
                    ++ Executor.little_endian 8 (SwapExecutor.expected_profit d)
                    ++ Executor.little_endian 2 (SwapExecutor.slippage_bps d)
                    ++ Executor.little_endian 4
                         (Z.of_nat (length (SwapExecutor.swap_instructions d)))
                    ++ concat chunks) as Hshape.
  { intros d out. unfold Executor._serialize_swap_data.
    destruct (to_bytes_cases (SwapExecutor.expected_profit d) 8)
      as [[H1 ->]|[H1 ->]]; cbn [obind]; [|discriminate].
    destruct (to_bytes_cases (SwapExecutor.slippage_bps d) 2)
      as [[H2 ->]|[H2 ->]]; cbn [obind]; [|discriminate].
    destruct (to_bytes_cases (Z.of_nat (length (SwapExecutor.swap_instructions d))) 4)
      as [[H3 ->]|[H3 ->]]; cbn [obind]; [|discriminate].
    intros H. apply serialize_instructions_chunks in H as (chunks & Hch & ->).
    split; [exact H1|]. split; [exact H2|]. split; [exact H3|].
    exists chunks. split; [exact Hch|]. now rewrite <- !app_assoc. }
  intros E1 E2.
  apply Hshape in E1 as (P1 & S1 & C1 & chunks1 & Hch1 & ->).
  apply Hshape in E2 as (P2 & S2 & C2 & chunks2 & Hch2 & E).
  apply app_inj_1 in E as [_ E]; [|reflexivity].
  apply app_inj_1 in E as [EP E]; [|now rewrite !little_endian_length].
  apply app_inj_1 in E as [ES E]; [|now rewrite !little_endian_length].
  apply app_inj_1 in E as [EC E]; [|now rewrite !little_endian_length].
  apply little_endian_inj in EP; trivial.
  apply little_endian_inj in ES; trivial.
  apply little_endian_inj in EC; trivial.
  repeat split; trivial.
  eapply chunks_inj; eauto. lia.
Qed.

End WireFacts.

(** ** The data of the initialize instruction *)

Lemma serialize_instructions_prefix pubkey_bytes l data out :
  Executor.serialize_instructions pubkey_bytes l data = Return out ->
  exists body, out = data ++ body.
Proof.
  revert data. induction l as [|i l IH]; intros data;
    cbn [Executor.serialize_instructions].
  - intros [= <-]. exists []. now rewrite app_nil_r.
  - destruct (Executor.serialize_instruction pubkey_bytes i) as [bytes|];
      cbn [obind]; [|discriminate].
    intros H. apply IH in H as [body ->]. exists (bytes ++ body).
    now rewrite app_assoc.
Qed.

(** X20.  The data [_build_initialize_instruction] makes is 11 bytes, the
    byte 0 and then the threshold in 8 bytes and the slippage in 2, when
    the threshold is from 0 to [2 ^ 64 - 1] and the slippage from 0 to
    [2 ^ 16 - 1]; with any other values it raises [OverflowError].  The
    data determines the two values, and it is never the data of a swap,
    which begins with the byte 1. *)
Theorem initialize_data_is_eleven_bytes (min_profit_threshold max_slippage_bps : Z) :
  let result := Executor.initialize_data min_profit_threshold max_slippage_bps in
  (if (0 <=? min_profit_threshold) && (min_profit_threshold <? 2 ^ 64)
      && (0 <=? max_slippage_bps) && (max_slippage_bps <? 2 ^ 16)
   then exists data, result = Return data /\ length data = 11%nat /\
                     head data = Some Byte.x00
   else result = Raise OverflowError) /\
  (forall threshold' slippage' data,
     result = Return data ->
     Executor.initialize_data threshold' slippage' = Return data ->
     threshold' = min_profit_threshold /\ slippage' = max_slippage_bps) /\
  (forall pubkey_bytes swap_data data,
     result = Return data ->
     Executor._serialize_swap_data pubkey_bytes swap_data <> Return data).
Proof.
  cbv zeta.
  assert (forall t s data,
            Executor.initialize_data t s = Return data ->
            0 <= t < 256 ^ Z.of_nat 8 /\ 0 <= s < 256 ^ Z.of_nat 2 /\
            data = [Byte.x00] ++ Executor.little_endian 8 t
                   ++ Executor.little_endian 2 s) as Hshape.
  { intros t s data. unfold Executor.initialize_data.
    destruct (to_bytes_cases t 8) as [[H1 ->]|[H1 ->]]; cbn [obind]; [|discriminate].
    destruct (to_bytes_cases s 2) as [[H2 ->]|[H2 ->]]; cbn [obind]; [|discriminate].
    intros [= <-]. auto. }
  split; [|split].
  - unfold Executor.initialize_data.
    destruct (to_bytes_cases min_profit_threshold 8) as [[H1 ->]|[H1 ->]];
      destruct (to_bytes_cases max_slippage_bps 2) as [[H2 ->]|[H2 ->]];
      cbn [obind]; change (256 ^ Z.of_nat 8) with (2 ^ 64) in H1;
      change (256 ^ Z.of_nat 2) with (2 ^ 16) in H2.
    + replace (0 <=? min_profit_threshold) with true by (symmetry; apply Z.leb_le; lia).
      replace (min_profit_threshold <? 2 ^ 64) with true
        by (symmetry; apply Z.ltb_lt; lia).
      replace (0 <=? max_slippage_bps) with true by (symmetry; apply Z.leb_le; lia).
      replace (max_slippage_bps <? 2 ^ 16) with true
        by (symmetry; apply Z.ltb_lt; lia).
      cbn [andb]. eexists. split; [reflexivity|]. split; [|reflexivity].
      rewrite !length_app, !little_endian_length. reflexivity.
    + destruct (Z.leb_spec 0 max_slippage_bps), (Z.ltb_spec max_slippage_bps (2 ^ 16));
        rewrite ?andb_false_r; cbn [andb]; trivial; lia.
    + destruct (Z.leb_spec 0 min_profit_threshold),
        (Z.ltb_spec min_profit_threshold (2 ^ 64)); cbn [andb]; trivial; lia.
    + destruct (Z.leb_spec 0 min_profit_threshold),
        (Z.ltb_spec min_profit_threshold (2 ^ 64)); cbn [andb]; trivial; lia.
  - intros t' s' data E E'.
    apply Hshape in E as (H1 & H2 & ->). apply Hshape in E' as (H1' & H2' & E).
    apply app_inj_1 in E as [_ E]; [|reflexivity].
    apply app_inj_1 in E as [Et Es]; [|now rewrite !little_endian_length].
    apply little_endian_inj in Et; trivial.
    apply little_endian_inj in Es; trivial. auto.
  - intros pubkey_bytes swap_data data E E'.
    apply Hshape in E as (_ & _ & ->).
    unfold Executor._serialize_swap_data in E'.
    destruct (Executor.to_bytes (SwapExecutor.expected_profit swap_data) 8);
      cbn [obind] in E'; [|discriminate].
    destruct (Executor.to_bytes (SwapExecutor.slippage_bps swap_data) 2);
      cbn [obind] in E'; [|discriminate].
    destruct (Executor.to_bytes _ 4); cbn [obind] in E'; [|discriminate].
    apply serialize_instructions_prefix in E' as [body E']. discriminate E'.
Qed.

Lemma dex_type_range name ty : SwapExecutor.dex_type_map name = Some ty -> 0 <= ty < 4.
Proof.
  unfold SwapExecutor.dex_type_map.
  repeat (destruct (String.eqb name _); [intros [= <-]; lia|]). discriminate.
Qed.

Lemma Forall2_nth_error {A B} (R : A -> B -> Prop) l1 l2 k y :
  Forall2 R l1 l2 -> nth_error l2 k = Some y -> exists x, In x l1 /\ R x y.
Proof.
  intros H. revert k. induction H as [|a b l1 l2 Hab H IH]; intros [|k]; cbn;
    try discriminate.
  - intros [= <-]. eauto.
  - intros Hk. destruct (IH k Hk) as (x & Hin & Hx). eauto.
Qed.

(** X21.  An order the executor builds can always be serialized, when the
    swap amount is from 0 to [2 ^ 53 - 1], the configured slippage from 0 to
    10000 basis points, the minimum profit fits 8 unsigned bytes, the path
    has fewer than [2 ^ 32] venues and the two tokens are keys:
    [_serialize_swap_data] then returns, 15 bytes and 81 for each venue of
    the path. *)
Theorem built_order_fits_the_wire_format (pubkey_bytes : string -> outcome (list Byte.byte))
    (settings : Settings) (token_a token_b : string) (swap_amount : Z)
    (dex_path : list string) (min_profit : Z) (swap_data : SwapExecutor.SwapData) :
  (forall s k, pubkey_bytes s = Return k -> length k = 32%nat) ->
  0 <= swap_amount < 2 ^ 53 ->
  0 <= max_slippage_bps settings <= 10000 ->
  0 <= min_profit < 2 ^ 64 ->
  Z.of_nat (length dex_path) < 2 ^ 32 ->
  (exists k, pubkey_bytes token_a = Return k) ->
  (exists k, pubkey_bytes token_b = Return k) ->
  SwapExecutor._build_swap_data settings token_a token_b swap_amount dex_path
    min_profit = Some swap_data ->
  exists data,
    Executor._serialize_swap_data pubkey_bytes swap_data = Return data /\
    length data = (15 + 81 * length dex_path)%nat.
Proof.
  intros Hkey Ha Hb Hp Hlen Hka Hkb E.
  pose proof (build_swap_data_chained _ _ _ _ _ _ _ E) as [Hl Hch].
  pose proof (chained_amounts _ _ _ Ha Hb Hch) as Hamounts.
  pose proof E as E'.
  unfold SwapExecutor._build_swap_data in E'.
  destruct (SwapExecutor.build_steps _ _ _ _ _ _ _ _) as [[l|]|] eqn:Esteps;
    try discriminate.
  apply build_steps_hops in Esteps as (hops & -> & Hven & Hdir).
  cbn in E'. injection E' as <-. cbn [SwapExecutor.swap_instructions] in *.
  destruct (serialize_swap_data_shape pubkey_bytes Hkey
              {| SwapExecutor.expected_profit := min_profit;
                 SwapExecutor.slippage_bps := max_slippage_bps settings;
                 SwapExecutor.swap_instructions := hops |}) as [[_ Hfit] Hshape].
  destruct Hfit as [data Edata].
  - unfold swap_data_fits. cbn. repeat split; try lia.
    apply List.Forall_forall. intros hop Hin.
    apply In_nth_error in Hin as [k Hk].
    destruct (Forall2_nth_error _ _ _ _ _ Hven Hk) as (name & _ & Hname).
    apply dex_type_range in Hname.
    specialize (Hdir k hop Hk).
    pose proof (proj1 (List.Forall_forall _ _) Hamounts hop
                  (nth_error_In _ _ Hk)) as [Hout Hin].
    assert (2 ^ 53 < 2 ^ 64) by now cbn.
    unfold instruction_fits. repeat split; try lia.
    + unfold hop_direction in Hdir.
      destruct (0 + k =? 0)%nat; destruct Hdir as [-> _]; assumption.
    + unfold hop_direction in Hdir.
      destruct (0 + k =? 0)%nat; destruct Hdir as [_ ->]; assumption.
  - exists data. split; trivial. destruct (Hshape data Edata) as [_ ->].
    cbn [SwapExecutor.swap_instructions]. now rewrite <- Hl.
Qed.

(** ** The statistics report *)

Lemma within_to_Q K x :
  within K x -> 0 <= K -> (0 <= PyFloat.to_Q x <= inject_Z K)%Q.
Proof.
  intros Hx HK. destruct x as [s| | |[] m e]; cbn in Hx; try tauto.
  - cbn. split; unfold Qle; cbn; lia.
  - destruct Hx as [He Hm]. unfold PyFloat.to_Q.
    assert (0 < 2 ^ e)%Q as Hp by (now apply Qpower_0_lt).
    split.
    + apply Qmult_le_0_compat; [unfold Qle; cbn; lia|]. now apply Qlt_le_weak.
    + assert ((2 ^ e == / inject_Z (2 ^ (- e)))%Q) as E.
      { rewrite (Zpower_Qpower 2 (- e)) by lia. change (inject_Z 2) with 2%Q.
        rewrite Qpower_opp, Qinv_involutive. reflexivity. }
      rewrite E.
      assert (0 < inject_Z (2 ^ (- e)))%Q as Hq.
      { assert (0 < 2 ^ (- e)) by (apply Z.pow_pos_nonneg; lia).
        unfold Qlt, inject_Z. cbn. lia. }
      apply Qle_shift_div_r; trivial.
      rewrite <- inject_Z_mult, <- Zle_Qle. exact Hm.
Qed.

(** X22.  The report of the executor's statistics, for counters in order
    ([0 <= successful_swaps <= total_attempts]): computing it raises
    nothing; before the first attempt the success rate is the integer 0, and
    after it a float between 0 and 100. *)
Theorem success_rate_is_a_percentage (st : SwapExecutor.ExecutionStats)
    (pending : nat) :
  0 <= SwapExecutor.successful_swaps st <= SwapExecutor.total_attempts st ->
  exists report,
    Executor.get_execution_stats st pending = Return report /\
    Executor.stats report = st /\
    Executor.pending_transactions report = Z.of_nat pending /\
    match Executor.success_rate report with
    | Int n => n = 0 /\ SwapExecutor.total_attempts st = 0
    | Float rate =>
      0 < SwapExecutor.total_attempts st /\
      PyFloat.is_nan rate = false /\
      (0 <= PyFloat.to_Q rate <= 100)%Q
    end.
Proof.
  intros H. unfold Executor.get_execution_stats.
  destruct (Z.ltb_spec 0 (SwapExecutor.total_attempts st)) as [Ht|Ht].
  - destruct (int_truediv_within 1 (SwapExecutor.successful_swaps st)
                (SwapExecutor.total_attempts st)) as (ratio & -> & Hr); try lia.
    cbn [obind]. unfold PyFloat.float_mul_int. rewrite of_int_100. cbn [obind].
    assert (within 100 (S754_finite false 7036874417766400 (-46))) as H100.
    { cbn. split; [lia|]. now cbn. }
    pose proof (fmul_within 1 100 _ _ Hr H100 ltac:(lia) ltac:(lia) ltac:(now cbn))
      as Hw.
    eexists. split; [reflexivity|]. cbn. repeat split; trivial.
    + destruct (PyFloat.fmul _ _) as [| | |[]]; cbn in Hw; tauto.
    + apply (within_to_Q 100) in Hw; [apply Hw|lia].
    + apply (within_to_Q 100) in Hw; [apply Hw|lia].
  - eexists. split; [reflexivity|]. cbn. repeat split; trivial. lia.
Qed.

(** ** The digits of a coefficient *)

Lemma digits_fuel_spec fuel n :
  0 < n -> Z.log2 n <= Z.of_nat fuel ->
  1 <= PyDecimal.digits_fuel fuel n /\
  10 ^ (PyDecimal.digits_fuel fuel n - 1) <= n < 10 ^ PyDecimal.digits_fuel fuel n.
Proof.
  revert n. induction fuel as [|k IH]; intros n Hn Hlog; cbn [PyDecimal.digits_fuel].
  - assert (n < 2 ^ 1); [|cbn; lia].
    apply Z.log2_lt_pow2; lia.
  - destruct (Z.ltb_spec n 10) as [H|H]; [cbn; lia|].
    assert (0 < n / 10) as Hq by (apply Z.div_str_pos; lia).
    assert (Z.log2 (n / 10) <= Z.of_nat k) as Hlog'.
    { assert (Z.log2 (n / 10) <= Z.log2 (n / 2 ^ 1)) as H1.
      { apply Z.log2_le_mono. change (2 ^ 1) with 2.
        apply Z.div_le_compat_l; lia. }
      rewrite <- Z.shiftr_div_pow2, Z.log2_shiftr in H1 by lia. lia. }
    destruct (IH (n / 10) Hq Hlog') as [H1 [H2 H3]].
    split; [lia|].
    replace (1 + PyDecimal.digits_fuel k (n / 10) - 1)
      with (Z.succ (PyDecimal.digits_fuel k (n / 10) - 1)) by lia.
    replace (1 + PyDecimal.digits_fuel k (n / 10))
      with (Z.succ (PyDecimal.digits_fuel k (n / 10))) by lia.
    rewrite !Z.pow_succ_r by lia.
    pose proof (Z.div_mod n 10 ltac:(lia)) as Hdm.
    pose proof (Z.mod_pos_bound n 10 ltac:(lia)). lia.
Qed.

Lemma num_digits_spec n :
  n <> 0 ->
  1 <= PyDecimal.num_digits n /\
  10 ^ (PyDecimal.num_digits n - 1) <= Z.abs n < 10 ^ PyDecimal.num_digits n.
Proof.
  intros Hn. unfold PyDecimal.num_digits.
  apply digits_fuel_spec.
  - lia.
  - rewrite Z2Nat.id; [lia|apply Z.log2_nonneg].
Qed.

Lemma num_digits_unique n d :
  1 <= d -> 10 ^ (d - 1) <= Z.abs n < 10 ^ d -> PyDecimal.num_digits n = d.
Proof.
  intros Hd [H1 H2].
  assert (n <> 0) as Hn.
  { assert (0 < 10 ^ (d - 1)) by (apply Z.pow_pos_nonneg; lia). lia. }
  destruct (num_digits_spec n Hn) as (H0 & H3 & H4).
  set (nd := PyDecimal.num_digits n) in *.
  destruct (Z.lt_trichotomy nd d) as [Hlt|[->|Hgt]]; trivial; exfalso.
  - assert (10 ^ nd <= 10 ^ (d - 1)) by (apply Z.pow_le_mono_r; lia). lia.
  - assert (10 ^ d <= 10 ^ (nd - 1)) by (apply Z.pow_le_mono_r; lia). lia.
Qed.

Lemma num_digits_scaled n k :
  n <> 0 -> 0 <= k ->
  PyDecimal.num_digits (n * 10 ^ k) = PyDecimal.num_digits n + k.
Proof.
  intros Hn Hk. destruct (num_digits_spec n Hn) as (H0 & H1 & H2).
  assert (0 < 10 ^ k) by (apply Z.pow_pos_nonneg; lia).
  apply num_digits_unique; [lia|].
  rewrite Z.abs_mul, (Z.abs_eq (10 ^ k)) by lia.
  replace (PyDecimal.num_digits n + k - 1) with (PyDecimal.num_digits n - 1 + k) by lia.
  rewrite !Z.pow_add_r by lia. nia.
Qed.

Lemma div_half_even_exact a k :
  0 <= k -> PyDecimal.div_half_even (a * 10 ^ k) (10 ^ k) = a.
Proof.
  intros Hk. assert (0 < 10 ^ k) by (apply Z.pow_pos_nonneg; lia).
  unfold PyDecimal.div_half_even.
  rewrite Z.mod_mul, Z.div_mul by lia.
  destruct (Z.compare_spec (2 * 0) (10 ^ k)); lia.
Qed.

(** A coefficient of 28 digits followed by zeros is rounded to these 28
    digits, exactly. *)
Lemma fix_trailing_zeros a k e :
  PyDecimal.num_digits a = 28 -> 0 <= k ->
  PyDecimal.fix_ (PyDecimal.mk (a * 10 ^ k) e) = PyDecimal.mk a (e + k).
Proof.
  intros Ha Hk. destruct (Z.eq_dec k 0) as [->|Hk0].
  { rewrite Z.mul_1_r, Z.add_0_r. apply fix_exact. cbn. rewrite Ha.
    unfold PyDecimal.context_prec. lia. }
  assert (a <> 0) as Hnz by (intros ->; discriminate).
  destruct (num_digits_spec a Hnz) as (_ & H1 & H2). rewrite Ha in H1, H2.
  unfold PyDecimal.fix_. cbn [PyDecimal.coefficient PyDecimal.exponent].
  rewrite num_digits_scaled, Ha by lia. unfold PyDecimal.context_prec.
  replace (28 + k <=? 28) with false by (symmetry; apply Z.leb_gt; lia).
  replace (28 + k - 28) with k by lia.
  assert (0 < 10 ^ k) by (apply Z.pow_pos_nonneg; lia).
  rewrite Z.abs_mul, (Z.abs_eq (10 ^ k)), div_half_even_exact by lia.
  replace (Z.abs a =? 10 ^ 28) with false by (symmetry; apply Z.eqb_neq; lia).
  f_equal.
  rewrite Z.sgn_mul, (Z.sgn_pos (10 ^ k)) by lia.
  rewrite Z.mul_1_r. lia.
Qed.

(** X23.  Lamports survive the trip to SOL and back: for fewer than 28
    digits of lamports, of either sign, [lamports_to_sol] returns a decimal
    worth exactly a billionth of the lamports each, and [sol_to_lamports]
    of it returns the lamports. *)
Theorem lamports_round_trip (lamports : Z) :
  Z.abs lamports < 10 ^ 28 ->
  exists sol,
    lamports_to_sol lamports = Return sol /\
    (PyDecimal.to_Q sol == inject_Z lamports / 1000000000)%Q /\
    sol_to_lamports sol = lamports.
Proof.
  intros Hl. unfold lamports_to_sol, sol_to_lamports.
  destruct (Z.eq_dec lamports 0) as [->|Hn].
  { eexists. split; [reflexivity|]. split; reflexivity. }
  destruct (num_digits_spec lamports Hn) as (H0 & H1 & H2).
  set (nd := PyDecimal.num_digits lamports) in *.
  assert (nd <= 28) as Hnd.
  { destruct (Z.le_gt_cases nd 28) as [|Hgt]; trivial.
    assert (10 ^ 28 <= 10 ^ (nd - 1)) by (apply Z.pow_le_mono_r; lia). lia. }
  set (t := 28 - nd).
  assert (PyDecimal.num_digits (lamports * 10 ^ t) = 28) as Hd28.
  { rewrite num_digits_scaled by lia. fold nd. lia. }
  assert (0 < 10 ^ t) as Ht by (apply Z.pow_pos_nonneg; lia).
  assert (PyDecimal.div (PyDecimal.of_int lamports) (PyDecimal.of_int 1000000000)
          = Return (PyDecimal.mk (lamports * 10 ^ t) (- (t + 9)))) as Ediv.
  { unfold PyDecimal.div.
    cbn [PyDecimal.of_int PyDecimal.coefficient PyDecimal.exponent].
    change (1000000000 =? 0) with false. cbn [negb].
    replace (lamports =? 0) with false by (symmetry; now apply Z.eqb_neq).
    change (PyDecimal.num_digits 1000000000) with 10. fold nd.
    unfold PyDecimal.context_prec.
    replace (10 - nd + 28 + 1) with (t + 11) by (subst t; lia).
    replace (0 <=? t + 11) with true by (symmetry; apply Z.leb_le; lia).
    change (Z.abs 1000000000) with (10 ^ 9).
    replace (Z.abs lamports * 10 ^ (t + 11))
      with (Z.abs lamports * 10 ^ (t + 2) * 10 ^ 9)
      by (rewrite <- Z.mul_assoc, <- Z.pow_add_r by lia; do 2 f_equal; lia).
    rewrite Z.mod_mul, Z.div_mul by now cbn.
    cbn [Z.eqb]. change (Z.sgn 1000000000) with 1. rewrite Z.mul_1_r.
    replace (Z.sgn lamports * (Z.abs lamports * 10 ^ (t + 2)))
      with (lamports * 10 ^ t * 10 ^ 2)
      by (rewrite Z.pow_add_r by lia; nia).
    rewrite fix_trailing_zeros by (trivial; lia).
    do 2 f_equal. lia. }
  rewrite Ediv. eexists. split; [reflexivity|]. split.
  - unfold PyDecimal.to_Q. cbn [PyDecimal.coefficient PyDecimal.exponent].
    rewrite inject_Z_mult, (Zpower_Qpower 10 t) by lia.
    change (inject_Z 10) with 10%Q.
    replace (- (t + 9)) with (- t + - 9) by lia.
    rewrite Qpower_plus by discriminate. rewrite Qpower_opp.
    change (10 ^ (- 9))%Q with (/ 1000000000)%Q.
    field. apply Qnot_eq_sym, Qlt_not_eq, Qpower_10_pos.
  - unfold PyDecimal.mul.
    cbn [PyDecimal.of_int PyDecimal.coefficient PyDecimal.exponent].
    change 1000000000 with (10 ^ 9).
    rewrite fix_trailing_zeros by (trivial; lia).
    unfold decimal_to_int. cbn [PyDecimal.coefficient PyDecimal.exponent].
    replace (- (t + 9) + 0 + 9) with (- t) by lia.
    destruct (Z.leb_spec 0 (- t)) as [H|H].
    + replace t with 0 by lia. cbn. lia.
    + rewrite Z.opp_involutive. apply Z.quot_mul. lia.
Qed.

(** ** Strings *)

Lemma chars_append s1 s2 :
  list_ascii_of_string (s1 +:+ s2)
  = list_ascii_of_string s1 ++ list_ascii_of_string s2.
Proof.
  induction s1 as [|c s1 IH]; [reflexivity|].
  change (String c s1 +:+ s2) with (String c (s1 +:+ s2)).
  cbn [list_ascii_of_string app]. now rewrite IH.
Qed.

Lemma chars_length s : length (list_ascii_of_string s) = String.length s.
Proof. induction s as [|c s IH]; cbn; congruence. Qed.

(** X24.  [truncate_address] returns an address of at most
    [start_chars + end_chars] characters unchanged.  A longer one it cuts to
    its first [start_chars] characters, three dots and its last [end_chars]
    characters, [start_chars + end_chars + 3] characters in all, when
    [end_chars] is positive; with [end_chars = 0] the slice
    [address[-0:]] is the whole address, and the result is the first
    [start_chars] characters, three dots and the address again. *)
Theorem truncate_address_keeps_both_ends (address : string)
    (start_chars end_chars : nat) :
  let chars := list_ascii_of_string address in
  let result := list_ascii_of_string
                  (truncate_address address (Z.of_nat start_chars)
                     (Z.of_nat end_chars)) in
  let dots := list_ascii_of_string "..." in
  if (length chars <=? start_chars + end_chars)%nat then result = chars
  else
    match end_chars with
    | O => result = firstn start_chars chars ++ dots ++ chars
    | S _ =>
      result = firstn start_chars chars ++ dots
               ++ skipn (length chars - end_chars) chars /\
      length result = (start_chars + 3 + end_chars)%nat
    end.
Proof.
  cbv zeta. unfold truncate_address. rewrite chars_length.
  destruct (Nat.leb_spec (String.length address) (start_chars + end_chars)) as [H|H].
  - replace (Z.of_nat (String.length address) <=? _) with true
      by (symmetry; apply Z.leb_le; lia). reflexivity.
  - replace (Z.of_nat (String.length address) <=? _) with false
      by (symmetry; apply Z.leb_gt; lia).
    rewrite !chars_append. unfold str_slice_to, str_slice_from, slice_to, slice_from.
    rewrite !list_ascii_of_string_of_list_ascii.
    replace (0 <=? Z.of_nat start_chars) with true by (symmetry; apply Z.leb_le; lia).
    rewrite Nat2Z.id. destruct end_chars as [|n].
    + reflexivity.
    + replace (- Z.of_nat (S n) <? 0) with true by (symmetry; apply Z.ltb_lt; lia).
      rewrite Z.opp_involutive, Nat2Z.id, chars_length. split; [reflexivity|].
      rewrite !length_app, length_firstn, length_skipn, chars_length.
      change (length (list_ascii_of_string "...")) with 3%nat. lia.
Qed.

(** ** The venues of the configuration *)

(** X25.  The configuration and the executor know the same venues: a name
    has a configuration in [DexConfig] exactly when, in lower case, it has a
    type in the table of [_build_swap_data]; the configuration found is the
    one named so, case set aside, and its position in [get_all_dexes] is the
    type of the venue. *)
Theorem configured_venues_are_the_known_venues (jupiter_api_url raydium_api_url : string)
    (name : string) :
  match DexConfig.get_dex_by_name jupiter_api_url raydium_api_url name,
        SwapExecutor.dex_type_map (SwapExecutor.lower name) with
  | Some dex, Some ty =>
    SwapExecutor.lower (DexConfig.name dex) = SwapExecutor.lower name /\
    nth_error (DexConfig.get_all_dexes jupiter_api_url raydium_api_url) (Z.to_nat ty)
    = Some dex
  | None, None => True
  | _, _ => False
  end.
Proof.
  unfold DexConfig.get_dex_by_name, DexConfig.get_all_dexes, SwapExecutor.dex_type_map.
  cbn [List.find DexConfig.name DexConfig.JUPITER DexConfig.RAYDIUM
       DexConfig.PHOENIX DexConfig.METEORA].
  change (SwapExecutor.lower "Jupiter") with "jupiter"%string.
  change (SwapExecutor.lower "Raydium") with "raydium"%string.
  change (SwapExecutor.lower "Phoenix") with "phoenix"%string.
  change (SwapExecutor.lower "Meteora") with "meteora"%string.
  rewrite !(String.eqb_sym _ (SwapExecutor.lower name)).
  destruct (String.eqb_spec (SwapExecutor.lower name) "jupiter") as [->|_];
    [now split|].
  destruct (String.eqb_spec (SwapExecutor.lower name) "raydium") as [->|_];
    [now split|].
  destruct (String.eqb_spec (SwapExecutor.lower name) "phoenix") as [->|_];
    [now split|].
  destruct (String.eqb_spec (SwapExecutor.lower name) "meteora") as [->|_];
    [now split|]. exact I.
Qed.

(** ** The address of a request *)

Lemma rstrip_slash_app_slash s : rstrip_slash (s +:+ "/") = rstrip_slash s.
Proof.
  induction s as [|c s IH]; [reflexivity|].
  change (String c s +:+ "/") with (String c (s +:+ "/")).
  cbn [rstrip_slash]. now rewrite IH.
Qed.

Lemma lstrip_slash_head s c rest :
  lstrip_slash s = String c rest -> c <> "/"%char.
Proof.
  induction s as [|c' s IH]; [discriminate|]. cbn [lstrip_slash].
  destruct (Ascii.eqb_spec c' "/") as [->|H]; [exact IH|].
  intros [= <- _]. exact H.
Qed.

Lemma append_slash_nonempty prefix : prefix +:+ "/" <> EmptyString.
Proof. now destruct prefix. Qed.

Lemma rstrip_slash_last s prefix :
  rstrip_slash s <> prefix +:+ "/".
Proof.
  revert prefix. induction s as [|c s IH]; intros prefix; cbn [rstrip_slash].
  - intros H. symmetry in H. now apply append_slash_nonempty in H.
  - destruct (rstrip_slash s) as [|c' s'] eqn:E.
    + destruct (Ascii.eqb_spec c "/") as [->|H].
      * intros H. symmetry in H. now apply append_slash_nonempty in H.
      * destruct prefix as [|p prefix].
        -- intros [= Hc]. contradiction.
        -- change (String p prefix +:+ "/") with (String p (prefix +:+ "/")).
           intros [= _ Hr]. symmetry in Hr. now apply append_slash_nonempty in Hr.
    + destruct prefix as [|p prefix].
      * intros [= _ Hr].
      * change (String p prefix +:+ "/") with (String p (prefix +:+ "/")).
        intros [= _ Hr]. now apply (IH prefix).
Qed.

(** X26.  The address of a request is the base address and the endpoint
    joined by one slash, whatever slashes the base ends with or the endpoint
    begins with: the base part does not end in a slash, the endpoint part
    does not begin with one, and writing either with one slash more gives
    the same address. *)
Theorem request_url_has_one_joining_slash (api_url endpoint : string) :
  (exists base path,
     request_url api_url endpoint = base +:+ "/" +:+ path /\
     (forall prefix, base <> prefix +:+ "/") /\
     (forall rest, path <> String "/" rest)) /\
  request_url (api_url +:+ "/") endpoint = request_url api_url endpoint /\
  request_url api_url (String "/" endpoint) = request_url api_url endpoint.
Proof.
  split; [|split].
  - exists (rstrip_slash api_url), (lstrip_slash endpoint).
    split; [reflexivity|]. split.
    + intros prefix. apply rstrip_slash_last.
    + intros rest H. now apply lstrip_slash_head in H.
  - unfold request_url. now rewrite rstrip_slash_app_slash.
  - reflexivity.
Qed.

(** ** A venue without prices *)

Lemma iteration_without_prices settings dex_name l :
  PriceMonitor.iteration settings dex_name l (PriceMonitor.Polled ∅)
  = if (PriceMonitor.max_failures <=? S (PriceMonitor.consecutive_failures l))%nat
    then ({| PriceMonitor.consecutive_failures := 0;
             PriceMonitor.store := PriceMonitor.store l |},
          [30%Q; price_update_interval settings])
    else ({| PriceMonitor.consecutive_failures :=
               S (PriceMonitor.consecutive_failures l);
             PriceMonitor.store := PriceMonitor.store l |},
          [price_update_interval settings]).
Proof.
  unfold PriceMonitor.iteration. now rewrite bool_decide_eq_true_2 by reflexivity.
Qed.

Lemma run_cons settings dex_name l p rest :
  PriceMonitor.run settings dex_name l (p :: rest)
  = (fst (PriceMonitor.run settings dex_name
            (fst (PriceMonitor.iteration settings dex_name l p)) rest),
     snd (PriceMonitor.iteration settings dex_name l p)
     :: snd (PriceMonitor.run settings dex_name
               (fst (PriceMonitor.iteration settings dex_name l p)) rest)).
Proof.
  cbn [PriceMonitor.run]. destruct (PriceMonitor.iteration _ _ _ _) as [l1 sleeps].
  cbn [fst snd]. now destruct (PriceMonitor.run _ _ _ _).
Qed.

(** X27.  [PhoenixClient.get_all_prices] returns the empty dictionary, which
    the polling loop counts as a failure.  So the loop of this venue runs in
    rounds of five polls: four followed by the update interval, the fifth
    by the pause of 30 seconds and the interval, after which the count
    starts again; and it never writes to the price store. *)
Theorem phoenix_is_polled_in_rounds_of_five (settings : Settings) (dex_name : string)
    (store : PriceStore) (rounds : nat) :
  PriceMonitor.run settings dex_name
    {| PriceMonitor.consecutive_failures := 0; PriceMonitor.store := store |}
    (concat (repeat (repeat (PriceMonitor.Polled PhoenixClient.get_all_prices) 5)
               rounds))
  = ({| PriceMonitor.consecutive_failures := 0; PriceMonitor.store := store |},
     concat (repeat (empty_round settings) rounds)).
Proof.
  induction rounds as [|k IH]; [reflexivity|].
  unfold PhoenixClient.get_all_prices in *.
  change (repeat (PriceMonitor.Polled ∅) 5)
    with [PriceMonitor.Polled ∅; PriceMonitor.Polled ∅; PriceMonitor.Polled ∅;
          PriceMonitor.Polled ∅; PriceMonitor.Polled ∅] in *.
  cbn [repeat concat app].
  rewrite !run_cons.
  repeat (rewrite iteration_without_prices;
          cbn [PriceMonitor.consecutive_failures PriceMonitor.store fst snd
               Nat.leb PriceMonitor.max_failures]).
  rewrite IH. reflexivity.
Qed.

(** ** The prices of the pool clients *)

Lemma fix_positive x :
  0 < PyDecimal.coefficient x -> 0 < PyDecimal.coefficient (PyDecimal.fix_ x).
Proof.
  intros Hx. unfold PyDecimal.fix_.
  destruct (Z.leb_spec (PyDecimal.num_digits (PyDecimal.coefficient x))
              PyDecimal.context_prec) as [H|H]; trivial.
  destruct (num_digits_spec (PyDecimal.coefficient x) ltac:(lia)) as (_ & H1 & _).
  set (nd := PyDecimal.num_digits _) in *. unfold PyDecimal.context_prec in *.
  set (k := nd - 28).
  assert (0 < 10 ^ k) by (apply Z.pow_pos_nonneg; lia).
  assert (0 < PyDecimal.div_half_even (Z.abs (PyDecimal.coefficient x)) (10 ^ k)) as Hm.
  { unfold PyDecimal.div_half_even.
    assert (10 ^ 27 <= Z.abs (PyDecimal.coefficient x) / 10 ^ k) as Hq.
    { apply Z.div_le_lower_bound; [lia|].
      rewrite <- Z.pow_add_r by lia. replace (k + 27) with (nd - 1) by (subst k; lia).
      exact H1. }
    assert (0 < 10 ^ 27) by now cbn.
    destruct (_ ?= _); [destruct (Z.even _)| |]; lia. }
  destruct (_ =? 10 ^ 28); cbn [PyDecimal.coefficient].
  - rewrite Z.sgn_pos by lia. now cbn.
  - rewrite Z.sgn_pos by lia. lia.
Qed.

Lemma div_positive x y :
  0 < PyDecimal.coefficient x -> 0 < PyDecimal.coefficient y ->
  exists p, PyDecimal.div x y = Return p /\ 0 < PyDecimal.coefficient p.
Proof.
  intros Hx Hy. unfold PyDecimal.div.
  replace (PyDecimal.coefficient y =? 0) with false by (symmetry; apply Z.eqb_neq; lia).
  replace (PyDecimal.coefficient x =? 0) with false by (symmetry; apply Z.eqb_neq; lia).
  eexists. split; [reflexivity|]. apply fix_positive. cbn [PyDecimal.coefficient].
  destruct (num_digits_spec (PyDecimal.coefficient x) ltac:(lia)) as (Hx0 & Hx1 & Hx2).
  destruct (num_digits_spec (PyDecimal.coefficient y) ltac:(lia)) as (Hy0 & Hy1 & Hy2).
  set (ndx := PyDecimal.num_digits (PyDecimal.coefficient x)) in *.
  set (ndy := PyDecimal.num_digits (PyDecimal.coefficient y)) in *.
  unfold PyDecimal.context_prec. set (shift := ndy - ndx + 28 + 1).
  rewrite !Z.sgn_pos, !Z.abs_eq in * by lia. rewrite !Z.mul_1_l.
  set (n := if 0 <=? shift then _ else _).
  set (d := if 0 <=? shift then _ else _).
  assert (0 < d /\ d <= n) as [Hd Hdn].
  { subst n d. destruct (Z.leb_spec 0 shift) as [Hs|Hs].
    - split; [lia|].
      assert (10 ^ ndy <= 10 ^ (ndx - 1 + shift)) by (apply Z.pow_le_mono_r; lia).
      rewrite Z.pow_add_r in * by lia.
      assert (0 < 10 ^ shift) by (apply Z.pow_pos_nonneg; lia). nia.
    - assert (0 < 10 ^ (- shift)) by (apply Z.pow_pos_nonneg; lia).
      split; [nia|].
      assert (10 ^ (ndy + - shift) <= 10 ^ (ndx - 1))
        by (apply Z.pow_le_mono_r; lia).
      rewrite Z.pow_add_r in * by lia. nia. }
  assert (1 <= n / d) as Hq by (apply Z.div_le_lower_bound; lia).
  destruct (_ =? 0); [lia|]. destruct (_ =? 0); lia.
Qed.

Lemma decimal_gt_zero_iff x :
  PyDecimal.gt x PyDecimal.zero = true <-> 0 < PyDecimal.coefficient x.
Proof. unfold PyDecimal.gt. against_zero PyDecimal.zero x. Qed.

Lemma monitored_In settings token :
  monitored settings token = true <-> In token (monitored_tokens settings).
Proof.
  unfold monitored. rewrite existsb_exists. split.
  - intros (t & Hin & E). apply String.eqb_eq in E. now subst.
  - intros H. exists token. split; trivial. apply String.eqb_refl.
Qed.

Lemma pool_step_quotes settings base quote pool prices clock prices' clock' :
  map_Forall (pool_quote settings) prices ->
  pool_step settings base quote pool (prices, clock) = Fetched (prices', clock') ->
  map_Forall (pool_quote settings) prices'.
Proof.
  intros Hp. unfold pool_step.
  destruct (monitored settings base) eqn:Eb; cbn [andb]; [|now intros [= <- _]].
  destruct (monitored settings quote) eqn:Eq; [|now intros [= <- _]].
  destruct (reserve_of (base_reserve pool)) as [br|]; [|discriminate].
  destruct (reserve_of (quote_reserve pool)) as [qr|]; [|discriminate].
  unfold pool_price.
  destruct (PyDecimal.gt br PyDecimal.zero) eqn:Ebr; cbn [andb]; [|now intros [= <- _]].
  destruct (PyDecimal.gt qr PyDecimal.zero) eqn:Eqr; [|now intros [= <- _]].
  apply decimal_gt_zero_iff in Ebr, Eqr.
  destruct (div_positive qr br Eqr Ebr) as (p & -> & Hpos).
  destruct (tick clock) as [now c]. intros [= <- _].
  apply map_Forall_insert_2; trivial.
  apply monitored_In in Eb, Eq.
  repeat split; cbn; eauto.
Qed.

Lemma pool_step_never_divides_by_zero settings base quote pool acc :
  pool_step settings base quote pool acc <> Failed DivisionError /\
  pool_step settings base quote pool acc <> Failed KeyError.
Proof.
  unfold pool_step. destruct (_ && _); [|split; discriminate].
  destruct (reserve_of (base_reserve pool)) as [br|e] eqn:Ebr.
  2:{ destruct (base_reserve pool); cbn in Ebr; try discriminate.
      injection Ebr as <-. split; discriminate. }
  destruct (reserve_of (quote_reserve pool)) as [qr|e] eqn:Eqr.
  2:{ destruct (quote_reserve pool); cbn in Eqr; try discriminate.
      injection Eqr as <-. split; discriminate. }
  unfold pool_price. destruct acc as [prices clock].
  destruct (PyDecimal.gt br PyDecimal.zero) eqn:Eb; cbn [andb];
    [|split; discriminate].
  destruct (PyDecimal.gt qr PyDecimal.zero) eqn:Eq; [|split; discriminate].
  apply decimal_gt_zero_iff in Eb, Eq.
  destruct (div_positive qr br Eq Eb) as (p & -> & _).
  destruct (tick clock); split; discriminate.
Qed.

(** X28.  The prices a poll of Raydium or Meteora returns, the reserves
    stated being finite numbers, are all prices of pairs of monitored
    tokens, all above zero (a pool with a reserve that is zero or negative
    gives no price), each with a float for liquidity and no price impact;
    and neither client ever divides by zero. *)
Theorem pool_prices_are_positive (settings : Settings) (pools : list Pool)
    (clock : Clock) :
  (forall prices clock',
     RaydiumClient.get_all_prices settings pools clock = Fetched (prices, clock') ->
     map_Forall (pool_quote settings) prices) /\
  (forall prices clock',
     MeteoraClient.get_all_prices settings pools clock = Fetched (prices, clock') ->
     map_Forall (pool_quote settings) prices) /\
  RaydiumClient.get_all_prices settings pools clock <> Failed DivisionError /\
  MeteoraClient.get_all_prices settings pools clock <> Failed DivisionError.
Proof.
  unfold RaydiumClient.get_all_prices, MeteoraClient.get_all_prices.
  assert (map_Forall (pool_quote settings) (∅ : Prices)) as H0
    by apply map_Forall_empty.
  revert H0. generalize (∅ : Prices) as prices0. revert clock.
  induction pools as [|pool rest IH]; intros clock prices0 H0;
    cbn [RaydiumClient.over_pools MeteoraClient.over_pools].
  - split; [now intros ? ? [= <- _]|]. split; [now intros ? ? [= <- _]|].
    split; discriminate.
  - destruct (base_mint pool) as [base|], (quote_mint pool) as [quote|];
      try (destruct (IH clock prices0 H0) as (_ & H2 & _ & H4);
           split; [discriminate|]; split; [exact H2|];
           split; [discriminate|exact H4]).
    pose proof (pool_step_never_divides_by_zero settings base quote pool
                  (prices0, clock)) as [Hd _].
    destruct (pool_step settings base quote pool (prices0, clock))
      as [[prices1 clock1]|e] eqn:E.
    + apply pool_step_quotes in E; trivial. apply (IH clock1 prices1 E).
    + split; [discriminate|]. split; [discriminate|]. split; congruence.
Qed.

Lemma over_pools_agree settings pools acc :
  forallb states_mints pools = true ->
  RaydiumClient.over_pools settings pools acc
  = MeteoraClient.over_pools settings pools acc.
Proof.
  revert acc. induction pools as [|pool rest IH]; intros acc H; trivial.
  cbn [forallb] in H. apply andb_prop in H as [Hp Hr].
  cbn [RaydiumClient.over_pools MeteoraClient.over_pools].
  unfold states_mints in Hp.
  destruct (base_mint pool), (quote_mint pool); try discriminate.
  destruct (pool_step _ _ _ _ _); auto.
Qed.

Lemma meteora_skips settings pools acc :
  MeteoraClient.over_pools settings pools acc
  = MeteoraClient.over_pools settings (List.filter states_mints pools) acc.
Proof.
  revert acc. induction pools as [|pool rest IH]; intros acc; trivial.
  cbn [List.filter]. unfold states_mints at 1.
  cbn [MeteoraClient.over_pools].
  destruct (base_mint pool) eqn:Eb, (quote_mint pool) eqn:Eq; auto.
  cbn [MeteoraClient.over_pools]. rewrite Eb, Eq.
  destruct (pool_step _ _ _ _ _); auto.
Qed.

Lemma raydium_raises settings pools acc :
  forallb states_mints pools = false ->
  exists e, RaydiumClient.over_pools settings pools acc = Failed e.
Proof.
  revert acc. induction pools as [|pool rest IH]; intros acc H; [discriminate|].
  cbn [forallb] in H. cbn [RaydiumClient.over_pools].
  unfold states_mints in H.
  destruct (base_mint pool), (quote_mint pool); eauto.
  cbn [andb] in H. destruct (pool_step _ _ _ _ _); eauto.
Qed.

(** X29.  On an answer whose pools all state both mints, the Raydium and the
    Meteora client compute the same prices.  A pool that lacks a mint is
    skipped by the Meteora client, whose result is that of the answer
    without such pools; the Raydium client's poll raises on such an answer
    and returns no price at all. *)
Theorem pools_without_a_mint (settings : Settings) (pools : list Pool)
    (clock : Clock) :
  MeteoraClient.get_all_prices settings pools clock
  = MeteoraClient.get_all_prices settings (List.filter states_mints pools) clock /\
  (forallb states_mints pools = true ->
   RaydiumClient.get_all_prices settings pools clock
   = MeteoraClient.get_all_prices settings pools clock) /\
  (forallb states_mints pools = false ->
   exists e, RaydiumClient.get_all_prices settings pools clock = Failed e).
Proof.
  unfold RaydiumClient.get_all_prices, MeteoraClient.get_all_prices.
  split; [apply meteora_skips|]. split.
  - apply over_pools_agree.
  - apply raydium_raises.
Qed.

(** ** The prices of the Jupiter client *)

Lemma quote_step_cases get_quote input_token output_token prices n :
  match get_quote n input_token output_token with
  | Some quote =>
    if JupiterClient.input_amount quote =? 0
    then JupiterClient.quote_step get_quote input_token output_token (prices, n)
         = Failed DivisionError
    else exists price,
        PyDecimal.div (PyDecimal.of_int (JupiterClient.output_amount quote))
          (PyDecimal.of_int (JupiterClient.input_amount quote)) = Return price /\
        (JupiterClient.output_amount quote = 0 -> PyDecimal.coefficient price = 0) /\
        JupiterClient.quote_step get_quote input_token output_token (prices, n)
        = Fetched (<[pair_key_of input_token output_token :=
                       PriceData.mk price (Some (Int 0))
                         (JupiterClient.price_impact quote)
                         (JupiterClient.timestamp quote)]> prices, S n)
  | None =>
    JupiterClient.quote_step get_quote input_token output_token (prices, n)
    = Fetched (prices, S n)
  end.
Proof.
  unfold JupiterClient.quote_step.
  destruct (get_quote n input_token output_token) as [quote|]; trivial.
  unfold PyDecimal.div. cbn [PyDecimal.of_int PyDecimal.coefficient].
  destruct (JupiterClient.input_amount quote =? 0); trivial.
  destruct (JupiterClient.output_amount quote =? 0) eqn:E.
  - eexists. split; [reflexivity|]. split; [reflexivity|]. reflexivity.
  - eexists. split; [reflexivity|]. split; [|reflexivity].
    apply Z.eqb_neq in E. contradiction.
Qed.

Lemma quote_step_invariant get_quote tokens input_token output_token prices n :
  inputs_not_zero get_quote ->
  In input_token tokens -> In output_token tokens ->
  map_Forall (jupiter_quote tokens) prices ->
  exists prices',
    JupiterClient.quote_step get_quote input_token output_token (prices, n)
    = Fetched (prices', S n) /\
    map_Forall (jupiter_quote tokens) prices'.
Proof.
  intros Hnz Hi Ho Hp.
  pose proof (quote_step_cases get_quote input_token output_token prices n) as H.
  destruct (get_quote n input_token output_token) as [quote|] eqn:E; [|eauto].
  apply Hnz in E. apply Z.eqb_neq in E. rewrite E in H.
  destruct H as (price & _ & _ & ->). eexists. split; [reflexivity|].
  apply map_Forall_insert_2; trivial. split; cbn; eauto.
Qed.

Lemma over_later_invariant get_quote tokens token_a later prices n :
  inputs_not_zero get_quote ->
  In token_a tokens -> (forall t, In t later -> In t tokens) ->
  map_Forall (jupiter_quote tokens) prices ->
  exists prices',
    JupiterClient.over_later get_quote token_a later (prices, n)
    = Fetched (prices', (n + 2 * length later)%nat) /\
    map_Forall (jupiter_quote tokens) prices'.
Proof.
  intros Hnz Ha. revert prices n.
  induction later as [|token_b rest IH]; intros prices n Hl Hp;
    cbn [JupiterClient.over_later].
  - exists prices. split; trivial. do 2 f_equal. cbn. lia.
  - unfold JupiterClient.both_directions.
    destruct (quote_step_invariant get_quote tokens token_a token_b prices n)
      as (p1 & -> & H1); trivial; [apply Hl; now left|].
    destruct (quote_step_invariant get_quote tokens token_b token_a p1 (S n))
      as (p2 & -> & H2); trivial; [apply Hl; now left|].
    destruct (IH p2 (S (S n))) as (p3 & -> & H3); trivial.
    { intros t Ht. apply Hl. now right. }
    exists p3. split; trivial. do 2 f_equal. cbn [length]. lia.
Qed.

Lemma over_tokens_invariant get_quote tokens later prices n :
  inputs_not_zero get_quote ->
  (forall t, In t later -> In t tokens) ->
  map_Forall (jupiter_quote tokens) prices ->
  exists prices',
    JupiterClient.over_tokens get_quote later (prices, n)
    = Fetched (prices', (n + length later * (length later - 1))%nat) /\
    map_Forall (jupiter_quote tokens) prices'.
Proof.
  intros Hnz. revert prices n.
  induction later as [|token_a rest IH]; intros prices n Hl Hp;
    cbn [JupiterClient.over_tokens].
  - exists prices. split; trivial. do 2 f_equal. cbn. lia.
  - destruct (over_later_invariant get_quote tokens token_a rest prices n)
      as (p1 & -> & H1); trivial; [apply Hl; now left|intros t Ht; apply Hl; now right|].
    destruct (IH p1 (n + 2 * length rest)%nat) as (p2 & -> & H2); trivial.
    { intros t Ht. apply Hl. now right. }
    exists p2. split; trivial. do 2 f_equal. cbn [length].
    destruct (length rest) as [|k]; cbn; lia.
Qed.

(** X30.  While no quote answered has an input amount of zero, the poll of
    the Jupiter client returns, after two requests for every two positions
    of the monitored tokens; every price it returns is of a pair of
    monitored tokens and has the integer 0 for liquidity.  The amounts of a
    quote are divided without a test: when the first request is answered
    with an input amount of zero the whole poll raises, and when it is
    answered with an output amount of zero the price stored is zero. *)
Theorem jupiter_divides_the_amounts_untested (settings : Settings)
    (get_quote : JupiterClient.Quotes) :
  let tokens := monitored_tokens settings in
  (inputs_not_zero get_quote ->
   exists prices,
     JupiterClient.get_all_prices settings get_quote
     = Fetched (prices, (length tokens * (length tokens - 1))%nat) /\
     map_Forall (jupiter_quote tokens) prices) /\
  (forall token_a token_b rest quote,
     tokens = token_a :: token_b :: rest ->
     get_quote O token_a token_b = Some quote ->
     (JupiterClient.input_amount quote = 0 ->
      JupiterClient.get_all_prices settings get_quote = Failed DivisionError) /\
     (JupiterClient.input_amount quote <> 0 ->
      JupiterClient.output_amount quote = 0 ->
      exists price_data,
        JupiterClient.quote_step get_quote token_a token_b (∅, O)
        = Fetched ({[ pair_key_of token_a token_b := price_data ]}, 1%nat) /\
        PyDecimal.coefficient (PriceData.price price_data) = 0)).
Proof.
  cbv zeta. unfold JupiterClient.get_all_prices. split.
  - intros Hnz.
    destruct (over_tokens_invariant get_quote (monitored_tokens settings)
                (monitored_tokens settings) ∅ O Hnz (fun t H => H)
                (map_Forall_empty _)) as (prices & E & H).
    exists prices. split; trivial.
  - intros token_a token_b rest quote -> Eq.
    pose proof (quote_step_cases get_quote token_a token_b ∅ O) as H.
    rewrite Eq in H. split.
    + intros Hz. rewrite Hz in H. cbn [Z.eqb] in H.
      cbn [JupiterClient.over_tokens JupiterClient.over_later].
      unfold JupiterClient.both_directions. now rewrite H.
    + intros Hnz Hout. apply Z.eqb_neq in Hnz. rewrite Hnz in H.
      destruct H as (price & _ & Hp & ->). eexists. split; [reflexivity|].
      cbn. auto.
Qed.


(** ** The further properties at concrete inputs *)

Section FurtherInstances.
Local Open Scope string_scope.

(** X1 at a concrete input: the second poll of [two_polls] appends its
    quote to the ring of the first. *)
Lemma X1_witness :
  exists kept,
    PriceHistory.record "jupiter" {[ "SOL-USDC" := quote 10060 (-2) 1234567891 ]}
      (PriceHistory.record "jupiter"
         {[ "SOL-USDC" := quote 10050 (-2) 1234567890 ]} ∅)
      !! "jupiter:SOL-USDC"
    = Some (kept ++ [PriceHistory.entry_of (quote 10060 (-2) 1234567891)])%list.
Proof.
  destruct (proj1 (history_records_each_quote "jupiter"
                     {[ "SOL-USDC" := quote 10060 (-2) 1234567891 ]}
                     (PriceHistory.record "jupiter"
                        {[ "SOL-USDC" := quote 10050 (-2) 1234567890 ]} ∅))
              "SOL-USDC" (quote 10060 (-2) 1234567891))
    as (kept & E & _).
  - vm_compute. reflexivity.
  - exists kept. exact E.
Defined.

(** X2 at a concrete input. *)
Lemma X2_witness :
  recorded two_polls ∅ !! "jupiter:SOL-USDC" = Some two_entries /\
  (length two_entries <= 100)%nat.
Proof.
  assert (recorded two_polls ∅ !! "jupiter:SOL-USDC" = Some two_entries) as H
    by (vm_compute; reflexivity).
  split; [exact H|].
  exact (history_rings_hold_at_most_100 two_polls "jupiter:SOL-USDC" two_entries H).
Defined.

(** X3 at a concrete input: the newest entry of a ring of two. *)
Lemma X3_witness :
  0 < 1 /\
  length (PriceHistory.get_price_history "SOL" "USDC" "jupiter" 1 two_polls_history)
  = Nat.min (Z.to_nat 1)
      (length (default [] (two_polls_history
                             !! PriceHistory.history_key "jupiter"
                                  (pair_key_of "SOL" "USDC")))).
Proof.
  assert (0 < 1) as H by lia.
  split; [exact H|].
  exact (proj2 (price_history_returns_the_newest "SOL" "USDC" "jupiter" 1
                  two_polls_history H)).
Defined.

(** X7 at a concrete input: the best quote of [mixed_keys] for A-B is the
    inverted quote of the second venue, and the first venue quotes no more. *)
Lemma X7_witness :
  fst (PriceMonitor.get_price_for_pair "A" "B" None
         (monitor_state mixed_keys 1234567891)) = Return (Some inverted_quote) /\
  forall d q,
    In d (map snd mixed_keys) ->
    quoted (pair_key_of "A" "B") (pair_key_of "B" "A") d q ->
    PyDecimal.le (PriceData.price q) (PriceData.price inverted_quote) = true.
Proof.
  assert (fst (PriceMonitor.get_price_for_pair "A" "B" None
                 (monitor_state mixed_keys 1234567891))
          = Return (Some inverted_quote)) as H by (vm_compute; reflexivity).
  split; [exact H|].
  exact (proj2 (best_price_is_the_highest_quote "A" "B"
                  (monitor_state mixed_keys 1234567891) (Some inverted_quote) H)).
Defined.

(** X8 at a concrete input: a venue with only B-A, at zero. *)
Lemma X8_witness :
  fst (PriceMonitor.get_price_for_pair "A" "B" None
         (monitor_state zero_reverse 1234567891)) = Raise ZeroDivisionError.
Proof.
  apply (proj1 (best_price_raises_on_a_zero_reverse_quote "A" "B"
                  (monitor_state zero_reverse 1234567891))).
  apply Exists_cons_hd. split; [vm_compute; reflexivity|].
  exists (quote 0 0 1234567890). split; vm_compute; reflexivity.
Defined.

(** X9 at a concrete input: the cheaper of two quotes is zero. *)
Lemma X9_witness :
  fst (PriceMonitor.get_arbitrage_opportunities (settings_for ["A"; "B"])
         half_percent (monitor_state zero_cheapest 1234567891))
  = Raise ZeroDivisionError.
Proof.
  apply (proj2 (proj2 (monitor_scan_divides_by_the_cheapest_price
                         (settings_for ["A"; "B"]) half_percent
                         (monitor_state zero_cheapest 1234567891)))
           "A" "B" zero_cheapest_min zero_cheapest_max).
  - vm_compute. auto.
  - vm_compute. auto.
  - discriminate.
  - vm_compute. lia.
  - vm_compute. reflexivity.
  - vm_compute. reflexivity.
  - discriminate.
  - reflexivity.
Defined.

(** X11 at a concrete input: a store of one venue. *)
Lemma X11_witness :
  PriceMonitor.get_arbitrage_opportunities (settings_for ["A"; "B"]) half_percent
    (monitor_state one_venue 1234567891)
  = (Return [], monitor_state one_venue 1234567891) /\
  fst (SwapAgent.find_arbitrage_opportunities (settings_for ["A"; "B"])
         (monitor_state one_venue 1234567891)) = Return [].
Proof.
  apply (single_venue_pairs_yield_nothing (settings_for ["A"; "B"]) half_percent
           (monitor_state one_venue 1234567891)).
  intros token_a token_b.
  apply (List.filter_length_le _ one_venue).
Defined.

(** X12 at a concrete input. *)
Lemma X12_witness :
  SwapExecutor._build_swap_data (settings_for ["A"; "B"]) "A" "B" 1000000
    ["jupiter"; "raydium"] 0 = Some (order_of "A" "B") /\
  Forall2 hop_venue ["jupiter"; "raydium"]
    (SwapExecutor.swap_instructions (order_of "A" "B")).
Proof.
  assert (SwapExecutor._build_swap_data (settings_for ["A"; "B"]) "A" "B" 1000000
            ["jupiter"; "raydium"] 0 = Some (order_of "A" "B")) as H
    by (vm_compute; reflexivity).
  split; [exact H|].
  exact (proj1 (proj2 (proj2 (order_has_one_hop_per_venue (settings_for ["A"; "B"])
                                "A" "B" 1000000 ["jupiter"; "raydium"] 0
                                (order_of "A" "B") H)))).
Defined.

(** X13 at a concrete input: a path through a venue that is not known. *)
Lemma X13_witness :
  SwapExecutor._build_swap_data (settings_for ["A"; "B"]) "A" "B" 1000000
    ["jupiter"; "orca"] 0 = None.
Proof.
  apply (proj1 (unknown_venue_builds_no_order (settings_for ["A"; "B"])
                  rpc_backend "A" "B" 1000000 ["jupiter"; "orca"] 0
                  (initial_state (clock_at 1234567891)))).
  apply Exists_cons_tl, Exists_cons_hd. reflexivity.
Defined.

(** X14 at a concrete input: the first trade of a new agent. *)
Lemma X14_witness :
  counted (SolanaSwapAgent.performance_stats new_agent) /\
  counted (SolanaSwapAgent.performance_stats
             (snd (SolanaSwapAgent.execute_single_opportunity
                     (settings_for ["A"; "B"]) (float_of_Z 1) rpc_backend
                     (three_venues_agent_opportunity (float_of_Z 1234567891))
                     new_agent))).
Proof.
  assert (counted (SolanaSwapAgent.performance_stats new_agent)) as H
    by (unfold counted; cbn; lia).
  split; [exact H|].
  exact (proj1 (agent_counts_successes_not_failures (settings_for ["A"; "B"])
                  (float_of_Z 1) rpc_backend
                  (three_venues_agent_opportunity (float_of_Z 1234567891))
                  new_agent H)).
Defined.

(** X15 at a concrete input: a trade the cluster confirms, with the event
    of the program in its log. *)
Lemma X15_witness :
  no_profit (SolanaSwapAgent.performance_stats
               (SolanaSwapAgent.trades (settings_for ["A"; "B"]) (float_of_Z 1)
                  [one_trade] new_agent)).
Proof.
  apply (recorded_profit_is_always_zero (settings_for ["A"; "B"]) (float_of_Z 1)
           [one_trade] new_agent).
  - unfold counted. cbn. lia.
  - unfold no_profit. cbn. auto.
  - constructor; [|constructor].
    exists cluster, 1%nat, 200000. reflexivity.
Defined.

(** X16 at a concrete input. *)
Lemma X16_witness :
  exists minimum,
    calculate_slippage_amount 1000000 50 = Return minimum /\
    0 <= minimum <= 1000000.
Proof. apply (slippage_amount_is_within_the_amount 1000000 50); lia. Defined.

(** X17 at a concrete input. *)
Lemma X17_witness :
  SwapExecutor._build_swap_data (settings_for ["A"; "B"]) "A" "B" 1000000
    ["jupiter"; "raydium"] 0 = None
  <-> Exists unknown_venue ["jupiter"; "raydium"].
Proof.
  apply (order_is_built_when_the_venues_are_known (settings_for ["A"; "B"])
           "A" "B" 1000000 ["jupiter"; "raydium"] 0).
  - lia.
  - cbn. lia.
Defined.

Lemma raw_key_length s k : raw_key s = Return k -> length k = 32%nat.
Proof.
  unfold raw_key. destruct (Nat.eqb_spec (length (list_byte_of_string s)) 32).
  - intros [= <-]. assumption.
  - discriminate.
Defined.

(** X18 at a concrete input. *)
Lemma X18_witness :
  (exists data,
     Executor._serialize_swap_data raw_key (order_of mint_x mint_y) = Return data)
  <-> swap_data_fits raw_key (order_of mint_x mint_y).
Proof.
  apply (wire_format_of_an_order raw_key raw_key_length (order_of mint_x mint_y)).
Defined.

(** X19 at a concrete input. *)
Lemma X19_witness :
  Executor._serialize_swap_data raw_key (order_of mint_x mint_y) = Return wire_data /\
  Forall2 (same_instruction raw_key)
    (SwapExecutor.swap_instructions (order_of mint_x mint_y))
    (SwapExecutor.swap_instructions (order_of mint_x mint_y)).
Proof.
  assert (Executor._serialize_swap_data raw_key (order_of mint_x mint_y)
          = Return wire_data) as H by (vm_compute; reflexivity).
  split; [exact H|].
  exact (proj2 (proj2 (wire_format_is_injective raw_key raw_key_length
                         (order_of mint_x mint_y) (order_of mint_x mint_y)
                         wire_data H H))).
Defined.

(** X21 at a concrete input. *)
Lemma X21_witness :
  exists data,
    Executor._serialize_swap_data raw_key (order_of mint_x mint_y) = Return data /\
    length data = (15 + 81 * 2)%nat.
Proof.
  apply (built_order_fits_the_wire_format raw_key (settings_for [mint_x; mint_y])
           mint_x mint_y 1000000 ["jupiter"; "raydium"] 0 (order_of mint_x mint_y)).
  - exact raw_key_length.
  - lia.
  - cbn. lia.
  - lia.
  - cbn. lia.
  - eexists. vm_compute. reflexivity.
  - eexists. vm_compute. reflexivity.
  - vm_compute. reflexivity.
Defined.

(** X22 at a concrete input: the statistics after four successful swaps. *)
Lemma X22_witness :
  exists report,
    Executor.get_execution_stats (SwapExecutor.execution_stats after_four_successes) 0
    = Return report.
Proof.
  destruct (success_rate_is_a_percentage
              (SwapExecutor.execution_stats after_four_successes) 0)
    as (report & E & _).
  - split; apply Z.leb_le; vm_compute; reflexivity.
  - exists report. exact E.
Defined.

(** X23 at a concrete input: one and a half SOL. *)
Lemma X23_witness :
  exists sol,
    lamports_to_sol 1500000000 = Return sol /\
    (PyDecimal.to_Q sol == inject_Z 1500000000 / 1000000000)%Q /\
    sol_to_lamports sol = 1500000000.
Proof.
  apply (lamports_round_trip 1500000000). apply Z.ltb_lt. reflexivity.
Defined.

(** X28 at a concrete input: of [three_pools] the Meteora client prices the
    first, at 0.25. *)
Lemma X28_witness :
  exists prices clock',
    MeteoraClient.get_all_prices (settings_for ["A"; "B"]) three_pools
      (clock_at 1234567890) = Fetched (prices, clock') /\
    map_Forall (pool_quote (settings_for ["A"; "B"])) prices.
Proof.
  eexists _, _. split; [vm_compute; reflexivity|].
  apply (proj1 (proj2 (pool_prices_are_positive (settings_for ["A"; "B"])
                         three_pools (clock_at 1234567890))) _
           {| readings := fun _ => float_of_Z 1234567890; calls := 1 |}).
  vm_compute. reflexivity.
Defined.

(** X29 at a concrete input: the second of [three_pools] states no quote
    mint. *)
Lemma X29_witness :
  exists e,
    RaydiumClient.get_all_prices (settings_for ["A"; "B"]) three_pools
      (clock_at 1234567890) = Failed e.
Proof.
  apply (proj2 (proj2 (pools_without_a_mint (settings_for ["A"; "B"]) three_pools
                         (clock_at 1234567890)))).
  reflexivity.
Defined.

(** X30 at a concrete input: two tokens, two requests. *)
Lemma X30_witness :
  exists prices,
    JupiterClient.get_all_prices (settings_for ["A"; "B"]) quarter_quotes
    = Fetched (prices, 2%nat) /\
    map_Forall (jupiter_quote ["A"; "B"]) prices.
Proof.
  apply (proj1 (jupiter_divides_the_amounts_untested (settings_for ["A"; "B"])
                  quarter_quotes)).
  intros n input_token output_token quote [= <-]. discriminate.
Defined.

End FurtherInstances.
